(** * A shallow embedding of the edit-application and validation core

    The development follows the Python sources module by module:
    [PyStr] gives the string primitives of the language the sources rely on,
    [Re] the backtracking matcher of the [re] module for the constructs the
    sources use, and [DiffEditor], [Builder], [Chat] and [ProjectContext]
    embed the functions of the files of the same names.

    Texts are values of [string]; every [ascii] stands for one code point in
    the range 0..255.  Where a source literal holds a character above that
    range (an arrow or a warning sign inside a message), the literal is kept
    as written and occupies the positions of its UTF-8 bytes; such texts are
    only ever produced, never inspected, by the code embedded here. *)

From Stdlib Require Import Bool Arith NArith Lia List Ascii String Permutation.
Import ListNotations.

Local Set Warnings "-register-all".

Local Open Scope list_scope.
Local Open Scope string_scope.
Local Open Scope nat_scope.

(* ================================================================== *)
(** * Python string primitives *)
(* ================================================================== *)

Module PyStr.

(** Characters that cannot be typed inside a literal of this file. *)
Definition LF : ascii := ascii_of_nat 10.
Definition TAB : ascii := ascii_of_nat 9.
Definition CR : ascii := ascii_of_nat 13.
Definition DQ : ascii := ascii_of_nat 34.
Definition SQ : ascii := ascii_of_nat 39.
Definition BSL : ascii := ascii_of_nat 92.

Definition chr (c : ascii) : string := String c EmptyString.
Definition nl : string := chr LF.

(** [esc] reads a literal written with Python-style escapes: a backslash
    followed by [n], [t], [r], [q] (double quote) or a backslash denotes the
    corresponding character; any other character stands for itself. *)
Fixpoint esc (s : string) : string :=
  match s with
  | EmptyString => EmptyString
  | String c s' =>
      if Ascii.eqb c BSL then
        match s' with
        | EmptyString => chr BSL
        | String d s'' =>
            if Ascii.eqb d "n" then String LF (esc s'')
            else if Ascii.eqb d "t" then String TAB (esc s'')
            else if Ascii.eqb d "r" then String CR (esc s'')
            else if Ascii.eqb d "q" then String DQ (esc s'')
            else if Ascii.eqb d BSL then String BSL (esc s'')
            else String BSL (esc s')
        end
      else String c (esc s')
  end.

(** [bool(s)] for a string: non-empty. *)
Definition truthy (s : string) : bool :=
  match s with EmptyString => false | _ => true end.

(** [str.isspace] on one code point below 256. *)
Definition isspace (c : ascii) : bool :=
  let n := nat_of_ascii c in
  ((9 <=? n) && (n <=? 13)) || ((28 <=? n) && (n <=? 32))
  || (n =? 133) || (n =? 160).

(** [s.startswith(p)] *)
Fixpoint startswith (s p : string) : bool :=
  match p, s with
  | EmptyString, _ => true
  | String a p', String b s' => Ascii.eqb a b && startswith s' p'
  | String _ _, EmptyString => false
  end.

(** [s[n:]] and [s[:n]] for [0 <= n]. *)
Fixpoint drop (n : nat) (s : string) : string :=
  match n, s with
  | S k, String _ s' => drop k s'
  | _, _ => s
  end.

Fixpoint take (n : nat) (s : string) : string :=
  match n, s with
  | S k, String c s' => String c (take k s')
  | _, _ => EmptyString
  end.

(** [s.endswith(p)] *)
Definition endswith (s p : string) : bool :=
  (String.length p <=? String.length s)
  && String.eqb (drop (String.length s - String.length p) s) p.

(** [s.find(sub)], [None] standing for -1. *)
Fixpoint find (s sub : string) : option nat :=
  if startswith s sub then Some 0
  else match s with
       | EmptyString => None
       | String _ s' => option_map S (find s' sub)
       end.

(** [sub in s] *)
Definition contains (s sub : string) : bool :=
  match find s sub with Some _ => true | None => false end.

(** [s.count(sub)]: occurrences found left to right without overlap.
    [skip] is the number of characters still covered by the last
    occurrence. *)
Fixpoint count_from (s sub : string) (skip : nat) : nat :=
  match skip with
  | S k =>
      match s with
      | EmptyString => 0
      | String _ s' => count_from s' sub k
      end
  | 0 =>
      if startswith s sub then
        S (match s with
           | EmptyString => 0
           | String _ s' => count_from s' sub (String.length sub - 1)
           end)
      else
        match s with
        | EmptyString => 0
        | String _ s' => count_from s' sub 0
        end
  end.

Definition count (s sub : string) : nat := count_from s sub 0.

(** [s.replace(old, new, 1)] *)
Definition replace_first (s old new : string) : string :=
  match find s old with
  | Some i => take i s ++ new ++ drop (i + String.length old) s
  | None => s
  end.

(** [s.replace(old, new)] *)
Fixpoint replace_from (s old new : string) (skip : nat) : string :=
  match s with
  | EmptyString =>
      match old with EmptyString => new | _ => EmptyString end
  | String c s' =>
      match skip with
      | S k => replace_from s' old new k
      | 0 =>
          match old with
          | EmptyString => new ++ String c (replace_from s' old new 0)
          | _ =>
              if startswith s old
              then new ++ replace_from s' old new (String.length old - 1)
              else String c (replace_from s' old new 0)
          end
      end
  end.

Definition replace (s old new : string) : string := replace_from s old new 0.

(** [s.split(sep)] for a separator of one character. *)
Fixpoint split (s : string) (sep : ascii) : list string :=
  match s with
  | EmptyString => [EmptyString]
  | String c s' =>
      if Ascii.eqb c sep then EmptyString :: split s' sep
      else match split s' sep with
           | h :: t => String c h :: t
           | [] => [chr c]
           end
  end.

(** [sep.join(l)] *)
Fixpoint join (sep : string) (l : list string) : string :=
  match l with
  | [] => EmptyString
  | [x] => x
  | x :: rest => x ++ sep ++ join sep rest
  end.

(** [s.lstrip(chars)], [s.rstrip(chars)], [s.strip(chars)] for a set of
    characters given by its membership test. *)
Fixpoint lstrip_by (p : ascii -> bool) (s : string) : string :=
  match s with
  | EmptyString => EmptyString
  | String c s' => if p c then lstrip_by p s' else s
  end.

Fixpoint rstrip_by (p : ascii -> bool) (s : string) : string :=
  match s with
  | EmptyString => EmptyString
  | String c s' =>
      match rstrip_by p s' with
      | EmptyString => if p c then EmptyString else chr c
      | r => String c r
      end
  end.

Definition strip_by (p : ascii -> bool) (s : string) : string :=
  lstrip_by p (rstrip_by p s).

Definition lstrip : string -> string := lstrip_by isspace.
Definition rstrip : string -> string := rstrip_by isspace.
Definition strip : string -> string := strip_by isspace.

(** [s.lower()] on code points below 256. *)
Definition lower_char (c : ascii) : ascii :=
  let n := nat_of_ascii c in
  if ((65 <=? n) && (n <=? 90)) || ((192 <=? n) && (n <=? 214))
     || ((216 <=? n) && (n <=? 222))
  then ascii_of_nat (n + 32) else c.

Fixpoint lower (s : string) : string :=
  match s with
  | EmptyString => EmptyString
  | String c s' => String (lower_char c) (lower s')
  end.

(** [s.split()]: the maximal runs of characters that are not white space.
    [cur] is the run being read, reversed. *)
Fixpoint rev_string (acc s : string) : string :=
  match s with
  | EmptyString => acc
  | String c s' => rev_string (String c acc) s'
  end.

Fixpoint words_from (cur : string) (s : string) : list string :=
  match s with
  | EmptyString =>
      match cur with EmptyString => [] | _ => [rev_string "" cur] end
  | String c s' =>
      if isspace c then
        match cur with
        | EmptyString => words_from "" s'
        | _ => rev_string "" cur :: words_from "" s'
        end
      else words_from (String c cur) s'
  end.

Definition words (s : string) : list string := words_from "" s.

(** Membership of a string in a list of strings ([x in (..)], [x in set]). *)
Definition mem (x : string) (l : list string) : bool :=
  existsb (String.eqb x) l.

(** A list slice [l[i:j]] for [0 <= i]. *)
Definition slice {A} (l : list A) (i j : nat) : list A :=
  firstn (j - i) (skipn i l).

End PyStr.

Import PyStr.

(** The first [Some] produced along a list: a [for] loop that returns from
    inside its body. *)
Fixpoint first_some {A B : Type} (f : A -> option B) (l : list A) : option B :=
  match l with
  | [] => None
  | x :: rest => match f x with Some y => Some y | None => first_some f rest end
  end.

(* ================================================================== *)
(** * The [re] module: a backtracking matcher *)
(* ================================================================== *)

Module Re.

(** The pattern constructs the sources use.  [Star true r] is the greedy
    [r*], [Star false r] the lazy [r*?]; [Group n r] is the capturing group
    numbered [n]; [Bol] is [^], [EndZ] is [\Z] and [Look r] the lookahead
    [(?=r)]. *)
Inductive regex : Type :=
| Eps
| Lit (a : ascii)
| Cls (p : ascii -> bool)
| Dot
| Seq (r1 r2 : regex)
| Alt (r1 r2 : regex)
| Star (greedy : bool) (r : regex)
| Group (n : nat) (r : regex)
| Bol
| EndZ
| Look (r : regex).

Record flags : Type := Flags {
  ignorecase : bool;
  dotall : bool;
  multiline : bool
}.

Definition NOFLAGS := Flags false false false.
Definition DOTALL := Flags false true false.
Definition MULTILINE := Flags false false true.
Definition IGNORECASE := Flags true false false.
Definition DOTALL_IGNORECASE := Flags true true false.

(** A capture remembers the text that was left when the group was entered
    and when it was closed; the captured text is the difference. *)
Definition caps : Type := list (nat * (string * string)).

(** The state reached by a match: the character before the position, the
    text left, the captures, and whether a character was consumed. *)
Definition res : Type := (option ascii * string * caps * bool)%type.

Definition cont : Type := option ascii -> string -> caps -> bool -> option res.

Definition lit_matches (fl : flags) (a b : ascii) : bool :=
  if ignorecase fl then Ascii.eqb (lower_char a) (lower_char b)
  else Ascii.eqb a b.

Definition at_line_start (fl : flags) (prev : option ascii) : bool :=
  match prev with
  | None => true
  | Some b => multiline fl && Ascii.eqb b LF
  end.

Definition or_else (x y : option res) : option res :=
  match x with Some _ => x | None => y end.

(** The loop of a star: [body] matches one iteration and [n] bounds the
    number of iterations.  An iteration that consumes nothing is abandoned,
    so a star runs at most once per character left. *)
Fixpoint star_loop
    (body : option ascii -> string -> caps -> bool -> cont -> option res)
    (greedy : bool) (k : cont) (n : nat) (prev : option ascii) (s : string)
    (c : caps) (adv : bool) {struct n} : option res :=
  match n with
  | 0 => k prev s c adv
  | S n' =>
      let again :=
        body prev s c false
          (fun prev' s' c' adv' =>
             if adv' then star_loop body greedy k n' prev' s' c' true
             else None) in
      if greedy then or_else again (k prev s c adv)
      else or_else (k prev s c adv) again
  end.

(** [run fl r prev s c adv k] matches [r] at the head of [s] and hands the
    state reached to [k]; alternatives are tried in the order of the
    backtracking engine. *)
Fixpoint run (fl : flags) (r : regex) (prev : option ascii) (s : string)
    (c : caps) (adv : bool) (k : cont) {struct r} : option res :=
  match r with
  | Eps => k prev s c adv
  | Lit a =>
      match s with
      | String b s' => if lit_matches fl a b then k (Some b) s' c true else None
      | EmptyString => None
      end
  | Cls p =>
      match s with
      | String b s' => if p b then k (Some b) s' c true else None
      | EmptyString => None
      end
  | Dot =>
      match s with
      | String b s' =>
          if dotall fl || negb (Ascii.eqb b LF) then k (Some b) s' c true
          else None
      | EmptyString => None
      end
  | Seq r1 r2 =>
      run fl r1 prev s c adv (fun prev' s' c' adv' => run fl r2 prev' s' c' adv' k)
  | Alt r1 r2 =>
      or_else (run fl r1 prev s c adv k) (run fl r2 prev s c adv k)
  | Star greedy r' =>
      star_loop (run fl r') greedy k (String.length s) prev s c adv
  | Group n r' =>
      run fl r' prev s c adv
        (fun prev' s' c' adv' => k prev' s' ((n, (s, s')) :: c') adv')
  | Bol => if at_line_start fl prev then k prev s c adv else None
  | EndZ => match s with EmptyString => k prev s c adv | _ => None end
  | Look r' =>
      match run fl r' prev s c adv (fun p' s' c' a' => Some (p', s', c', a')) with
      | Some (_, _, c', _) => k prev s c' adv
      | None => None
      end
  end.

(** One match: the text left at its start and at its end, and its groups. *)
Record rmatch : Type := RMatch {
  m_prev : option ascii;
  m_from : string;
  m_prev_end : option ascii;
  m_to : string;
  m_caps : caps;
  m_nonempty : bool
}.

(** The text between two suffixes of the same subject. *)
Definition between (from to : string) : string :=
  take (String.length from - String.length to) from.

(** [m.group(0)] *)
Definition group0 (m : rmatch) : string := between (m_from m) (m_to m).

Fixpoint lookup (n : nat) (c : caps) : option (string * string) :=
  match c with
  | [] => None
  | (i, v) :: rest => if i =? n then Some v else lookup n rest
  end.

(** [m.group(n)], [None] when the group took no part in the match. *)
Definition group (m : rmatch) (n : nat) : option string :=
  match lookup n (m_caps m) with
  | Some (from, to) => Some (between from to)
  | None => None
  end.

(** The match attempted at one position.  [must_advance] refuses the empty
    match: the scanner sets it after an empty match, so that the next match
    found at the same position is a longer one. *)
Definition match_here (fl : flags) (r : regex) (prev : option ascii)
    (s : string) (must_advance : bool) : option rmatch :=
  match run fl r prev s [] false
          (fun p' s' c' a' =>
             if must_advance && negb a' then None else Some (p', s', c', a'))
  with
  | Some (p', s', c', a') => Some (RMatch prev s p' s' c' a')
  | None => None
  end.

(** The leftmost match at or after the position; [must_advance] only
    constrains the attempt at the first position. *)
Fixpoint scan (fl : flags) (r : regex) (prev : option ascii) (s : string)
    (must_advance : bool) : option rmatch :=
  match match_here fl r prev s must_advance with
  | Some m => Some m
  | None =>
      match s with
      | EmptyString => None
      | String a s' => scan fl r (Some a) s' false
      end
  end.

(** [re.search(r, s)] *)
Definition search (fl : flags) (r : regex) (s : string) : option rmatch :=
  scan fl r None s false.

(** [re.finditer(r, s)]: each match starts where the previous one ended; an
    empty match forces the next one to advance.  Two matches at most are
    found per character, which bounds the loop. *)
Fixpoint finditer_from (n : nat) (fl : flags) (r : regex)
    (prev : option ascii) (s : string) (must_advance : bool) : list rmatch :=
  match n with
  | 0 => []
  | S n' =>
      match scan fl r prev s must_advance with
      | None => []
      | Some m =>
          m :: finditer_from n' fl r (m_prev_end m) (m_to m)
                 (negb (m_nonempty m))
      end
  end.

Definition finditer (fl : flags) (r : regex) (s : string) : list rmatch :=
  finditer_from (S (S (String.length s + String.length s))) fl r None s false.

(** [re.sub(r, '', s)]: the text outside the matches. *)
Fixpoint remove_matches (s : string) (ms : list rmatch) : string :=
  match ms with
  | [] => s
  | m :: rest => between s (m_from m) ++ remove_matches (m_to m) rest
  end.

Definition sub_empty (fl : flags) (r : regex) (s : string) : string :=
  remove_matches s (finditer fl r s).

(** ** Pattern combinators *)

Fixpoint str (s : string) : regex :=
  match s with
  | EmptyString => Eps
  | String a EmptyString => Lit a
  | String a s' => Seq (Lit a) (str s')
  end.

Fixpoint seqs (l : list regex) : regex :=
  match l with
  | [] => Eps
  | [r] => r
  | r :: rest => Seq r (seqs rest)
  end.

Fixpoint alts (l : list regex) : regex :=
  match l with
  | [] => Eps
  | [r] => r
  | r :: rest => Alt r (alts rest)
  end.

Definition star (r : regex) : regex := Star true r.
Definition lazy_star (r : regex) : regex := Star false r.
Definition plus (r : regex) : regex := Seq r (Star true r).
Definition lazy_plus (r : regex) : regex := Seq r (Star false r).
Definition opt (r : regex) : regex := Alt r Eps.

Definition in_range (lo hi : nat) (c : ascii) : bool :=
  (lo <=? nat_of_ascii c) && (nat_of_ascii c <=? hi).

(** [\s], [\S], [\d], [\w] on code points below 256. *)
Definition is_s : ascii -> bool := isspace.
Definition is_S (c : ascii) : bool := negb (isspace c).
Definition is_d : ascii -> bool := in_range 48 57.
Definition is_w (c : ascii) : bool :=
  in_range 48 57 c || in_range 65 90 c || in_range 95 95 c
  || in_range 97 122 c || in_range 170 170 c || in_range 178 179 c
  || in_range 181 181 c || in_range 185 186 c || in_range 188 190 c
  || in_range 192 214 c || in_range 216 246 c || in_range 248 255 c.

Definition one_of (l : list ascii) (c : ascii) : bool :=
  existsb (Ascii.eqb c) l.
Definition none_of (l : list ascii) (c : ascii) : bool :=
  negb (one_of l c).

(** The class of the two quote characters. *)
Definition quote : regex := Cls (one_of [DQ; SQ]).

End Re.

(* ================================================================== *)
(** * pathlib and the files on disk *)
(* ================================================================== *)

Module Fs.

(** An absolute path is the list of its components below the root of the
    file system.  The model is the POSIX flavour of [pathlib] on a disk
    without symbolic links, where resolving a path is the lexical
    elimination of its [..] components. *)
Definition path : Type := list string.

(** The components [pathlib] keeps when it parses a text: empty components
    and single dots disappear, double dots stay. *)
Definition parts (s : string) : list string :=
  filter (fun c => negb (String.eqb c "") && negb (String.eqb c "."))
         (split s "/").

(** [base / filepath]: an absolute right operand replaces the base. *)
Definition joinpath (base : path) (filepath : string) : path :=
  if startswith filepath "/" then parts filepath
  else (base ++ parts filepath)%list.

(** [p.resolve()]: [acc] is the resolved prefix, innermost component
    first; [..] at the root stays at the root. *)
Fixpoint resolve_onto (acc : list string) (p : path) : path :=
  match p with
  | [] => rev acc
  | c :: rest =>
      if String.eqb c ".." then resolve_onto (tl acc) rest
      else resolve_onto (c :: acc) rest
  end.

Definition resolve (p : path) : path := resolve_onto [] p.

(** [child.relative_to(base)] succeeds, that is, it does not raise
    [ValueError]: the components of [base] begin those of [child]. *)
Fixpoint is_relative_to (child base : path) : bool :=
  match base, child with
  | [] , _ => true
  | b :: base', c :: child' => String.eqb b c && is_relative_to child' base'
  | _ :: _, [] => false
  end.

Fixpoint path_eqb (p q : path) : bool :=
  match p, q with
  | [], [] => true
  | a :: p', b :: q' => String.eqb a b && path_eqb p' q'
  | _, _ => false
  end.

(** The index of the last dot of a name. *)
Fixpoint last_dot (s : string) : option nat :=
  match s with
  | EmptyString => None
  | String c s' =>
      match last_dot s' with
      | Some i => Some (S i)
      | None => if Ascii.eqb c "." then Some 0 else None
      end
  end.

(** [Path(filepath).name] *)
Definition name (filepath : string) : string := List.last (parts filepath) "".

(** [Path(filepath).suffix]: the extension of the name, with its dot; empty
    when the last dot opens or ends the name. *)
Definition suffix (filepath : string) : string :=
  let n := name filepath in
  match last_dot n with
  | Some i => if (0 <? i) && (i <? String.length n - 1) then drop i n else ""
  | None => ""
  end.

(** The regular files of the disk with their text, keyed by resolved
    absolute path, the first binding of a path being the live one; the
    directories that hold no file; and the places where writing fails with
    [OSError].  A directory with a file below it needs no entry. *)
Record disk : Type := Disk {
  files : list (path * string);
  empty_dirs : list path;
  write_fails : path -> bool
}.

Fixpoint lookup (p : path) (l : list (path * string)) : option string :=
  match l with
  | [] => None
  | (q, text) :: rest => if path_eqb p q then Some text else lookup p rest
  end.

(** [full_path.read_text()], [None] when no regular file is there. *)
Definition read_text (d : disk) (full_path : path) : option string :=
  lookup (resolve full_path) (files d).

(** [p.is_file()] *)
Definition is_file (d : disk) (p : path) : bool :=
  match read_text d p with Some _ => true | None => false end.

(** [q] lies strictly below [p]. *)
Definition below (p q : path) : bool :=
  is_relative_to q p && negb (path_eqb p q).

(** [p.is_dir()]: a listed directory, or one that has something below. *)
Definition is_dir (d : disk) (p : path) : bool :=
  let p := resolve p in
  existsb (fun f => below p (fst f)) (files d)
  || existsb (fun q => is_relative_to q p) (empty_dirs d).

(** [full_path.exists()]: a regular file or a directory is there. *)
Definition exists_ (d : disk) (full_path : path) : bool :=
  is_file d full_path || is_dir d full_path.

(** [p.parent] *)
Definition parent (p : path) : path := removelast p.

(** The directory [p] is there; the root always is. *)
Definition dir_there (d : disk) (p : path) : bool :=
  match p with [] => true | _ :: _ => is_dir d p end.

(** [dir.mkdir(parents=True, exist_ok=True)] for the resolved directory
    [made ++ rest], of which [made] is there: the missing directories are
    made from the outermost one inwards.  The call stops with [OSError],
    the [false] of the answer, where a regular file is in the way or where
    the disk refuses the write; the directories made before that stay. *)
Fixpoint mkdir_from (d : disk) (made : path) (rest : list string)
  : disk * bool :=
  match rest with
  | [] => (d, true)
  | c :: rest' =>
      let p := (made ++ [c])%list in
      if is_dir d p then mkdir_from d p rest'
      else if is_file d p || write_fails d p then (d, false)
      else mkdir_from (Disk (files d) (p :: empty_dirs d) (write_fails d))
                      p rest'
  end.

Definition mkdir_parents (d : disk) (dir : path) : disk * bool :=
  mkdir_from d [] dir.

(** [full_path.write_text(content)]; [None] stands for [OSError], raised
    where the disk refuses the write, where the path is a directory and
    where its parent is not one.  A regular file that is there is
    replaced. *)
Definition write_text (d : disk) (full_path : path) (content : string)
  : option disk :=
  let p := resolve full_path in
  let written :=
    Disk ((p, content) :: files d) (empty_dirs d) (write_fails d) in
  if write_fails d p then None
  else if is_file d p then Some written
  else if dir_there d p || negb (dir_there d (parent p)) then None
  else Some written.

(** The two calls the sources make under one [try], with [OSError] caught:
    [full_path.parent.mkdir(parents=True, exist_ok=True)], then
    [full_path.write_text(content)].  The answer says whether both went
    through; directories made before a failure stay on the disk.  The
    parent is that of the resolved path, which is the resolution of
    [full_path.parent] for every path that ends in a name. *)
Definition mkdir_write (d : disk) (full_path : path) (content : string)
  : disk * bool :=
  match mkdir_parents d (parent (resolve full_path)) with
  | (d1, true) =>
      match write_text d1 full_path content with
      | Some d2 => (d2, true)
      | None => (d1, false)
      end
  | (d1, false) => (d1, false)
  end.

End Fs.

(* ================================================================== *)
(** * diff_editor.py: the search/replace engine *)
(* ================================================================== *)

Module DiffEditor.

(** Strip trailing whitespace from each line. *)
Definition _normalize_trailing_whitespace (text : string) : string :=
  join nl (map rstrip (split text LF)).

(** Strip all leading/trailing whitespace from each line. *)
Definition _strip_all_whitespace (text : string) : string :=
  join nl (map strip (split (strip text) LF)).

(** [line[: len(line) - len(line.lstrip())]] *)
Definition leading_indent (line : string) : string :=
  take (String.length line - String.length (lstrip line)) line.

(** The indentation of the first line that is not blank, empty when there
    is none: the two detection loops of strategy 3. *)
Fixpoint detect_indent (lines : list string) : string :=
  match lines with
  | [] => ""
  | line :: rest =>
      if truthy (strip line) then leading_indent line else detect_indent rest
  end.

(** One step of the loop of [_verify_anchor_match]: whether line [i] of the
    search overlaps line [i] of the slice. *)
Definition middle_line_matches
    (content_slice search_lines : list string) (i : nat) : bool :=
  if i <? List.length content_slice then
    let search_stripped := strip (nth i search_lines "") in
    let content_stripped := strip (nth i content_slice "") in
    String.eqb search_stripped content_stripped
    || contains content_stripped search_stripped
    || contains search_stripped content_stripped
  else false.

(** [matches / total >= 0.5] is decided on the integers: for the line counts
    of a text the quotient of the two floats is at least one half exactly
    when twice the numerator reaches the denominator. *)
Definition _verify_anchor_match
    (content_slice search_lines : list string) : bool :=
  if List.length search_lines <=? 2 then true
  else
    let total := List.length search_lines - 2 in
    let matches :=
      List.length
        (filter (middle_line_matches content_slice search_lines)
                (seq 1 (List.length search_lines - 2))) in
    if total =? 0 then true else total <=? 2 * matches.

(** Strategy 2: trailing whitespace normalized match. *)
Definition strategy_trailing (content search replace : string)
  : option string :=
  let content_norm := _normalize_trailing_whitespace content in
  let search_norm := _normalize_trailing_whitespace search in
  match find content_norm search_norm with
  | Some idx =>
      let start_line := count (take idx content_norm) nl in
      let search_line_count := count search_norm nl + 1 in
      let content_lines := split content LF in
      let replace_lines := split replace LF in
      Some (join nl
              ((firstn start_line content_lines
                ++ replace_lines
                ++ skipn (start_line + search_line_count) content_lines)%list))
  | None => None
  end.

(** Strategy 3: all whitespace stripped, sliding window. *)
Definition strategy_stripped (content search replace : string)
  : option string :=
  let search_stripped := _strip_all_whitespace search in
  let content_lines := split content LF in
  let search_line_count := List.length (split (strip search) LF) in
  first_some
    (fun i =>
       let block := slice content_lines i (i + search_line_count) in
       let window := join nl (map strip block) in
       if String.eqb window search_stripped then
         let original_indent := detect_indent block in
         let replace_indent := detect_indent (split replace LF) in
         let replace' :=
           if negb (String.eqb replace_indent original_indent) then
             join nl
               (map (fun line =>
                       if truthy (strip line)
                       then original_indent
                            ++ drop (String.length replace_indent) line
                       else line)
                    (split replace LF))
           else replace in
         let replace_lines := split replace' LF in
         Some (join nl
                 ((firstn i content_lines
                   ++ replace_lines
                   ++ skipn (i + search_line_count) content_lines)%list))
       else None)
    (seq 0 (List.length content_lines + 1 - search_line_count)).

(** Strategy 4: anchor-based match on the first and last lines. *)
Definition strategy_anchor (content search replace : string)
  : option string :=
  let content_lines := split content LF in
  let search_line_count := List.length (split (strip search) LF) in
  let search_lines_list := split (strip search) LF in
  if 3 <=? List.length search_lines_list then
    let first := strip (nth 0 search_lines_list "") in
    let last := strip (List.last search_lines_list "") in
    if negb (truthy first) || negb (truthy last) then None
    else
      first_some
        (fun i =>
           if String.eqb (strip (nth i content_lines "")) first then
             let end_ := i + search_line_count in
             if end_ <=? List.length content_lines then
               if String.eqb (strip (nth (end_ - 1) content_lines "")) last
               then
                 if _verify_anchor_match
                      (slice content_lines i end_) search_lines_list
                 then
                   let replace_lines := split replace LF in
                   Some (join nl
                           ((firstn i content_lines
                             ++ replace_lines
                             ++ skipn end_ content_lines)%list))
                 else None
               else None
             else None
           else None)
        (seq 0 (List.length content_lines))
  else None.

(** Apply a search/replace block with fuzzy matching fallbacks; [None] is the
    source's [None], "no match found". *)
Definition apply_search_replace (content search replace : string)
  : option string :=
  if negb (truthy content) || negb (truthy search) then None
  else
    if contains content search && (count content search =? 1)
    then Some (replace_first content search replace)
    else
      match strategy_trailing content search replace with
      | Some r => Some r
      | None =>
          match strategy_stripped content search replace with
          | Some r => Some r
          | None => strategy_anchor content search replace
          end
      end.

(** ** Content cleaning *)

(** [while lines and not lines[0].strip(): lines = lines[1:]] *)
Fixpoint drop_blank_lines (lines : list string) : list string :=
  match lines with
  | [] => []
  | l :: rest => if truthy (strip l) then lines else drop_blank_lines rest
  end.

(** [line.strip().startswith("```")] *)
Definition is_fence (line : string) : bool := startswith (strip line) "```".

(** [while lines and lines[-1].strip().startswith("```"): lines.pop()] *)
Fixpoint pop_fences (lines : list string) : list string :=
  match lines with
  | [] => []
  | l :: rest =>
      match pop_fences rest with
      | [] => if is_fence l then [] else [l]
      | rest' => l :: rest'
      end
  end.

Definition clean_code_block (text : string) : string :=
  if negb (truthy text) then text
  else
    let lines := split text LF in
    let lines := drop_blank_lines lines in
    let lines :=
      match lines with
      | l :: rest => if is_fence l then rest else lines
      | [] => lines
      end in
    let lines := pop_fences lines in
    join nl lines.

(** ** Edit block parsing *)

(** The loop that replaces a doubled slash by a single one while one is
    left; every
    round shortens the text, so its length bounds the number of rounds. *)
Fixpoint collapse_slashes (n : nat) (filepath : string) : string :=
  match n with
  | 0 => filepath
  | S n' =>
      if contains filepath "//"
      then collapse_slashes n' (replace filepath "//" "/")
      else filepath
  end.

(** Normalize file path from edit blocks. *)
Definition _normalize_edit_path (filepath : string) : string :=
  if negb (truthy filepath) then filepath
  else
    let filepath := replace filepath (chr BSL) "/" in
    let filepath := if startswith filepath "./" then drop 2 filepath else filepath in
    let filepath := collapse_slashes (String.length filepath) filepath in
    strip filepath.

(** The dictionaries built by the parser: [e_type] is the value under
    ["type"]; a key that a dictionary lacks reads as the empty text, the default
    every [edit.get] of the sources passes. *)
Record edit : Type := Edit {
  e_type : string;
  e_path : string;
  e_search : string;
  e_replace : string;
  e_content : string
}.

Definition search_replace (path search replace : string) : edit :=
  Edit "search_replace" path search replace "".
Definition full_replace (path content : string) : edit :=
  Edit "full_replace" path "" "" content.

(** Exceptions the embedded code can raise. *)
Inductive exn : Type := IndexError | AttributeError | IsADirectoryError.

Inductive result (A : Type) : Type :=
| Ok (a : A)
| Raise (e : exn).
Arguments Ok {A} a.
Arguments Raise {A} e.

Definition bind {A B : Type} (x : result A) (f : A -> result B) : result B :=
  match x with Ok a => f a | Raise e => Raise e end.

(** A [for] loop over [l] that threads a state and may raise. *)
Fixpoint for_each {A S : Type} (l : list A) (st : S)
    (body : A -> S -> result S) : result S :=
  match l with
  | [] => Ok st
  | x :: rest => bind (body x st) (fun st' => for_each rest st' body)
  end.

(** [m.group(n)] for a pattern with [ngroups] groups: a number beyond the
    groups of the pattern raises [IndexError]; a group that took no part in
    the match yields [None]. *)
Definition group_of (ngroups : nat) (m : Re.rmatch) (n : nat)
  : result (option string) :=
  if n <=? ngroups then Ok (Re.group m n) else Raise IndexError.

Definition text_of (o : option string) : string :=
  match o with Some s => s | None => "" end.

(** The marker pattern
    [<<<<<<< SEARCH\n(.*?)\n=======\n(.*?)\n>>>>>>> REPLACE], used with
    [re.DOTALL] in all three formats. *)
Definition sr_pattern : Re.regex :=
  Re.seqs [Re.str "<<<<<<< SEARCH"; Re.Lit LF;
           Re.Group 1 (Re.lazy_star Re.Dot);
           Re.Lit LF; Re.str "======="; Re.Lit LF;
           Re.Group 2 (Re.lazy_star Re.Dot);
           Re.Lit LF; Re.str ">>>>>>> REPLACE"].

(** [re.findall(sr_pattern, block, re.DOTALL)]: the pairs of groups. *)
Definition sr_findall (block : string) : list (string * string) :=
  map (fun m => (text_of (Re.group m 1), text_of (Re.group m 2)))
      (Re.finditer Re.DOTALL sr_pattern block).

(** [<edit\s+path=Q([^Q]+)Q>\s*(.*?)\s*</edit>], where [Q] abbreviates the
    class of the two quote characters. *)
Definition edit_pattern : Re.regex :=
  Re.seqs [Re.str "<edit"; Re.plus (Re.Cls Re.is_s); Re.str "path=";
           Re.quote;
           Re.Group 1 (Re.plus (Re.Cls (Re.none_of [DQ; SQ])));
           Re.quote; Re.Lit ">";
           Re.star (Re.Cls Re.is_s);
           Re.Group 2 (Re.lazy_star Re.Dot);
           Re.star (Re.Cls Re.is_s);
           Re.str "</edit>"].

(** [<edit\s+file=Q?([^Q>\s]+)Q?>\s*(.*?)(?=<edit\s|\Z)] *)
Definition unclosed_edit : Re.regex :=
  Re.seqs [Re.str "<edit"; Re.plus (Re.Cls Re.is_s); Re.str "file=";
           Re.opt Re.quote;
           Re.Group 1
             (Re.plus (Re.Cls (fun c => Re.none_of [DQ; SQ; ">"%char] c
                                        && negb (Re.is_s c))));
           Re.opt Re.quote; Re.Lit ">";
           Re.star (Re.Cls Re.is_s);
           Re.Group 2 (Re.lazy_star Re.Dot);
           Re.Look (Re.Alt (Re.Seq (Re.str "<edit") (Re.Cls Re.is_s)) Re.EndZ)].

(** [\n?(.*?)], the pattern bound to [file_pattern]: it has one group. *)
Definition file_pattern : Re.regex :=
  Re.Seq (Re.opt (Re.Lit LF)) (Re.Group 1 (Re.lazy_star Re.Dot)).
Definition file_pattern_groups : nat := 1.

(** The edits collected so far and the set [found_paths]. *)
Definition pstate : Type := (list edit * list string)%type.

Definition add_path (p : string) (found : list string) : list string :=
  if mem p found then found else (found ++ [p])%list.

(** The pairs of one block turned into edits; a pair whose search text is
    blank is skipped. *)
Definition sr_edits (filepath : string) (pairs : list (string * string))
  : list edit :=
  flat_map
    (fun sr =>
       let search := clean_code_block (fst sr) in
       let replace := clean_code_block (snd sr) in
       if negb (truthy (strip search)) then []
       else [search_replace filepath search replace])
    pairs.

(** Format 1: edit blocks with search/replace. *)
Definition format1_body (m : Re.rmatch) (st : pstate) : pstate :=
  let '(edits, found_paths) := st in
  let filepath := _normalize_edit_path (text_of (Re.group m 1)) in
  if negb (truthy filepath) then st
  else
    let block := text_of (Re.group m 2) in
    let sr_matches := sr_findall block in
    match sr_matches with
    | _ :: _ =>
        ((edits ++ sr_edits filepath sr_matches)%list,
         add_path filepath found_paths)
    | [] =>
        let content := clean_code_block block in
        if truthy (strip content)
        then ((edits ++ [full_replace filepath content])%list,
              add_path filepath found_paths)
        else st
    end.

Definition format1 (response : string) (st : pstate) : pstate :=
  fold_left (fun st m => format1_body m st)
            (Re.finditer Re.DOTALL edit_pattern response) st.

(** Format 2: unclosed edit blocks, tried when format 1 found no edit. *)
Definition format2_body (m : Re.rmatch) (st : pstate) : pstate :=
  let '(edits, found_paths) := st in
  let filepath := _normalize_edit_path (text_of (Re.group m 1)) in
  if negb (truthy filepath) || mem filepath found_paths then st
  else
    let block := text_of (Re.group m 2) in
    fold_left
      (fun st sr =>
         let '(edits, found_paths) := st in
         let search := clean_code_block (fst sr) in
         let replace := clean_code_block (snd sr) in
         if truthy (strip search)
         then ((edits ++ [search_replace filepath search replace])%list,
               add_path filepath found_paths)
         else st)
      (sr_findall block) st.

Definition format2 (response : string) (st : pstate) : pstate :=
  match fst st with
  | [] =>
      fold_left (fun st m => format2_body m st)
                (Re.finditer Re.DOTALL unclosed_edit response) st
  | _ :: _ => st
  end.

(** Format 3: full file blocks.  [match.group(2)] is evaluated against the
    one-group [file_pattern]. *)
Definition format3_body (m : Re.rmatch) (st : pstate) : result pstate :=
  let '(edits, found_paths) := st in
  bind (group_of file_pattern_groups m 1) (fun g1 =>
  let filepath := _normalize_edit_path (text_of g1) in
  if negb (truthy filepath) || mem filepath found_paths then Ok st
  else
    bind (group_of file_pattern_groups m 2) (fun g2 =>
    let content := strip (text_of g2) in
    let content := clean_code_block content in
    if negb (truthy (strip content)) then Ok st
    else
      let sr_rescue_matches := sr_findall content in
      match sr_rescue_matches with
      | _ :: _ =>
          Ok ((edits
               ++ flat_map
                    (fun sr =>
                       let search := clean_code_block (fst sr) in
                       let replace := clean_code_block (snd sr) in
                       if truthy (strip search)
                       then [search_replace filepath search replace]
                       else [])
                    sr_rescue_matches)%list,
              add_path filepath found_paths)
      | [] =>
          Ok ((edits ++ [full_replace filepath content])%list,
              add_path filepath found_paths)
      end)).

Definition format3 (response : string) (st : pstate) : result pstate :=
  for_each (Re.finditer Re.DOTALL file_pattern response) st format3_body.

(** Parse edit instructions from model response. *)
Definition parse_edit_blocks (response : string) : result (list edit) :=
  if negb (truthy response) then Ok []
  else
    let st := format1 response ([], []) in
    let st := format2 response st in
    bind (format3 response st) (fun st => Ok (fst st)).

(** ** Edit application *)

(** The dictionary [created_files], from relative path to content. *)
Definition created : Type := list (string * string).

Fixpoint created_get (filepath : string) (c : created) : option string :=
  match c with
  | [] => None
  | (p, text) :: rest =>
      if String.eqb p filepath then Some text else created_get filepath rest
  end.

(** [created_files[filepath] = content] *)
Fixpoint created_set (filepath content : string) (c : created) : created :=
  match c with
  | [] => [(filepath, content)]
  | (p, text) :: rest =>
      if String.eqb p filepath then (p, content) :: rest
      else (p, text) :: created_set filepath content rest
  end.

(** Read file content from disk or created_files cache.  A regular file of
    the store always decodes, so the [None] of the source is not produced;
    a directory makes [read_text] raise [IsADirectoryError], which the
    function does not catch. *)
Definition _read_file_content (d : Fs.disk) (full_path : Fs.path)
    (filepath : string) (created_files : created) : result (option string) :=
  if Fs.exists_ d full_path then
    match Fs.read_text d full_path with
    | Some text => Ok (Some text)
    | None => Raise IsADirectoryError
    end
  else
    match created_get filepath created_files with
    | Some text => Ok (Some text)
    | None => Ok (Some "")
    end.

(** Write content to file with error handling. *)
Definition _write_file (d : Fs.disk) (full_path : Fs.path) (content : string)
  : Fs.disk * bool :=
  Fs.mkdir_write d full_path content.

(** What [apply_edits] threads through its loop: the disk, the dictionary
    [created_files] and the list [results]; [a_raised] holds the exception
    that ended the loop, if one did, in which case the list is not
    returned. *)
Record astate : Type := AState {
  a_disk : Fs.disk;
  a_created : created;
  a_results : list (string * bool);
  a_raised : option exn
}.

Definition report (st : astate) (filepath : string) (ok : bool) : astate :=
  AState (a_disk st) (a_created st) ((a_results st) ++ [(filepath, ok)])%list
         (a_raised st).

Definition raise (st : astate) (e : exn) : astate :=
  AState (a_disk st) (a_created st) (a_results st) (Some e).

(** The tail of the loop body: write, record, report. *)
Definition commit (st : astate) (full_path : Fs.path)
    (filepath new_content : string) : astate :=
  match _write_file (a_disk st) full_path new_content with
  | (d', true) =>
      AState d' (created_set filepath new_content (a_created st))
             ((a_results st) ++ [(filepath, true)])%list (a_raised st)
  | (d', false) =>
      AState d' (a_created st) ((a_results st) ++ [(filepath, false)])%list
             (a_raised st)
  end.

(** One round of the loop of [apply_edits].  [answer] is what the user
    types at the prompt for a path. *)
Definition apply_edit (base_dir : Fs.path) (auto_apply : bool)
    (answer : string -> string) (st : astate) (e : edit) : astate :=
  let filepath := e_path e in
  if negb (truthy filepath) then report st "" false
  else
    let full_path := Fs.joinpath base_dir filepath in
    match _read_file_content (a_disk st) full_path filepath (a_created st) with
    | Raise e => raise st e
    | Ok None => report st filepath false
    | Ok (Some old_content) =>
        let edit_type := e_type e in
        let new_content : option string :=
          if String.eqb edit_type "search_replace" then
            let search := e_search e in
            let replace := e_replace e in
            if negb (truthy search) then None
            else apply_search_replace old_content search replace
          else if String.eqb edit_type "full_replace" then
            let new_content := e_content e in
            if negb (truthy (strip new_content)) then None
            else Some new_content
          else None in
        match new_content with
        | None => report st filepath false
        | Some new_content =>
            if truthy old_content
               && String.eqb (strip old_content) (strip new_content)
            then report st filepath true
            else if auto_apply then commit st full_path filepath new_content
            else
              let action := lower (strip (answer filepath)) in
              if mem action ["y"; "yes"]
              then commit st full_path filepath new_content
              else report st filepath false
        end
    end.

(** The loop of [apply_edits]: an exception ends it. *)
Definition apply_edit_unless_raised (base_dir : Fs.path) (auto_apply : bool)
    (answer : string -> string) (st : astate) (e : edit) : astate :=
  match a_raised st with
  | Some _ => st
  | None => apply_edit base_dir auto_apply answer st e
  end.

(** Apply parsed edits: the disk and the dictionary as the loop left them,
    with the list of (filepath, success) pairs, which is what the call
    returns unless [a_raised] holds an exception. *)
Definition apply_edits (edits : list edit) (base_dir : Fs.path)
    (d : Fs.disk) (created_files : created) (auto_apply : bool)
    (answer : string -> string) : astate :=
  fold_left (apply_edit_unless_raised base_dir auto_apply answer) edits
            (AState d created_files [] None).

End DiffEditor.

(* ================================================================== *)
(** * builder.py: paths, content cleaning, response processing *)
(* ================================================================== *)

Module Builder.

Import DiffEditor.

(** ** Path utilities *)

Definition normalize_path (filepath : string) : string :=
  if negb (truthy filepath) then filepath
  else
    let filepath := replace filepath (chr BSL) "/" in
    let filepath := if startswith filepath "./" then drop 2 filepath else filepath in
    let filepath := collapse_slashes (String.length filepath) filepath in
    rstrip_by (Ascii.eqb "/") filepath.

(** [resolve()] raises [ValueError] on a path that holds a null
    character. *)
Definition has_null (p : Fs.path) : bool :=
  existsb (fun c => contains c (chr Ascii.zero)) p.

(** The exceptions of the [try] block answer [False]: [ValueError] of
    either [resolve()] on a null character, and [ValueError] of
    [relative_to] on a path that is not under the base.  On the disk of
    the model, which has no symbolic links, [resolve()] raises no
    [OSError]. *)
Definition validate_filepath (filepath : string) (base_dir : Fs.path) : bool :=
  if negb (truthy filepath) || negb (truthy (strip filepath)) then false
  else if has_null (Fs.joinpath base_dir filepath) || has_null base_dir
  then false
  else
    let full_path := Fs.resolve (Fs.joinpath base_dir filepath) in
    Fs.is_relative_to full_path (Fs.resolve base_dir).

(** ** Content cleaning *)

Definition _MARKDOWN_EXTENSIONS : list string :=
  [".md"; ".mdx"; ".markdown"; ".rst"].

(** The byte-order mark is the character of code point U+FEFF. *)
Definition is_bom (c : ascii) : bool := (N_of_ascii c =? 65279)%N.

(** [content.lstrip(BOM)]: the leading byte-order marks are dropped.  The
    code points of the texts of the model are below 256, so that such a
    text holds no mark. *)
Definition lstrip_bom (content : string) : string := lstrip_by is_bom content.

(** [lines.strip()] with [lines] a list: lists have no such method. *)
Definition list_strip (lines : list string) : result string :=
  Raise AttributeError.

(** The inner loop of the fence branch, whose condition is
    [lines and lines.strip().startswith(fence)]. *)
Fixpoint strip_leading_fences (lines : list string) : result (list string) :=
  match lines with
  | [] => Ok []
  | _ :: rest =>
      bind (list_strip lines) (fun s =>
      if startswith s "```" then strip_leading_fences rest else Ok lines)
  end.

Definition finish_content (content : string) : string :=
  let content := lstrip_bom content in
  let content := strip_by (Ascii.eqb LF) content in
  if truthy content && negb (endswith content nl) then content ++ nl
  else content.

Definition clean_file_content (content filepath : string) : result string :=
  if negb (truthy content) then Ok content
  else
    let ext := lower (Fs.suffix filepath) in
    if mem ext _MARKDOWN_EXTENSIONS then Ok (finish_content content)
    else
      let lines := split content LF in
      let lines := drop_blank_lines lines in
      bind
        (match lines with
         | l :: _ =>
             if is_fence l
             then bind (strip_leading_fences lines)
                       (fun lines => Ok (pop_fences lines))
             else Ok lines
         | [] => Ok lines
         end)
        (fun lines =>
           match lines with
           | [] => Ok ""
           | _ :: _ => Ok (finish_content (join nl lines))
           end).

(** ** File parsing *)

(** [<file\s+path=Q([^Q]+)Q>\n?(.*?)</file>], with [re.DOTALL] and
    [re.IGNORECASE]; [Q] abbreviates the class of the two quotes. *)
Definition file_tag : Re.regex :=
  Re.seqs [Re.str "<file"; Re.plus (Re.Cls Re.is_s); Re.str "path=";
           Re.quote;
           Re.Group 1 (Re.plus (Re.Cls (Re.none_of [DQ; SQ])));
           Re.quote; Re.Lit ">";
           Re.opt (Re.Lit LF);
           Re.Group 2 (Re.lazy_star Re.Dot);
           Re.str "</file>"].

(** [[\w./\\-]] *)
Definition path_char (c : ascii) : bool :=
  Re.is_w c || Re.one_of ["."%char; "/"%char; BSL; "-"%char] c.

(** [[\w./\\-]+\.\w+] *)
Definition path_like : Re.regex :=
  Re.seqs [Re.plus (Re.Cls path_char); Re.Lit "."; Re.plus (Re.Cls Re.is_w)].

Definition backtick : Re.regex := Re.Lit "`".

(** [\n```\w*\n(.*?)```]: the fenced block that closes three of the
    patterns, the body being group 2. *)
Definition fenced_body : Re.regex :=
  Re.seqs [Re.Lit LF; Re.str "```"; Re.star (Re.Cls Re.is_w); Re.Lit LF;
           Re.Group 2 (Re.lazy_star Re.Dot); Re.str "```"].

(** A heading, [**] or [###?\s*], then the path between optional
    backticks as group 1, [`?[\w./\\-]+\.\w+`?], an optional [**], [\s*]
    and the fenced block. *)
Definition heading_block : Re.regex :=
  Re.seqs [Re.Alt (Re.str "**")
                  (Re.seqs [Re.str "##"; Re.opt (Re.Lit "#");
                            Re.star (Re.Cls Re.is_s)]);
           Re.Group 1 (Re.seqs [Re.opt backtick; path_like; Re.opt backtick]);
           Re.opt (Re.str "**");
           Re.star (Re.Cls Re.is_s);
           fenced_body].

(** [```\w*\s*\n\s*#\s*([\w./\\-]+\.\w+)\s*\n(.*?)```] *)
Definition comment_block : Re.regex :=
  Re.seqs [Re.str "```"; Re.star (Re.Cls Re.is_w); Re.star (Re.Cls Re.is_s);
           Re.Lit LF; Re.star (Re.Cls Re.is_s); Re.Lit "#";
           Re.star (Re.Cls Re.is_s);
           Re.Group 1 path_like;
           Re.star (Re.Cls Re.is_s); Re.Lit LF;
           Re.Group 2 (Re.lazy_star Re.Dot); Re.str "```"].

(** [(?:File|Filename|Path):\s*`?([\w./\\-]+\.\w+)`?\s*\n```\w*\n(.*?)```] *)
Definition label_block : Re.regex :=
  Re.seqs [Re.alts [Re.str "File"; Re.str "Filename"; Re.str "Path"];
           Re.Lit ":"; Re.star (Re.Cls Re.is_s);
           Re.opt backtick;
           Re.Group 1 path_like;
           Re.opt backtick;
           Re.star (Re.Cls Re.is_s);
           fenced_body].

(** The list [files] and the set [found_paths]. *)
Definition fstate : Type := (list (string * string) * list string)%type.

(** The body shared by the four loops: [path] is the normalized path of the
    match and [accept] the extra condition of the loop. *)
Definition take_file (path : string) (accept : bool) (body : string)
    (st : fstate) : result fstate :=
  let '(files, found_paths) := st in
  if truthy path && negb (mem path found_paths) && accept then
    bind (clean_file_content body path) (fun content =>
    Ok ((files ++ [(path, content)])%list, add_path path found_paths))
  else Ok st.

Definition parse_files_from_response (response : string)
  : result (list (string * string)) :=
  if negb (truthy response) then Ok []
  else
    bind (for_each (Re.finditer Re.DOTALL_IGNORECASE file_tag response) ([], [])
            (fun m st =>
               let path := normalize_path (strip (text_of (Re.group m 1))) in
               take_file path true (text_of (Re.group m 2)) st)) (fun st =>
    bind (for_each (Re.finditer Re.DOTALL heading_block response) st
            (fun m st =>
               let path :=
                 normalize_path
                   (strip_by (Ascii.eqb "`") (strip (text_of (Re.group m 1)))) in
               take_file path (contains path "/" || contains path ".")
                         (text_of (Re.group m 2)) st)) (fun st =>
    bind (for_each (Re.finditer Re.DOTALL comment_block response) st
            (fun m st =>
               let path := normalize_path (strip (text_of (Re.group m 1))) in
               take_file path true (text_of (Re.group m 2)) st)) (fun st =>
    bind (for_each (Re.finditer Re.DOTALL_IGNORECASE label_block response) st
            (fun m st =>
               let path := normalize_path (strip (text_of (Re.group m 1))) in
               take_file path true (text_of (Re.group m 2)) st)) (fun st =>
    Ok (fst st))))).

(** ** Writing *)

Definition write_project_file (d : Fs.disk) (base_dir : Fs.path)
    (filepath content : string) : result (Fs.disk * bool) :=
  let filepath := normalize_path filepath in
  if negb (truthy filepath) then Ok (d, false)
  else if negb (validate_filepath filepath base_dir) then Ok (d, false)
  else
    bind (clean_file_content content filepath) (fun content =>
    let full_path := Fs.joinpath base_dir filepath in
    Ok (Fs.mkdir_write d full_path content)).

(** What the user does at the terminal: the reply typed at the prompt for a
    path, and the lines typed when asked to paste a content. *)
Record console : Type := Console {
  answer : string -> string;
  typed : string -> list string
}.

Record config : Type := Config {
  auto_apply : bool;
  confirm_destructive : bool
}.

(** [abs(old_lines - new_lines) > 50] *)
Definition is_destructive (old_content content : string) : bool :=
  let old_lines := List.length (split old_content LF) in
  let new_lines := List.length (split content LF) in
  50 <? (old_lines - new_lines) + (new_lines - old_lines).

(** The write shared by the branches of the two handlers: the outcome of
    [write_project_file] is not looked at, the dictionary is updated and the
    handler answers [True]. *)
Definition write_and_record (d : Fs.disk) (base_dir : Fs.path)
    (created_files : created) (filepath content : string)
  : result (Fs.disk * created * bool) :=
  bind (write_project_file d base_dir filepath content) (fun w =>
  Ok (fst w, created_set filepath content created_files, true)).

Definition _handle_existing_file (io : console) (d : Fs.disk)
    (filepath content : string) (full_path base_dir : Fs.path)
    (created_files : created) (auto_apply confirm_destructive : bool)
  : result (Fs.disk * created * bool) :=
  match Fs.read_text d full_path with
  | None => Raise IsADirectoryError
  | Some old_content =>
      if String.eqb (strip old_content) (strip content)
      then Ok (d, created_files, false)
      else
        let destructive := is_destructive old_content content in
        if auto_apply && negb (destructive && confirm_destructive)
        then write_and_record d base_dir created_files filepath content
        else
          let action := lower (strip (answer io filepath)) in
          if mem action ["y"; "yes"]
          then write_and_record d base_dir created_files filepath content
          else Ok (d, created_files, false)
  end.

(** The lines read by [input()] up to the line that says [EOF]. *)
Fixpoint until_eof (lines : list string) : list string :=
  match lines with
  | [] => []
  | line :: rest =>
      if String.eqb (strip line) "EOF" then [] else line :: until_eof rest
  end.

Definition _handle_new_file (io : console) (d : Fs.disk)
    (filepath content : string) (base_dir : Fs.path)
    (created_files : created) (auto_apply : bool)
  : result (Fs.disk * created * bool) :=
  if auto_apply
  then write_and_record d base_dir created_files filepath content
  else
    let action := lower (strip (answer io filepath)) in
    if mem action ["y"; "yes"]
    then write_and_record d base_dir created_files filepath content
    else if mem action ["e"; "edit"] then
      let edited_content := join nl (until_eof (typed io filepath)) in
      if truthy (strip edited_content)
      then write_and_record d base_dir created_files filepath edited_content
      else Ok (d, created_files, false)
    else Ok (d, created_files, false).

(** ** Processing a response *)

Record summary : Type := Summary {
  s_created : list string;
  s_modified : list string;
  s_skipped : list string;
  s_failed : list string
}.

Record outcome : Type := Outcome {
  o_disk : Fs.disk;
  o_created : created;
  o_wrote_any : bool;
  o_summary : summary
}.

(** The loop over the results of [apply_edits]. *)
Definition note_results (results : list (string * bool)) (wrote_any : bool)
    (s : summary) : bool * summary :=
  fold_left
    (fun (acc : bool * summary) (r : string * bool) =>
       let '(wrote_any, s) := acc in
       if snd r
       then (true, Summary (s_created s) (s_modified s ++ [fst r])%list
                           (s_skipped s) (s_failed s))
       else (wrote_any, Summary (s_created s) (s_modified s) (s_skipped s)
                                (s_failed s ++ [fst r])%list))
    results (wrote_any, s).

(** The full replacements of the edit list that the file parser did not
    already find, appended to [new_files]. *)
Definition add_new_from_edits (new_from_edits : list edit)
    (new_files : list (string * string)) : list (string * string) :=
  let existing_paths := map fst new_files in
  fold_left
    (fun (new_files : list (string * string)) (e : edit) =>
       let path := normalize_path (e_path e) in
       if truthy path && negb (mem path existing_paths) then
         let content := e_content e in
         if truthy content then (new_files ++ [(path, content)])%list
         else new_files
       else new_files)
    new_from_edits new_files.

(** One round of the loop over [new_files]. *)
Definition process_new_file (io : console) (cfg : config)
    (base_dir : Fs.path) (file : string * string) (o : outcome)
  : result outcome :=
  let filepath := normalize_path (fst file) in
  let content := snd file in
  let s := o_summary o in
  if negb (truthy filepath) then Ok o
  else if negb (validate_filepath filepath base_dir) then
    Ok (Outcome (o_disk o) (o_created o) (o_wrote_any o)
          (Summary (s_created s) (s_modified s) (s_skipped s)
                   (s_failed s ++ [filepath])%list))
  else
    let full_path := Fs.joinpath base_dir filepath in
    if Fs.exists_ (o_disk o) full_path then
      bind (_handle_existing_file io (o_disk o) filepath content full_path
              base_dir (o_created o) (auto_apply cfg)
              (confirm_destructive cfg)) (fun r =>
      let '(d, cr, ok) := r in
      if ok
      then Ok (Outcome d cr true
                 (Summary (s_created s) (s_modified s ++ [filepath])%list
                          (s_skipped s) (s_failed s)))
      else Ok (Outcome d cr (o_wrote_any o)
                 (Summary (s_created s) (s_modified s)
                          (s_skipped s ++ [filepath])%list (s_failed s))))
    else
      bind (_handle_new_file io (o_disk o) filepath content base_dir
              (o_created o) (auto_apply cfg)) (fun r =>
      let '(d, cr, ok) := r in
      if ok
      then Ok (Outcome d cr true
                 (Summary (s_created s ++ [filepath])%list (s_modified s)
                          (s_skipped s) (s_failed s)))
      else Ok (Outcome d cr (o_wrote_any o)
                 (Summary (s_created s) (s_modified s)
                          (s_skipped s ++ [filepath])%list (s_failed s)))).

(** The edit list the caller works with: an exception of the parser is
    caught and leaves the list empty. *)
Definition edit_blocks_of (response : string) : list edit :=
  match parse_edit_blocks response with
  | Ok edits => edits
  | Raise _ => []
  end.

Definition process_response_files (io : console) (cfg : config)
    (response : string) (base_dir : Fs.path) (d : Fs.disk)
    (created_files : created) : result outcome :=
  let start := Outcome d created_files false (Summary [] [] [] []) in
  if negb (truthy response) then Ok start
  else
    let edit_blocks := edit_blocks_of response in
    let edits_only :=
      filter (fun e => String.eqb (e_type e) "search_replace") edit_blocks in
    let new_from_edits :=
      filter (fun e => String.eqb (e_type e) "full_replace") edit_blocks in
    let after_edits :=
      match edits_only with
      | [] => start
      | _ :: _ =>
          let st := apply_edits edits_only base_dir d created_files
                                (auto_apply cfg) (answer io) in
          match a_raised st with
          | None =>
              let '(wrote_any, s) :=
                note_results (a_results st) false (Summary [] [] [] []) in
              Outcome (a_disk st) (a_created st) wrote_any s
          | Some _ =>
              Outcome (a_disk st) (a_created st) false (Summary [] [] [] [])
          end
      end in
    bind (parse_files_from_response response) (fun new_files =>
    let new_files := add_new_from_edits new_from_edits new_files in
    for_each new_files after_edits (process_new_file io cfg base_dir)).

(** ** The safety check of [auto_fix] *)

(** [<(?:file|edit)\s+path=Qrequirements\.txtQ>] with [re.IGNORECASE] *)
Definition req_tag : Re.regex :=
  Re.seqs [Re.Lit "<"; Re.Alt (Re.str "file") (Re.str "edit");
           Re.plus (Re.Cls Re.is_s); Re.str "path="; Re.quote;
           Re.str "requirements.txt"; Re.quote; Re.Lit ">"].

(** [<file\s+path=Qrequirements\.txtQ>.*?</file>] and the same for [edit],
    with [re.DOTALL] and [re.IGNORECASE]. *)
Definition req_block (tag : string) : Re.regex :=
  Re.seqs [Re.Lit "<"; Re.str tag;
           Re.plus (Re.Cls Re.is_s); Re.str "path="; Re.quote;
           Re.str "requirements.txt"; Re.quote; Re.Lit ">";
           Re.lazy_star Re.Dot;
           Re.str "</"; Re.str tag; Re.Lit ">"].

(** The block guarded by [diagnosis["is_local_import"]]: the response that
    goes on to [process_response_files]. *)
Definition block_requirements (is_local_import : bool)
    (full_response : string) : string :=
  if is_local_import then
    if contains full_response "requirements.txt"
       && contains (lower full_response) "<file"
    then
      match Re.search Re.IGNORECASE req_tag full_response with
      | Some _ =>
          let full_response :=
            Re.sub_empty Re.DOTALL_IGNORECASE (req_block "file") full_response in
          Re.sub_empty Re.DOTALL_IGNORECASE (req_block "edit") full_response
      | None => full_response
      end
    else full_response
  else full_response.

(** The part of [auto_fix] that follows the answer of the model: the safety
    check, the configuration of the fix, the processing of the response. *)
Definition apply_fix_response (io : console) (auto_apply_fixes : bool)
    (cfg : config) (is_local_import : bool) (full_response : string)
    (base_dir : Fs.path) (d : Fs.disk) (created_files : created)
  : result outcome :=
  if negb (truthy full_response)
  then Ok (Outcome d created_files false (Summary [] [] [] []))
  else
    let full_response := block_requirements is_local_import full_response in
    let fix_config :=
      if auto_apply_fixes then Config true (confirm_destructive cfg) else cfg in
    process_response_files io fix_config full_response base_dir d created_files.

End Builder.

(* ================================================================== *)
(** * chat.py: error diagnosis *)
(* ================================================================== *)

Module Chat.

(** The dictionary returned by [diagnose_test_error]. *)
Record diagnosis : Type := Diagnosis {
  error_type : string;
  root_cause : string;
  affected_files : list string;
  missing_module : string;
  import_chain : list string;
  fix_guidance : string;
  is_local_import : bool;
  is_pip_package : bool
}.

Definition unknown : diagnosis :=
  Diagnosis "unknown" "" [] "" [] "" false false.

Definition text_of (o : option string) : string :=
  match o with Some s => s | None => "" end.

(** [a or b] on two groups of a match. *)
Definition group_or (a b : option string) : string :=
  match a with
  | Some s => if truthy s then s else text_of b
  | None => text_of b
  end.

Definition error_prefixes : list string :=
  ["ModuleNotFoundError:"; "ImportError:"; "SyntaxError:";
   "IndentationError:"; "NameError:"; "AttributeError:"].

(** The last line of the output that starts, once stripped, with one of the
    prefixes; empty when there is none. *)
Definition find_error_line (lines : list string) : string :=
  match
    first_some
      (fun line =>
         let stripped := strip line in
         if existsb (startswith stripped) error_prefixes
         then Some stripped else None)
      (rev lines)
  with
  | Some stripped => stripped
  | None => ""
  end.

(** [ModuleNotFoundError: No module named Q(.+?)Q], where [Q] abbreviates
    the class of the two quotes. *)
Definition mod_pattern : Re.regex :=
  Re.seqs [Re.str "ModuleNotFoundError: No module named "; Re.quote;
           Re.Group 1 (Re.lazy_plus Re.Dot); Re.quote].

(** [File D(.+?)D.*line (\d+)], where [D] is the double quote. *)
Definition traceback_file : Re.regex :=
  Re.seqs [Re.str "File "; Re.Lit DQ; Re.Group 1 (Re.lazy_plus Re.Dot);
           Re.Lit DQ; Re.star Re.Dot; Re.str "line ";
           Re.Group 2 (Re.plus (Re.Cls Re.is_d))].

(** [(?:File D(.+?)D.*line (\d+))|(?:^(\S+\.py):(\d+):)], compiled with
    [re.MULTILINE]. *)
Definition file_pattern : Re.regex :=
  Re.Alt traceback_file
    (Re.seqs [Re.Bol;
              Re.Group 3 (Re.Seq (Re.plus (Re.Cls Re.is_S)) (Re.str ".py"));
              Re.Lit ":"; Re.Group 4 (Re.plus (Re.Cls Re.is_d)); Re.Lit ":"]).

(** [ImportError: cannot import name Q(.+?)Q from Q(.+?)Q] *)
Definition name_pattern : Re.regex :=
  Re.seqs [Re.str "ImportError: cannot import name "; Re.quote;
           Re.Group 1 (Re.lazy_plus Re.Dot); Re.quote; Re.str " from ";
           Re.quote; Re.Group 2 (Re.lazy_plus Re.Dot); Re.quote].

(** [AttributeError: (?:module |type object )?Q?(.+?)Q? has no attribute Q(.+?)Q] *)
Definition attr_pattern : Re.regex :=
  Re.seqs [Re.str "AttributeError: ";
           Re.opt (Re.Alt (Re.str "module ") (Re.str "type object "));
           Re.opt Re.quote; Re.Group 1 (Re.lazy_plus Re.Dot); Re.opt Re.quote;
           Re.str " has no attribute "; Re.quote;
           Re.Group 2 (Re.lazy_plus Re.Dot); Re.quote].

(** [First list contains (\d+) additional elements] *)
Definition additional_pattern : Re.regex :=
  Re.seqs [Re.str "First list contains ";
           Re.Group 1 (Re.plus (Re.Cls Re.is_d));
           Re.str " additional elements"].

(** [KeyError: Q([A-Z_]{3,})Q] *)
Definition env_key_pattern : Re.regex :=
  let upper := Re.Cls (fun c => Re.in_range 65 90 c || Ascii.eqb c "_") in
  Re.seqs [Re.str "KeyError: "; Re.quote;
           Re.Group 1 (Re.seqs [upper; upper; upper; Re.star upper]);
           Re.quote].

Definition system_prefixes : list string :=
  ["C:" ++ chr BSL ++ "Python"; "/usr/lib"; "<"; "importlib"].

(** The loop over the matches of [file_pattern]: the import chain and the
    affected files, in this order. *)
Definition extract_chain (error_output : string) : list string * list string :=
  fold_left
    (fun (acc : list string * list string) m =>
       let '(chain, affected) := acc in
       let fpath := group_or (Re.group m 1) (Re.group m 3) in
       let lineno := group_or (Re.group m 2) (Re.group m 4) in
       if truthy fpath && negb (existsb (startswith fpath) system_prefixes)
       then (app chain [fpath ++ ":" ++ lineno],
             if mem fpath affected then affected else app affected [fpath])
       else acc)
    (Re.finditer Re.MULTILINE file_pattern error_output) ([], []).

Definition local_names : list string :=
  ["models"; "crawler"; "app"; "config"; "utils"; "helpers"; "views";
   "routes"; "schemas"; "services"; "database"; "db"; "api"; "core";
   "common"; "settings"; "urls"; "forms"; "serializers"; "tasks";
   "middleware"; "decorators"; "exceptions"; "constants"; "enums";
   "managers"].

(** The files named in the traceback lines of a syntax or indentation
    error. *)
Definition traceback_files (lines : list string) : list string :=
  flat_map
    (fun line =>
       if contains line ("File " ++ chr DQ) && contains line (".py" ++ chr DQ)
       then match Re.search Re.NOFLAGS traceback_file line with
            | Some fmatch => [text_of (Re.group fmatch 1)]
            | None => []
            end
       else [])
    lines.

Section Diagnose.

(** The working directory of the process and the disk it sees. *)
Variable cwd : Fs.path.
Variable d : Fs.disk.

Definition at_cwd (rel : list string) : Fs.path := (cwd ++ rel)%list.

(** The decision tree of the missing-module branch. *)
Definition diagnose_missing_module (error_output missing : string)
  : diagnosis :=
  let '(chain, affected) := extract_chain error_output in
  let top_level := nth 0 (split missing ".") "" in
  let local_indicators :=
    [Fs.is_file d (Fs.joinpath cwd (top_level ++ ".py"));
     Fs.is_dir d (Fs.joinpath cwd top_level);
     Fs.is_file d (Fs.joinpath (at_cwd ["src"]) (top_level ++ ".py"));
     Fs.is_dir d (Fs.joinpath (at_cwd ["src"]) top_level);
     Fs.is_file d (Fs.joinpath (at_cwd ["lib"]) (top_level ++ ".py"));
     Fs.is_file d (Fs.joinpath (at_cwd ["app"]) (top_level ++ ".py"));
     mem top_level local_names] in
  if existsb (fun b => b) local_indicators then
    let src_file := Fs.joinpath (at_cwd ["src"]) (top_level ++ ".py") in
    let src_dir := Fs.joinpath (at_cwd ["src"]) top_level in
    let bare_file := Fs.joinpath cwd (top_level ++ ".py") in
    let bare_dir := Fs.joinpath cwd top_level in
    let guidance :=
      if (Fs.is_file d src_file || Fs.is_dir d src_dir)
         && negb (Fs.is_file d bare_file) && negb (Fs.is_dir d bare_dir)
      then
        "The file exists at 'src/" ++ top_level ++ ".py' but is being "
        ++ "imported as '" ++ missing ++ "' (without the 'src.' prefix). "
        ++ esc "FIXES (choose one):\n"
        ++ "  1. Change the import in the IMPORTING file to "
        ++ "'from src." ++ missing ++ esc " import ...' — this is the best fix\n"
        ++ esc "  2. Add a conftest.py that adds 'src' to sys.path\n"
        ++ esc "  3. Add 'src' to sys.path at the top of the importing file\n"
        ++ "DO NOT add '" ++ missing ++ "' to requirements.txt — "
        ++ esc "it is NOT a pip package.\n"
        ++ "DO NOT modify requirements.txt at all for this error."
      else if Fs.is_file d bare_file || Fs.is_dir d bare_dir then
        "The file '" ++ top_level ++ ".py' exists in the project root "
        ++ "but Python can't find it. The importing file may be "
        ++ esc "running from a different directory. Check:\n"
        ++ esc "  1. Is there a sys.path issue?\n"
        ++ esc "  2. Does conftest.py add the project root to sys.path?\n"
        ++ "  3. Does the project need a setup.py or pyproject.toml "
        ++ esc "with package configuration?\n"
        ++ "DO NOT add '" ++ missing ++ "' to requirements.txt."
      else
        "Module '" ++ missing ++ "' looks like a local module name but "
        ++ esc "the file wasn't found. Check:\n"
        ++ esc "  1. Does the file need to be created?\n"
        ++ esc "  2. Is the import path/spelling wrong?\n"
        ++ esc "  3. Search the project for files that might match.\n"
        ++ "DO NOT add '" ++ missing ++ "' to requirements.txt unless you "
        ++ "are CERTAIN it's a third-party package listed on PyPI." in
    Diagnosis "missing_module"
      ("Module '" ++ missing ++ "' exists as a local file but Python "
       ++ "can't find it. This is an IMPORT PATH issue, not a "
       ++ "missing pip package.")
      affected missing chain guidance true false
  else
    Diagnosis "missing_module"
      ("Module '" ++ missing ++ "' appears to be a third-party package "
       ++ "that's not installed.")
      affected missing chain
      ("Add '" ++ missing ++ "' to requirements.txt with an appropriate "
       ++ "version pin, then reinstall dependencies.")
      false true.

(** The branch of [ImportError: cannot import name]. *)
Definition diagnose_missing_symbol (symbol module : string) : diagnosis :=
  let guidance :=
    "1. Use read_file to check the actual source of '" ++ module ++ "' "
    ++ esc "and see what it exports\n"
    ++ "2. Check what version of '" ++ module ++ "' provides '" ++ symbol
    ++ esc "'\n"
    ++ esc "3. Update the version in requirements.txt if needed\n"
    ++ esc "4. Or fix the import if the symbol name is wrong\n"
    ++ "5. If '" ++ module ++ "' is a local file, read it and check what "
    ++ "names are defined in it" in
  let top_level := nth 0 (split module ".") "" in
  let is_local :=
    Fs.is_file d (Fs.joinpath cwd (top_level ++ ".py"))
    || Fs.is_file d (Fs.joinpath (at_cwd ["src"]) (top_level ++ ".py")) in
  Diagnosis "missing_symbol"
    ("Module '" ++ module ++ "' exists but doesn't export '" ++ symbol ++ "'. "
     ++ "This could be a version mismatch (the symbol was added in "
     ++ "a newer version or removed in the current one), or the "
     ++ "symbol name is misspelled, or it's defined in a different "
     ++ "submodule.")
    [] module []
    (if is_local
     then guidance
          ++ esc "\n\nThis appears to be a LOCAL module. Read the file "
          ++ "to check what's actually defined in it before changing "
          ++ "requirements.txt."
     else guidance)
    is_local false.

(** The detectors that read the whole output, in the order of the source. *)
Definition diagnose_output (error_output error_line : string) : diagnosis :=
  let additional_match :=
    Re.search Re.NOFLAGS additional_pattern error_output in
  if (match additional_match with Some _ => true | None => false end)
     || contains error_output "First extra element"
  then
    let count :=
      match additional_match with
      | Some m => text_of (Re.group m 1)
      | None => "multiple"
      end in
    Diagnosis "shared_file_state"
      ("Tests are loading stale data from a persistent file (e.g. tasks.json). "
       ++ "The list has " ++ count
       ++ " extra elements left over from previous test runs. "
       ++ "Each test instantiates the class and it loads ALL prior data from disk.")
      [] "" []
      (esc "1. Add data_file=None support to the class __init__:\n"
       ++ esc "     def __init__(self, data_file='tasks.json'):\n"
       ++ esc "         self.data_file = data_file\n"
       ++ esc "         self.tasks = []\n"
       ++ esc "         if data_file: self.load_tasks()\n"
       ++ esc "2. In every test, use setUp():\n"
       ++ esc "     def setUp(self):\n"
       ++ esc "         self.manager = TodoManager(data_file=None)\n"
       ++ esc "3. In tearDown(), delete any leftover data files:\n"
       ++ esc "     def tearDown(self):\n"
       ++ esc "         if os.path.exists('tasks.json'): os.remove('tasks.json')\n"
       ++ esc "4. Delete the existing tasks.json from the project root right now.\n"
       ++ "DO NOT change test assertions — fix the class and test setup instead.")
      false false
  else if contains error_output "ConnectionRefusedError"
          || contains error_output "Connection refused"
  then
    Diagnosis "connection_refused"
      ("Test is connecting to a real server that isn't running. "
       ++ "Unit/integration tests must use the framework's test client, not real HTTP.")
      [] "" []
      (esc "Replace all requests.get/post('http://localhost:...') with:\n"
       ++ esc "  Flask: client = app.test_client(); client.get('/route')\n"
       ++ esc "  FastAPI: client = TestClient(app); client.get('/route')\n"
       ++ "Remove any app.run() or server.listen() calls from test files.")
      false false
  else if existsb (contains error_output)
            ["IntegrityError"; "UniqueViolation"; "UNIQUE constraint failed";
             "duplicate key value violates"; "NOT NULL constraint failed"]
  then
    Diagnosis "db_integrity_error"
      ("Tests are sharing database state. A prior test left rows that violate "
       ++ "a UNIQUE or NOT NULL constraint in the next test.")
      [] "" []
      (esc "Add to setUp():  db.drop_all(); db.create_all()\n"
       ++ esc "Add to tearDown(): db.session.remove(); db.drop_all()\n"
       ++ esc "Use 'sqlite:///:memory:' as the test DB URI.\n"
       ++ "For Django, use django.test.TestCase (auto-rollback per test).")
      false false
  else if existsb (contains error_output)
            ["no such table"; "relation does not exist"; "Table doesn't exist"]
  then
    Diagnosis "db_table_missing"
      ("Test database tables were never created. "
       ++ "db.create_all() must run inside the app context before any test.")
      [] "" []
      (esc "In setUp(), after setting the test DB URI:\n"
       ++ esc "  with app.app_context():\n"
       ++ esc "      db.create_all()\n"
       ++ esc "For FastAPI/SQLModel: SQLModel.metadata.create_all(engine)\n"
       ++ "Ensure this runs BEFORE any test method that touches the DB.")
      false false
  else
    let env_key_match := Re.search Re.NOFLAGS env_key_pattern error_output in
    let env_hit :=
      match env_key_match with
      | Some m =>
          if existsb (contains error_output)
               ["os.environ"; "os.getenv"; "environ["; "getenv("]
          then Some (text_of (Re.group m 1)) else None
      | None => None
      end in
    match env_hit with
    | Some missing_key =>
        Diagnosis "missing_env_var"
          ("Environment variable '" ++ missing_key
           ++ "' is not set in the test environment.")
          [] missing_key []
          (esc "In setUp() or conftest.py, set a safe test default:\n"
           ++ "  os.environ['" ++ missing_key ++ esc "'] = 'test_value'\n"
           ++ "Or use: @unittest.mock.patch.dict(os.environ, {'"
           ++ missing_key ++ esc "': 'test'})\n"
           ++ "Never rely on a real .env file being present during automated tests.")
          false false
    | None =>
        match Re.search Re.NOFLAGS attr_pattern error_line with
        | Some attr_match =>
            let obj := text_of (Re.group attr_match 1) in
            let attr := text_of (Re.group attr_match 2) in
            Diagnosis "attribute_error"
              ("'" ++ obj ++ "' doesn't have attribute '" ++ attr
               ++ "'. This is usually "
               ++ "a version mismatch or API change.")
              [] "" []
              ("1. Check which version of the package provides '" ++ attr
               ++ esc "'\n"
               ++ esc "2. Read the source file to see what's available\n"
               ++ "3. Update the version in requirements.txt if it's a "
               ++ "third-party package version issue")
              false false
        | None => unknown
        end
    end.

(** Parse test/build error output and produce a structured diagnosis. *)
Definition diagnose_test_error (error_output : string) : diagnosis :=
  let lines := split (strip error_output) LF in
  let error_line := find_error_line lines in
  if negb (truthy error_line) then unknown
  else
    match Re.search Re.NOFLAGS mod_pattern error_line with
    | Some mod_match =>
        diagnose_missing_module error_output (text_of (Re.group mod_match 1))
    | None =>
        match Re.search Re.NOFLAGS name_pattern error_line with
        | Some name_match =>
            diagnose_missing_symbol (text_of (Re.group name_match 1))
                                    (text_of (Re.group name_match 2))
        | None =>
            if contains error_line "SyntaxError" then
              Diagnosis "syntax_error"
                ("Syntax error in source file: " ++ error_line)
                (traceback_files lines) "" []
                ("Read the file mentioned in the traceback and fix the syntax "
                 ++ esc "error. Use read_file to see the actual file content.\n"
                 ++ "Do NOT modify requirements.txt for syntax errors.")
                false false
            else if contains error_line "IndentationError" then
              Diagnosis "indentation_error"
                ("Indentation error: " ++ error_line)
                (traceback_files lines) "" []
                ("Read the file and fix the indentation. "
                 ++ "Do NOT modify requirements.txt for indentation errors.")
                false false
            else diagnose_output error_output error_line
        end
    end.

End Diagnose.

End Chat.

(* ================================================================== *)
(** * aiignore.py: ignore patterns *)
(* ================================================================== *)

Module AiIgnore.

Definition DEFAULT_IGNORE : list string :=
  [".git/"; ".venv/"; "venv/"; "node_modules/"; "__pycache__/";
   ".mypy_cache/"; ".pytest_cache/"; "dist/"; "build/"; "target/"; "*.pyc";
   "*.pyo"; "*.so"; "*.dll"; "*.exe"; "*.bin"; "*.o"; "*.a"; "*.lib";
   "*.db"; "*.sqlite"; "*.sqlite3"; "*.jpg"; "*.jpeg"; "*.png"; "*.gif";
   "*.ico"; "*.svg"; "*.mp3"; "*.mp4"; "*.wav"; "*.pdf"; "*.zip"; "*.tar";
   "*.gz"; "*.woff"; "*.woff2"; "*.ttf"; "*.eot"; ".env"; ".env.local";
   ".env.production"; ".DS_Store"; "Thumbs.db"; ".build_progress.json";
   "package-lock.json"; "yarn.lock"; "Cargo.lock"; "poetry.lock"].

(** The lines of an ignore file that are patterns: stripped, not empty, not
    comments. *)
Definition pattern_lines (content : string) : list string :=
  filter (fun line => truthy line && negb (startswith line "#"))
         (map strip (split (strip content) LF)).

(** Load .aiignore patterns from project directory: the defaults, then the
    lines of [.aiignore], then those of [.gitignore], each file given by
    its text when it exists. *)
Definition load_aiignore (aiignore gitignore : option string) : list string :=
  (DEFAULT_IGNORE
   ++ match aiignore with Some content => pattern_lines content | None => [] end
   ++ match gitignore with Some content => pattern_lines content | None => [] end)%list.

Section ShouldIgnore.

(** [fnmatch.fnmatch] of the standard library. *)
Variable fnmatch : string -> string -> bool.

Definition matches_pattern (filepath_normalized : string)
    (parts : list string) (pattern : string) : bool :=
  let pattern := rstrip_by (Ascii.eqb "/") pattern in
  ((endswith pattern "/" || mem pattern parts)
   && existsb (fun part => fnmatch part (rstrip_by (Ascii.eqb "/") pattern)) parts)
  || fnmatch filepath_normalized pattern
  || fnmatch (List.last parts "") pattern
  || (if contains pattern "/"
      then fnmatch filepath_normalized pattern
      else existsb (fun part => fnmatch part pattern) parts).

(** Check if a file path matches any ignore pattern. *)
Definition should_ignore (filepath : string) (patterns : list string) : bool :=
  let filepath_normalized := replace filepath (chr BSL) "/" in
  let parts := split filepath_normalized "/" in
  existsb (matches_pattern filepath_normalized parts) patterns.

End ShouldIgnore.

(** A matcher for the patterns made of literal characters, [?] and [*],
    which is how [fnmatch.fnmatch] reads a pattern without brackets on a
    POSIX system.  [n] bounds the nesting of stars by the length of the
    pattern. *)
Fixpoint glob (pat name : list ascii) {struct pat} : bool :=
  match pat with
  | [] => match name with [] => true | _ :: _ => false end
  | p :: pat' =>
      if Ascii.eqb p "*" then
        (fix any (name : list ascii) : bool :=
           glob pat' name
           || match name with [] => false | _ :: name' => any name' end) name
      else
        match name with
        | [] => false
        | c :: name' => (Ascii.eqb p "?" || Ascii.eqb p c) && glob pat' name'
        end
  end.

Definition simple_fnmatch (name pat : string) : bool :=
  glob (list_ascii_of_string pat) (list_ascii_of_string name).

End AiIgnore.

(* ================================================================== *)
(** * project_context.py: scan, index and validate the project *)
(* ================================================================== *)

Module ProjectContext.

Definition IGNORE_DIRS : list string :=
  [".git"; ".venv"; "venv"; "node_modules"; "__pycache__"; ".mypy_cache";
   ".pytest_cache"; ".tox"; "dist"; "build"; ".egg-info"; ".eggs";
   "target"; "bin"; "obj"].

Definition IGNORE_FILES : list string :=
  [".DS_Store"; "Thumbs.db"; ".build_progress.json"].

Definition MAX_FILE_SIZE : N := 100000%N.

(** ** Data classes *)

Record FileInfo : Type := mkFileInfo {
  path : string;
  content : string;
  size : N;
  language : string;
  imports : list string;
  exports : list string;
  references : list string;
  errors : list string
}.

(** An issue dictionary; the keys [import] and [other_file] are present in
    some kinds of issue only. *)
Record Issue : Type := mkIssue {
  i_type : string;
  i_file : string;
  i_message : string;
  i_severity : string;
  i_import : option string;
  i_other_file : option string
}.

(** A [dict] with text keys, in insertion order; keys occur once. *)
Definition dict (V : Type) : Type := list (string * V).

Fixpoint dict_get {V : Type} (k : string) (m : dict V) : option V :=
  match m with
  | [] => None
  | (k', v) :: rest => if String.eqb k' k then Some v else dict_get k rest
  end.

(** [m[k] = v]: a new key goes last, a known key keeps its place. *)
Fixpoint dict_set {V : Type} (k : string) (v : V) (m : dict V) : dict V :=
  match m with
  | [] => [(k, v)]
  | (k', v') :: rest =>
      if String.eqb k' k then (k', v) :: rest
      else (k', v') :: dict_set k v rest
  end.

(** [k in m] *)
Definition dict_has {V : Type} (k : string) (m : dict V) : bool :=
  match dict_get k m with Some _ => true | None => false end.

Record ProjectContext : Type := mkProjectContext {
  base_dir : list string;
  files : dict FileInfo;
  issues : list Issue;
  dependency_graph : dict (list string)
}.

Definition ext_map : dict string :=
  [(".py", "python"); (".js", "javascript"); (".jsx", "javascript");
   (".mjs", "javascript"); (".ts", "typescript"); (".tsx", "typescript");
   (".rs", "rust"); (".go", "go"); (".java", "java"); (".rb", "ruby");
   (".html", "html"); (".htm", "html"); (".css", "css"); (".scss", "css");
   (".json", "json"); (".yaml", "yaml"); (".yml", "yaml"); (".toml", "toml");
   (".md", "markdown"); (".sql", "sql"); (".sh", "bash"); (".bash", "bash");
   (".ps1", "powershell"); (".txt", "text")].

Definition detect_language (filepath : string) : string :=
  match dict_get (lower (Fs.suffix filepath)) ext_map with
  | Some l => l
  | None => "unknown"
  end.

(** ** The directory that is scanned *)

(** An entry of a directory: a file with its size in bytes and its decoded
    text ([None] when reading it is not permitted), or a directory with its
    entries in the order the system lists them. *)
Inductive node : Type :=
| FileNode (name : string) (st_size : N) (text : option string)
| DirNode (name : string) (children : list node).

Definition node_name (n : node) : string :=
  match n with FileNode name _ _ => name | DirNode name _ => name end.

Definition _PROJECT_ROOT_MARKERS : list string :=
  ["requirements.txt"; "pyproject.toml"; "setup.py"; "setup.cfg";
   "Pipfile"; "poetry.lock"; "package.json"; "Cargo.toml"; "go.mod";
   "pom.xml"; "build.gradle"; "Gemfile"; ".git"; "Makefile"; "Dockerfile";
   "docker-compose.yml"; "docker-compose.yaml"].

(** Check if a directory contains project root markers. *)
Definition _has_project_markers (entries : list node) : bool :=
  existsb (fun e => mem (node_name e) _PROJECT_ROOT_MARKERS) entries.

(** Find the actual project root directory: the given one, or its only
    immediate subdirectory that has project markers.  The result is the
    path of the root below the given directory and the entries of the
    root. *)
Definition find_project_root (scan_dir : list node) (auto_detect : bool)
  : list string * list node :=
  if _has_project_markers scan_dir then ([], scan_dir)
  else if negb auto_detect then ([], scan_dir)
  else
    let project_subdirs :=
      flat_map
        (fun e =>
           match e with
           | DirNode name children =>
               if negb (mem name IGNORE_DIRS) && _has_project_markers children
               then [(name, children)] else []
           | FileNode _ _ _ => []
           end)
        scan_dir in
    match project_subdirs with
    | [(name, children)] => ([name], children)
    | _ => ([], scan_dir)
    end.

(** [os.walk] from the root, top down, with the pruning of the loop: the
    files of a directory in listing order, then its subdirectories that are
    not in [IGNORE_DIRS].  Each file comes with the components of its path
    below the root. *)
Fixpoint walk_node (dir : list string) (n : node)
  : list (list string * string * N * option string) :=
  match n with
  | FileNode _ _ _ => []
  | DirNode name children =>
      if mem name IGNORE_DIRS then []
      else
        let here := (dir ++ [name])%list in
        (flat_map
           (fun e =>
              match e with
              | FileNode f sz text => [(here, f, sz, text)]
              | DirNode _ _ => []
              end)
           children
         ++ flat_map (walk_node here) children)%list
  end.

Definition walk (root : list node)
  : list (list string * string * N * option string) :=
  (flat_map
     (fun e =>
        match e with
        | FileNode f sz text => [([], f, sz, text)]
        | DirNode _ _ => []
        end)
     root
   ++ flat_map (walk_node []) root)%list.

(** The text of a file of the root directory, when it is there and can be
    read. *)
Definition root_file (root : list node) (name : string) : option string :=
  first_some
    (fun e =>
       match e with
       | FileNode f _ text => if String.eqb f name then text else None
       | DirNode _ _ => None
       end)
    root.

(** ** Language analyzers *)

(** The nodes of a syntax tree that [analyze_python] tells apart, with the
    fields it reads: the names of an import, the module (when given) and
    the names of a from-import, the name of a definition. *)
Inductive ast_node : Type :=
| Import (names : list string)
| ImportFrom (module : option string) (names : list string)
| FunctionDef (name : string)
| AsyncFunctionDef (name : string)
| ClassDef (name : string)
| OtherNode.

(** [QS([a-zA-Z0-9_/\\]+\.[a-zA-Z]+)QS], where [QS] abbreviates the class of
    the two quotes. *)
Definition path_pattern : Re.regex :=
  let alpha c := Re.in_range 97 122 c || Re.in_range 65 90 c in
  Re.seqs [Re.quote;
           Re.Group 1
             (Re.seqs [Re.plus (Re.Cls (fun c =>
                                   alpha c || Re.in_range 48 57 c
                                   || Re.one_of ["_"%char; "/"%char; BSL] c));
                       Re.Lit "."; Re.plus (Re.Cls alpha)]);
           Re.quote].

(** [re.findall] for a pattern with one group. *)
Definition findall1 (fl : Re.flags) (r : Re.regex) (s : string) : list string :=
  map (fun m => match Re.group m 1 with Some g => g | None => "" end)
      (Re.finditer fl r s).

Definition with_imports (info : FileInfo) (l : list string) : FileInfo :=
  mkFileInfo (path info) (content info) (size info) (language info)
    (imports info ++ l)%list (exports info) (references info) (errors info).
Definition with_exports (info : FileInfo) (l : list string) : FileInfo :=
  mkFileInfo (path info) (content info) (size info) (language info)
    (imports info) (exports info ++ l)%list (references info) (errors info).
Definition with_references (info : FileInfo) (l : list string) : FileInfo :=
  mkFileInfo (path info) (content info) (size info) (language info)
    (imports info) (exports info) (references info ++ l)%list (errors info).
Definition set_references (info : FileInfo) (l : list string) : FileInfo :=
  mkFileInfo (path info) (content info) (size info) (language info)
    (imports info) (exports info) l (errors info).
Definition with_errors (info : FileInfo) (l : list string) : FileInfo :=
  mkFileInfo (path info) (content info) (size info) (language info)
    (imports info) (exports info) (references info) (errors info ++ l)%list.

(** The body of the loop over [ast.walk(tree)]. *)
Definition visit (info : FileInfo) (n : ast_node) : FileInfo :=
  match n with
  | Import names => with_imports info names
  | ImportFrom module names =>
      let module := match module with Some m => m | None => "" end in
      let dotted :=
        map (fun name => if truthy module then module ++ "." ++ name else name)
            names in
      with_imports info (app (if truthy module then [module] else []) dotted)
  | FunctionDef name | AsyncFunctionDef name =>
      with_exports info ["def " ++ name]
  | ClassDef name => with_exports info ["class " ++ name]
  | OtherNode => info
  end.

Section Analyzers.

(** [ast.parse] followed by [ast.walk]: the message of the [SyntaxError], or
    the nodes of the tree in the order of the walk. *)
Variable ast_parse : string -> string + list ast_node.

(** Parse Python file for imports, exports, and references. *)
Definition analyze_python (info : FileInfo) : FileInfo :=
  match ast_parse (content info) with
  | inl e => with_errors info ["Syntax error: " ++ e]
  | inr tree =>
      let info := fold_left visit tree info in
      set_references info (findall1 Re.NOFLAGS path_pattern (content info))
  end.

(** [(?:import|require)\s*(?:\(?\s*Q([^Q]+)Q\s*\)?|.*?from\s*Q([^Q]+)Q)],
    where [Q] abbreviates the class of the two quotes. *)
Definition import_pat : Re.regex :=
  let name n := Re.Group n (Re.plus (Re.Cls (Re.none_of [SQ; DQ]))) in
  Re.seqs [Re.Alt (Re.str "import") (Re.str "require");
           Re.star (Re.Cls Re.is_s);
           Re.Alt
             (Re.seqs [Re.opt (Re.Lit "("); Re.star (Re.Cls Re.is_s);
                       Re.quote; name 1; Re.quote;
                       Re.star (Re.Cls Re.is_s); Re.opt (Re.Lit ")")])
             (Re.seqs [Re.lazy_star Re.Dot; Re.str "from";
                       Re.star (Re.Cls Re.is_s);
                       Re.quote; name 2; Re.quote])].

(** A keyword among [kws], white space, and a word as group 1. *)
Definition keyword_then_word (lead : Re.regex) (kws : list string) : Re.regex :=
  Re.seqs [lead; Re.alts (map Re.str kws); Re.plus (Re.Cls Re.is_s);
           Re.Group 1 (Re.plus (Re.Cls Re.is_w))].

(** [export\s+(?:default\s+)?(?:function|class|const|let|var|interface|type|enum)\s+(\w+)] *)
Definition export_pat : Re.regex :=
  keyword_then_word
    (Re.seqs [Re.str "export"; Re.plus (Re.Cls Re.is_s);
              Re.opt (Re.Seq (Re.str "default") (Re.plus (Re.Cls Re.is_s)))])
    ["function"; "class"; "const"; "let"; "var"; "interface"; "type"; "enum"].

Definition analyze_javascript (info : FileInfo) : FileInfo :=
  let info :=
    with_imports info
      (flat_map
         (fun m =>
            let module :=
              match Re.group m 1 with
              | Some g => if truthy g then Some g else Re.group m 2
              | None => Re.group m 2
              end in
            match module with
            | Some g => if truthy g then [g] else []
            | None => []
            end)
         (Re.finditer Re.NOFLAGS import_pat (content info))) in
  with_exports info (findall1 Re.NOFLAGS export_pat (content info)).

(** [use\s+([\w:]+)] *)
Definition use_pat : Re.regex :=
  Re.seqs [Re.str "use"; Re.plus (Re.Cls Re.is_s);
           Re.Group 1 (Re.plus (Re.Cls (fun c => Re.is_w c || Ascii.eqb c ":")))].

(** [pub\s+(?:fn|struct|enum|trait|type|mod|const|static)\s+(\w+)] *)
Definition pub_pat : Re.regex :=
  keyword_then_word (Re.Seq (Re.str "pub") (Re.plus (Re.Cls Re.is_s)))
    ["fn"; "struct"; "enum"; "trait"; "type"; "mod"; "const"; "static"].

(** [mod\s+(\w+)\s*;] *)
Definition mod_pat : Re.regex :=
  Re.seqs [Re.str "mod"; Re.plus (Re.Cls Re.is_s);
           Re.Group 1 (Re.plus (Re.Cls Re.is_w));
           Re.star (Re.Cls Re.is_s); Re.Lit ";"].

Definition analyze_rust (info : FileInfo) : FileInfo :=
  let info := with_imports info (findall1 Re.NOFLAGS use_pat (content info)) in
  let info := with_exports info (findall1 Re.NOFLAGS pub_pat (content info)) in
  with_references info (findall1 Re.NOFLAGS mod_pat (content info)).

(** [import\s*\((.*?)\)], searched with [re.DOTALL] *)
Definition go_block : Re.regex :=
  Re.seqs [Re.str "import"; Re.star (Re.Cls Re.is_s); Re.Lit "(";
           Re.Group 1 (Re.lazy_star Re.Dot); Re.Lit ")"].

(** [import\s+D([^D]+)D], where [D] is the double quote. *)
Definition go_single : Re.regex :=
  Re.seqs [Re.str "import"; Re.plus (Re.Cls Re.is_s); Re.Lit DQ;
           Re.Group 1 (Re.plus (Re.Cls (Re.none_of [DQ]))); Re.Lit DQ].

(** [(?:func|type|var|const)\s+([A-Z]\w+)] *)
Definition go_export : Re.regex :=
  Re.seqs [Re.alts (map Re.str ["func"; "type"; "var"; "const"]);
           Re.plus (Re.Cls Re.is_s);
           Re.Group 1 (Re.Seq (Re.Cls (Re.in_range 65 90))
                              (Re.plus (Re.Cls Re.is_w)))].

Definition analyze_go (info : FileInfo) : FileInfo :=
  let info :=
    match Re.search Re.DOTALL go_block (content info) with
    | Some block =>
        with_imports info
          (filter truthy
             (map (fun line => strip_by (Ascii.eqb DQ) (strip line))
                  (split (match Re.group block 1 with
                          | Some g => g | None => "" end) LF)))
    | None => info
    end in
  let info := with_imports info (findall1 Re.NOFLAGS go_single (content info)) in
  with_exports info (findall1 Re.NOFLAGS go_export (content info)).

(** The dispatch of the scanner on the detected language. *)
Definition analyze (info : FileInfo) : FileInfo :=
  let language := language info in
  if String.eqb language "python" then analyze_python info
  else if mem language ["javascript"; "typescript"] then analyze_javascript info
  else if String.eqb language "rust" then analyze_rust info
  else if String.eqb language "go" then analyze_go info
  else info.

End Analyzers.

(** ** Cross-reference validation *)

Definition PYTHON_STDLIB : list string :=
  ["os"; "sys"; "re"; "json"; "math"; "datetime"; "pathlib"; "typing";
   "collections"; "functools"; "itertools"; "subprocess"; "asyncio";
   "logging"; "unittest"; "dataclasses"; "abc"; "hashlib"; "secrets";
   "uuid"; "enum"; "copy"; "io"; "contextlib"; "time"; "random"; "string";
   "textwrap"; "shutil"; "tempfile"; "glob"; "argparse"; "configparser";
   "sqlite3"; "csv"; "http"; "urllib"; "email"; "html"; "xml"; "base64";
   "struct"; "socket"; "threading"; "multiprocessing"; "concurrent"; "ast";
   "inspect"; "traceback"; "warnings"; "pdb"; "profile"; "timeit";
   "cProfile"; "pickle"; "shelve"; "marshal"; "codecs"; "locale";
   "gettext"; "unicodedata"; "decimal"; "fractions"; "operator"; "array";
   "heapq"; "bisect"; "queue"; "types"; "weakref"; "gc"; "dis"; "token";
   "tokenize"; "pprint"; "platform"; "signal"; "fnmatch"; "stat";
   "binascii"; "tomllib"; "zipfile"; "tarfile"; "gzip"; "bz2"; "lzma";
   "zlib"].

Definition PYTHON_THIRD_PARTY : list string :=
  ["flask"; "django"; "fastapi"; "requests"; "httpx"; "aiohttp";
   "sqlalchemy"; "pydantic"; "celery"; "redis"; "pymongo"; "psycopg2";
   "mysql"; "boto3"; "botocore"; "numpy"; "pandas"; "scipy"; "matplotlib";
   "sklearn"; "torch"; "tensorflow"; "pytest"; "nose"; "mock"; "faker";
   "factory"; "rich"; "click"; "typer"; "fire"; "prompt_toolkit"; "yaml";
   "toml"; "dotenv"; "decouple"; "environ"; "PIL"; "cv2"; "jinja2"; "mako";
   "markupsafe"; "werkzeug"; "gunicorn"; "uvicorn"; "starlette";
   "marshmallow"; "wtforms"; "babel"; "alembic"; "setuptools";
   "pkg_resources"; "pip"; "wheel"; "bs4"; "beautifulsoup4"; "scrapy";
   "selenium"; "lxml"; "cryptography"; "jwt"; "passlib"; "bcrypt";
   "flask_sqlalchemy"; "flask_migrate"; "flask_cors"; "flask_login";
   "flask_wtf"; "flask_restful"; "kombu"; "amqp"; "stripe"; "twilio";
   "sendgrid"; "pygments"; "colorama"; "termcolor"; "tqdm";
   "alive_progress"; "pillow"; "imageio"; "scikit_image"].

(** Check if a Python module is stdlib or known third-party. *)
Definition _is_external_python (module : string) : bool :=
  let top := nth 0 (split module ".") "" in
  let top_normalized := replace top "-" "_" in
  mem top PYTHON_STDLIB || mem top PYTHON_THIRD_PARTY
  || mem top_normalized PYTHON_THIRD_PARTY.

(** [any(f.startswith(prefix) for f in ctx.files)] *)
Definition any_under (prefix : string) (files : dict FileInfo) : bool :=
  existsb (fun kv => startswith (fst kv) prefix) files.

(** [range(n, 0, -1)] *)
Definition down_from (n : nat) : list nat := rev (seq 1 n).

(** Resolve a Python import to an actual file in the project, walking the
    dotted path from the longest prefix to the shortest. *)
Definition resolve_python_import (import_path from_file : string)
    (files : dict FileInfo) : option string :=
  let parts := split import_path "." in
  first_some
    (fun i =>
       let candidate := firstn i parts in
       let module_path := join "/" candidate in
       let py_path := module_path ++ ".py" in
       let init_path := module_path ++ "/__init__.py" in
       let dir_prefix := module_path ++ "/" in
       if dict_has py_path files then Some py_path
       else if dict_has init_path files then Some init_path
       else if any_under dir_prefix files
       then Some (rstrip_by (Ascii.eqb "/") dir_prefix)
       else None)
    (down_from (List.length parts)).

(** [str(Path(from_file).parent)] for a relative path. *)
Definition parent_dir (from_file : string) : string :=
  match Fs.parts from_file with
  | [] | [_] => "."
  | l => join "/" (removelast l)
  end.

(** [os.path.join(a, b)] *)
Definition path_join (a b : string) : string :=
  if startswith b "/" then b
  else if negb (truthy a) || endswith a "/" then a ++ b
  else a ++ "/" ++ b.

(** [os.path.normpath] on a POSIX system. *)
Definition normpath (p : string) : string :=
  if negb (truthy p) then "."
  else
    let initial_slashes :=
      if startswith p "/" then
        if startswith p "//" && negb (startswith p "///") then 2 else 1
      else 0 in
    let new_comps :=
      fold_left
        (fun (new_comps : list string) (comp : string) =>
           if mem comp [""; "."] then new_comps
           else if negb (String.eqb comp "..")
                   || ((initial_slashes =? 0)
                       && match new_comps with [] => true | _ => false end)
                   || String.eqb (List.last new_comps "") ".."
           then app new_comps [comp]
           else removelast new_comps)
        (split p "/") [] in
    let p := join "/" new_comps in
    let p := (if initial_slashes =? 2 then "//"
              else if initial_slashes =? 1 then "/" else "") ++ p in
    if truthy p then p else ".".

(** Resolve a JavaScript/TypeScript import. *)
Definition resolve_js_import (import_path from_file : string)
    (files : dict FileInfo) : option string :=
  if negb (startswith import_path ".") then None
  else
    let from_dir := parent_dir from_file in
    let resolved :=
      replace (normpath (path_join from_dir import_path)) (chr BSL) "/" in
    first_some
      (fun ext =>
         let candidate := resolved ++ ext in
         if dict_has candidate files then Some candidate else None)
      [""; ".js"; ".ts"; ".jsx"; ".tsx";
       "/index.js"; "/index.ts"; "/index.jsx"; "/index.tsx"].

(** Resolve an import to a project file, dispatching by language. *)
Definition resolve_import (import_path from_file : string)
    (files : dict FileInfo) : option string :=
  match dict_get from_file files with
  | None => None
  | Some info =>
      let language := language info in
      if String.eqb language "python"
      then resolve_python_import import_path from_file files
      else if mem language ["javascript"; "typescript"]
      then resolve_js_import import_path from_file files
      else if String.eqb language "rust" then
        if startswith import_path "crate::" then
          let rust_path :=
            replace (replace import_path "crate::" "src/") "::" "/" in
          first_some
            (fun ext =>
               let candidate := rust_path ++ ext in
               if dict_has candidate files then Some candidate else None)
            [".rs"; "/mod.rs"]
        else None
      else if String.eqb language "go" then
        let local_path := List.last (split import_path "/") "" in
        first_some
          (fun kv =>
             let fpath := fst kv in
             if endswith fpath ".go" && contains fpath local_path
             then Some fpath else None)
          files
      else None
  end.

(** Determine if a Python import refers to a local project module, by
    looking at the files of the project. *)
Definition is_local_python_import (import_path : string)
    (files : dict FileInfo) : bool :=
  if _is_external_python import_path then false
  else if startswith import_path "." then true
  else
    let top_level := nth 0 (split import_path ".") "" in
    if dict_has (top_level ++ ".py") files then true
    else if dict_has (top_level ++ "/__init__.py") files then true
    else any_under (top_level ++ "/") files.

Definition go_builtin : list string :=
  ["fmt"; "os"; "io"; "net"; "log"; "strings"; "strconv"; "errors";
   "context"; "sync"; "time"; "math"; "sort"; "bytes"; "bufio"; "path";
   "filepath"; "regexp"; "encoding"; "crypto"; "database"; "html"; "mime";
   "testing"].

(** Check if an import refers to a local project file. *)
Definition is_local_import (imp language : string) (files : dict FileInfo)
  : bool :=
  if String.eqb language "python" then is_local_python_import imp files
  else if mem language ["javascript"; "typescript"] then startswith imp "."
  else if String.eqb language "rust" then startswith imp "crate::"
  else if String.eqb language "go"
  then negb (contains imp "." || mem imp go_builtin)
  else false.

Definition build_dependency_graph (files : dict FileInfo)
  : dict (list string) :=
  fold_left
    (fun (graph : dict (list string)) (kv : string * FileInfo) =>
       let '(fpath, info) := kv in
       let deps :=
         fold_left
           (fun (deps : list string) (imp : string) =>
              match resolve_import imp fpath files with
              | Some resolved =>
                  if truthy resolved && negb (mem resolved deps)
                  then app deps [resolved] else deps
              | None => deps
              end)
           (imports info) [] in
       dict_set fpath deps graph)
    files [].

(** ** Orphan detection exclusions *)

Definition _NON_IMPORTABLE_FILES : list string :=
  [".gitignore"; ".gitattributes"; ".gitmodules"; ".dockerignore";
   ".editorconfig"; ".prettierrc"; ".prettierignore"; ".eslintrc";
   ".eslintrc.js"; ".eslintrc.json"; ".eslintignore"; ".stylelintrc";
   ".babelrc"; ".browserslistrc"; ".npmrc"; ".nvmrc"; ".flake8";
   ".pylintrc"; ".mypy.ini"; ".coveragerc"; ".env"; ".env.example";
   ".env.local"; ".env.development"; ".env.production"; ".env.test";
   "Dockerfile"; "docker-compose.yml"; "docker-compose.yaml"; "Makefile";
   "Procfile"; "Vagrantfile"; "LICENSE"; "LICENSE.md"; "LICENSE.txt";
   "README.md"; "README.rst"; "README.txt"; "README"; "CHANGELOG.md";
   "CHANGELOG.txt"; "CONTRIBUTING.md"; "pytest.ini"; "setup.cfg";
   "tox.ini"; "pyproject.toml"; "setup.py"; "MANIFEST.in";
   "package-lock.json"; "yarn.lock"; "pnpm-lock.yaml"; "Cargo.lock";
   "go.sum"; "tsconfig.json"; "jsconfig.json"; "webpack.config.js";
   "vite.config.js"; "vite.config.ts"; "rollup.config.js";
   "postcss.config.js"; "tailwind.config.js"; "tailwind.config.ts";
   "jest.config.js"; "jest.config.ts"; "vitest.config.ts";
   "babel.config.js"; "babel.config.json"; "next.config.js";
   "next.config.mjs"; "nuxt.config.js"; "nuxt.config.ts";
   "svelte.config.js"; "vercel.json"; "netlify.toml"; "fly.toml";
   "requirements.txt"; "requirements-dev.txt"; "constraints.txt";
   "Pipfile"; "Pipfile.lock"; "poetry.lock"].

Definition _ENTRY_POINT_EXACT : list string :=
  ["main.py"; "src/main.py"; "app.py"; "src/app.py"; "index.js";
   "index.ts"; "index.mjs"; "src/index.js"; "src/index.ts";
   "src/index.mjs"; "manage.py"; "wsgi.py"; "asgi.py"; "src/wsgi.py";
   "src/asgi.py"; "main.go"; "cmd/main.go"; "main.rs"; "src/main.rs";
   "src/lib.rs"; "setup.py"; "conftest.py"; "cli.py"; "src/cli.py";
   "server.py"; "src/server.py"; "run.py"; "src/run.py"; "worker.py";
   "src/worker.py"; "bot.py"; "src/bot.py"].

Definition _NON_IMPORTABLE_EXTENSIONS : list string :=
  [".json"; ".yaml"; ".yml"; ".toml"; ".md"; ".rst"; ".txt"; ".css";
   ".scss"; ".sass"; ".less"; ".html"; ".htm"; ".svg"; ".xml"; ".sql";
   ".sh"; ".bash"; ".ps1"; ".bat"; ".cmd"; ".env"; ".cfg"; ".ini"; ".conf";
   ".lock"; ".sum"; ".png"; ".jpg"; ".jpeg"; ".gif"; ".ico"; ".webp";
   ".woff"; ".woff2"; ".ttf"; ".eot"; ".map"; ".min.js"; ".min.css"].

Definition framework_dirs : list string :=
  ["templates"; "static"; "public"; "assets"; "media"; "migrations";
   "fixtures"; "seeds"; "locales"; "i18n"].

(** Check if a file should be evaluated for orphan status. *)
Definition _is_orphan_candidate (fpath : string) : bool :=
  let filename := Fs.name fpath in
  let ext := lower (Fs.suffix fpath) in
  if startswith filename "." then false
  else if mem filename _NON_IMPORTABLE_FILES then false
  else if mem ext _NON_IMPORTABLE_EXTENSIONS then false
  else if mem fpath _ENTRY_POINT_EXACT then false
  else if mem filename ["conftest.py"; "__init__.py"; "__main__.py";
                        "manage.py"; "wsgi.py"; "asgi.py"] then false
  else if startswith fpath "test" || startswith fpath "tests/"
          || contains fpath "/test_" || contains fpath "/tests/"
          || startswith filename "test_" || endswith filename "_test.py"
          || endswith filename "_test.go" || endswith filename ".test.js"
          || endswith filename ".test.ts" || endswith filename ".spec.js"
          || endswith filename ".spec.ts" then false
  else if existsb (fun part => mem part framework_dirs) (Fs.parts fpath)
  then false
  else true.

(** ** Circular imports *)

(** [sorted] on texts: insertion into a list ordered by code points. *)
Fixpoint insert_sorted (x : string) (l : list string) : list string :=
  match l with
  | [] => [x]
  | y :: rest => if String.leb x y then x :: l else y :: insert_sorted x rest
  end.

Definition sorted (l : list string) : list string :=
  fold_right insert_sorted [] l.

Fixpoint list_eqb (a b : list string) : bool :=
  match a, b with
  | [], [] => true
  | x :: a', y :: b' => String.eqb x y && list_eqb a' b'
  | _, _ => false
  end.

(** [l.index(x)] for an element that [l] holds. *)
Fixpoint index_of (x : string) (l : list string) : nat :=
  match l with
  | [] => 0
  | y :: rest => if String.eqb y x then 0 else S (index_of x rest)
  end.

(** The variables the nested function [dfs] shares with its caller. *)
Record cstate : Type := mkCState {
  c_issues : list Issue;
  c_reported : list (list string);
  c_visited : list string;
  c_rec_stack : list string
}.

Definition graph_get (graph : dict (list string)) (node : string)
  : list string :=
  match dict_get node graph with Some deps => deps | None => [] end.

(** The branch of the loop of [dfs] taken when [dep] is on the stack. *)
Definition report_cycle (node dep : string) (st : cstate) : cstate :=
  let idx := index_of dep (c_rec_stack st) in
  let cycle := app (skipn idx (c_rec_stack st)) [dep] in
  let key := sorted (removelast cycle) in
  if existsb (list_eqb key) (c_reported st) then st
  else
    mkCState
      (app (c_issues st)
           [mkIssue "circular_import" node
              ("Circular import: " ++ join " → " cycle) "error" None None])
      (app (c_reported st) [key]) (c_visited st) (c_rec_stack st).

(** [visited.add(node)] and [rec_stack.append(node)] *)
Definition enter (node : string) (st : cstate) : cstate :=
  mkCState (c_issues st) (c_reported st)
           (if mem node (c_visited st) then c_visited st
            else app (c_visited st) [node])
           (app (c_rec_stack st) [node]).

(** [rec_stack.pop()] *)
Definition leave (st : cstate) : cstate :=
  mkCState (c_issues st) (c_reported st) (c_visited st)
           (removelast (c_rec_stack st)).

(** What a call yields under the recursion limit of the interpreter: the
    value it returns, or [RecursionError]. *)
Inductive call (A : Type) : Type :=
| Returns (a : A)
| RecursionError.
Arguments Returns {A} a.
Arguments RecursionError {A}.

Definition call_map {A B : Type} (f : A -> B) (x : call A) : call B :=
  match x with Returns a => Returns (f a) | RecursionError => RecursionError end.

(** The loop of [dfs] over the dependencies of [node]; [rec] is the
    recursive call. *)
Fixpoint dfs_loop (rec : string -> cstate -> call cstate) (node : string)
    (deps : list string) (st : cstate) : call cstate :=
  match deps with
  | [] => Returns st
  | dep :: rest =>
      if mem dep (c_rec_stack st)
      then dfs_loop rec node rest (report_cycle node dep st)
      else if negb (mem dep (c_visited st)) then
        match rec dep st with
        | Returns st' => dfs_loop rec node rest st'
        | RecursionError => RecursionError
        end
      else dfs_loop rec node rest st
  end.

(** The nested function [dfs].  It calls itself once per node of a chain
    of imports; [limit] is the number of nested calls the interpreter still
    allows, and a call beyond it raises [RecursionError], which nothing
    catches. *)
Fixpoint dfs (limit : nat) (graph : dict (list string)) (node : string)
    (st : cstate) : call cstate :=
  match limit with
  | 0 => RecursionError
  | S limit' =>
      call_map leave
        (dfs_loop (dfs limit' graph) node (graph_get graph node)
                  (enter node st))
  end.

(** The loop over the keys of the graph. *)
Fixpoint dfs_all (limit : nat) (graph : dict (list string))
    (nodes : list string) (st : cstate) : call cstate :=
  match nodes with
  | [] => Returns st
  | node :: rest =>
      if negb (mem node (c_visited st)) then
        match dfs limit graph node st with
        | Returns st' => dfs_all limit graph rest st'
        | RecursionError => RecursionError
        end
      else dfs_all limit graph rest st
  end.

(** Detect circular import cycles in the dependency graph using DFS;
    [limit] is the depth of recursion left to the nested function when the
    detector is entered. *)
Definition detect_circular_imports (limit : nat) (graph : dict (list string))
  : call (list Issue) :=
  call_map c_issues
    (dfs_all limit graph (map fst graph) (mkCState [] [] [] [])).

(** ** The checks of [validate_cross_references] *)

(** Get the base module part of a Python import for deduplication. *)
Definition _get_python_base_module (import_path : string)
    (files : dict FileInfo) : string :=
  let parts := split import_path "." in
  match
    first_some
      (fun i =>
         let candidate := firstn i parts in
         let module_path := join "/" candidate in
         if dict_has (module_path ++ ".py") files
            || dict_has (module_path ++ "/__init__.py") files
            || any_under (module_path ++ "/") files
         then Some (join "." candidate) else None)
      (down_from (List.length parts))
  with
  | Some base => base
  | None => import_path
  end.

(** The first test of the loop over the imports of a file: the import is
    skipped as external. *)
Definition skipped_as_external (imp language : string) : bool :=
  if String.eqb language "python" then _is_external_python imp
  else if mem language ["javascript"; "typescript"]
  then negb (startswith imp ".")
  else if String.eqb language "go"
  then contains imp "." || mem imp go_builtin
  else if String.eqb language "rust"
  then startswith imp "std::" || negb (contains imp "::")
  else false.

Definition pair_eqb (a b : string * string) : bool :=
  String.eqb (fst a) (fst b) && String.eqb (snd a) (snd b).

(** What the first loop threads: [issues], [seen_issues] and, within one
    file, [checked_modules]. *)
Record vstate : Type := mkVState {
  v_issues : list Issue;
  v_seen : list (string * string);
  v_checked : list string
}.

(** One round of the loop over the imports of the file [fpath]. *)
Definition check_import (files : dict FileInfo) (fpath language : string)
    (st : vstate) (imp : string) : vstate :=
  if skipped_as_external imp language then st
  else if negb (is_local_import imp language files) then st
  else
    let base_module := _get_python_base_module imp files in
    if String.eqb language "python" && mem base_module (v_checked st) then st
    else
      let checked :=
        if String.eqb language "python"
        then (if mem base_module (v_checked st) then v_checked st
              else app (v_checked st) [base_module])
        else v_checked st in
      match resolve_import imp fpath files with
      | Some _ => mkVState (v_issues st) (v_seen st) checked
      | None =>
          if existsb (pair_eqb (fpath, imp)) (v_seen st)
          then mkVState (v_issues st) (v_seen st) checked
          else
            mkVState
              (app (v_issues st)
                 [mkIssue "missing_import" fpath
                    ("`" ++ fpath ++ "` imports `" ++ imp
                     ++ "` but no matching file found")
                    "error" (Some imp) None])
              (app (v_seen st) [(fpath, imp)]) checked
      end.

(** The first check: local imports that resolve to no file. *)
Definition missing_imports (files : dict FileInfo) : list Issue :=
  v_issues
    (fold_left
       (fun (st : vstate) (kv : string * FileInfo) =>
          let '(fpath, info) := kv in
          fold_left (check_import files fpath (language info)) (imports info)
                    (mkVState (v_issues st) (v_seen st) []))
       files (mkVState [] [] [])).

(** The second check: files that no file depends on. *)
Definition orphan_files (files : dict FileInfo)
    (graph : dict (list string)) : list Issue :=
  let all_deps := flat_map snd graph in
  flat_map
    (fun (kv : string * FileInfo) =>
       let fpath := fst kv in
       if mem fpath all_deps then []
       else if negb (_is_orphan_candidate fpath) then []
       else [mkIssue "orphan_file" fpath
               ("`" ++ fpath ++ "` is not imported by any other file")
               "warning" None None])
    files.

Definition common_names : list string :=
  ["main"; "setup"; "run"; "start"; "init"; "create_app"; "get"; "post";
   "put"; "delete"; "index"; "home"; "health"].

(** One round of the inner loop of the third check: the issues and the
    dictionary [all_exports].  An export always holds a word, so taking the
    last word never fails. *)
Definition check_export (fpath : string)
    (st : list Issue * dict string) (exp : string) : list Issue * dict string :=
  let '(issues, all_exports) := st in
  let name := List.last (words exp) "" in
  match dict_get name all_exports with
  | Some other =>
      if negb (String.eqb other fpath) then
        if contains (lower fpath) "test" || contains (lower other) "test"
           || startswith name "_"
        then st
        else if mem name common_names then st
        else
          (app issues
             [mkIssue "duplicate_definition" fpath
                ("`" ++ name ++ "` defined in both `" ++ fpath
                 ++ "` and `" ++ other ++ "`")
                "warning" None (Some other)],
           dict_set name fpath all_exports)
      else (issues, dict_set name fpath all_exports)
  | None => (issues, dict_set name fpath all_exports)
  end.

(** The third check: a name exported by two files. *)
Definition duplicate_definitions (files : dict FileInfo) : list Issue :=
  fst
    (fold_left
       (fun (st : list Issue * dict string) (kv : string * FileInfo) =>
          fold_left (check_export (fst kv)) (exports (snd kv)) st)
       files ([], [])).

(** Validate that all local imports resolve to actual project files. *)
Definition validate_cross_references (files : dict FileInfo)
    (graph : dict (list string)) : list Issue :=
  (missing_imports files ++ orphan_files files graph
   ++ duplicate_definitions files)%list.

(** ** Scanner *)

Section Scanner.

Variable fnmatch : string -> string -> bool.
Variable ast_parse : string -> string + list ast_node.

(** One round of the loop over the files of the walk: the dictionary
    [ctx.files] and the list [ctx.issues]. *)
Definition scan_file (ignore_patterns : list string)
    (st : dict FileInfo * list Issue)
    (f : list string * string * N * option string)
  : dict FileInfo * list Issue :=
  let '(files, issues) := st in
  let '(dir, filename, st_size, text) := f in
  if mem filename IGNORE_FILES then st
  else
    let rel_path := replace (join "/" (app dir [filename])) (chr BSL) "/" in
    if match ignore_patterns with [] => false | _ :: _ => true end
       && AiIgnore.should_ignore fnmatch rel_path ignore_patterns
    then st
    else if N.ltb MAX_FILE_SIZE st_size then st
    else if N.eqb st_size 0 then
      (files,
       app issues
         [mkIssue "empty_file" rel_path ("File is empty: " ++ rel_path)
            "warning" None None])
    else
      match text with
      | None => st
      | Some content =>
          let language := detect_language filename in
          let info :=
            mkFileInfo rel_path content st_size language [] [] [] [] in
          (dict_set rel_path (analyze ast_parse info) files, issues)
      end.

(** Scan a project directory and build full context. *)
Definition scan_project (scan_dir : list node) (auto_detect : bool)
  : ProjectContext :=
  let '(actual_root, entries) := find_project_root scan_dir auto_detect in
  let ignore_patterns :=
    AiIgnore.load_aiignore (root_file entries ".aiignore")
                           (root_file entries ".gitignore") in
  let '(files, issues) :=
    fold_left (scan_file ignore_patterns) (walk entries) ([], []) in
  let graph := build_dependency_graph files in
  mkProjectContext actual_root files
    (app issues (validate_cross_references files graph)) graph.

End Scanner.

End ProjectContext.

(* ================================================================== *)
(** * Inputs and predicates of the statements *)
(* ================================================================== *)

(** A response in the wire format: one create tag and one edit tag that
    holds two SEARCH/REPLACE units. *)
Definition sample_response : string :=
  esc "<file path=\q./src//new.py\q>\nprint(1)\n</file>\n<edit path=\qsrc\\main.py\q>\n<<<<<<< SEARCH\na = 1\n=======\na = 2\n>>>>>>> REPLACE\n<<<<<<< SEARCH\nb = 1\n=======\nb = 2\n>>>>>>> REPLACE\n</edit>\n".

(** A user who types nothing. *)
Definition quiet : Builder.console := Builder.Console (fun _ => "") (fun _ => []).

(** A disk with the given files, where every write succeeds. *)
Definition disk_with (files : list (Fs.path * string)) : Fs.disk :=
  Fs.Disk files [] (fun _ => false).

(** The project root [/proj]. *)
Definition proj : Fs.path := ["proj"].

(** A disk with a project and a file outside of it. *)
Definition passwd_disk : Fs.disk :=
  disk_with [(["proj"; "main.py"], esc "print(1)\n");
             (["etc"; "passwd"], esc "root:x:0:0\n")].

(** A search/replace edit whose path leaves the root. *)
Definition passwd_edit : DiffEditor.edit :=
  DiffEditor.search_replace "../../etc/passwd" "root:x:0:0" "root::0:0".

(** The output of a test that compares two lists of different lengths. *)
Definition lists_differ_output : string :=
  esc "FAIL: test_add (test_todo.TestTodo)\nAssertionError: Lists differ: [1, 2, 3] != [1]\n\nFirst list contains 2 additional elements.\nFirst extra element 1:\n2\n".


(** [x] imports [y]: [y] is among the dependencies the graph gives [x]. *)
Definition edge (graph : ProjectContext.dict (list string)) (x y : string)
  : Prop :=
  In y (ProjectContext.graph_get graph x).

(** Each node of the list imports the next one. *)
Fixpoint chain (graph : ProjectContext.dict (list string)) (l : list string)
  : Prop :=
  match l with
  | x :: (y :: _) as rest => edge graph x y /\ chain graph rest
  | _ => True
  end.


(** The issue filed for the cycle [c]: it is filed against the last node of
    the cycle, the one whose import closes it, and its message walks the
    cycle back to its first node. *)
Definition cycle_issue (c : list string) : ProjectContext.Issue :=
  ProjectContext.mkIssue "circular_import" (last c "")
    ("Circular import: " ++ join " → " (c ++ [hd "" c])) "error" None None.







(** The types of issue a scan produces. *)
Definition scan_issue_types : list string :=
  ["empty_file"; "missing_import"; "orphan_file"; "duplicate_definition"].

(** Two records of the same file: same path, text, size and language. *)
Definition same_source (i j : ProjectContext.FileInfo) : Prop :=
  ProjectContext.path i = ProjectContext.path j
  /\ ProjectContext.content i = ProjectContext.content j
  /\ ProjectContext.size i = ProjectContext.size j
  /\ ProjectContext.language i = ProjectContext.language j.

(** Every value of the dictionary of a scan is the analysis of a fresh
    record. *)
Definition scanned
    (ast_parse : string -> string + list ProjectContext.ast_node)
    (kv : string * ProjectContext.FileInfo) : Prop :=
  exists content sz lang,
    snd kv
    = ProjectContext.analyze ast_parse
        (ProjectContext.mkFileInfo (fst kv) content sz lang [] [] [] []).

(** The parser on the texts of the samples: the nodes of
    [from utils import helper] and of a function definition in the order of
    the walk, the error of an unfinished definition. *)
Definition sample_parser (s : string)
  : string + list ProjectContext.ast_node :=
  if String.eqb s (esc "from utils import helper\n")
  then inr [ProjectContext.OtherNode;
            ProjectContext.ImportFrom (Some "utils") ["helper"];
            ProjectContext.OtherNode]
  else if String.eqb s (esc "def helper():\n    return 1\n")
  then inr [ProjectContext.OtherNode; ProjectContext.FunctionDef "helper";
            ProjectContext.OtherNode]
  else if String.eqb s "def ("
  then inl "invalid syntax (<unknown>, line 1)"
  else inr [ProjectContext.OtherNode].

(** A project whose only file does not parse. *)
Definition broken_project : list ProjectContext.node :=
  [ProjectContext.FileNode "bad.py" 5 (Some "def (")].

(** The record of that file after the scan. *)
Definition broken_info : ProjectContext.FileInfo :=
  ProjectContext.mkFileInfo "bad.py" "def (" 5 "python" [] [] []
    ["Syntax error: invalid syntax (<unknown>, line 1)"].

(** A project of two files where [main.py] imports from a module [utils]
    that is nowhere. *)
Definition two_file_project : list ProjectContext.node :=
  [ProjectContext.FileNode "main.py" 25 (Some (esc "from utils import helper\n"));
   ProjectContext.FileNode "helpers.py" 27
     (Some (esc "def helper():\n    return 1\n"))].

(** The stack that [resolve_onto] has built when it reaches the end of a
    path. *)
Fixpoint stack_after (acc : list string) (p : Fs.path) : list string :=
  match p with
  | [] => acc
  | c :: rest =>
      if String.eqb c ".." then stack_after (tl acc) rest
      else stack_after (c :: acc) rest
  end.

(** The part of a path below a base, when it lies below it. *)
Fixpoint strip_prefix (base p : Fs.path) : option Fs.path :=
  match base, p with
  | [], _ => Some p
  | b :: base', c :: p' =>
      if String.eqb b c then strip_prefix base' p' else None
  | _ :: _, [] => None
  end.

(** The files and directories of the disk. *)
Definition entries (d : Fs.disk) : list Fs.path :=
  (map fst (Fs.files d) ++ Fs.empty_dirs d)%list.

(** No file or directory at or below the working directory has the given
    name. *)
Definition no_entry_named (d : Fs.disk) (cwd : Fs.path) (name : string)
  : bool :=
  forallb
    (fun p =>
       match strip_prefix (Fs.resolve cwd) p with
       | Some rel => negb (mem name rel)
       | None => true
       end)
    (entries d).

(** The error line the diagnosis works on. *)
Definition error_line_of (error_output : string) : string :=
  Chat.find_error_line (split (strip error_output) LF).

(** The two error lines of the classification. *)
Definition requests_line : string :=
  "ModuleNotFoundError: No module named 'requests'".

Definition src_utils_line : string :=
  "ModuleNotFoundError: No module named 'src.utils'".

(** Disks and outputs for the two error lines. *)
Definition requests_disk : Fs.disk :=
  disk_with [(["proj"; "main.py"], "import requests")].

Definition src_utils_disk : Fs.disk :=
  disk_with [(["proj"; "src"; "utils.py"], "x = 1");
             (["proj"; "tests"; "test_utils.py"], "from src.utils import x")].

Definition requests_output : string :=
  esc "Traceback (most recent call last):\n  File \qmain.py\q, line 1, in <module>\n    import requests\nModuleNotFoundError: No module named 'requests'\n".

Definition src_utils_output : string :=
  esc "ImportError while importing test module 'tests/test_utils.py'.\ntests/test_utils.py:1: in <module>\n    from src.utils import x\nE   ModuleNotFoundError: No module named 'src.utils'\nModuleNotFoundError: No module named 'src.utils'\n".

(** Whether the rest of the current line is blank; [b] answers for a line
    that runs to the end of the text. *)
Fixpoint tail_blank (b : bool) (s : string) : bool :=
  match s with
  | EmptyString => b
  | String c s' => if Ascii.eqb c LF then true else isspace c && tail_blank b s'
  end.

(** The text without the white space that ends its lines; [b] says
    whether the white space that ends the text is dropped too. *)
Fixpoint nrm (b : bool) (s : string) : string :=
  match s with
  | EmptyString => EmptyString
  | String c s' =>
      if Ascii.eqb c LF then String c (nrm b s')
      else if isspace c && tail_blank b s' then nrm b s'
      else String c (nrm b s')
  end.

(** ** Responses of the wire format *)

(** The wire format: a create tag, a SEARCH/REPLACE unit, an edit tag. *)
Definition create_tag (path content : string) : string :=
  "<file path=" ++ chr DQ ++ path ++ chr DQ ++ ">" ++ nl
  ++ content ++ nl ++ "</file>".

Definition sr_unit (search replace : string) : string :=
  "<<<<<<< SEARCH" ++ nl ++ search ++ nl ++ "=======" ++ nl
  ++ replace ++ nl ++ ">>>>>>> REPLACE".

Definition edit_tag (path units : string) : string :=
  "<edit path=" ++ chr DQ ++ path ++ chr DQ ++ ">" ++ nl
  ++ units ++ nl ++ "</edit>".

(** A response with one create tag followed by one edit tag of two units. *)
Definition wire_response (pf cf pe s1 r1 s2 r2 : string) : string :=
  create_tag pf cf ++ nl
  ++ edit_tag pe (sr_unit s1 r1 ++ nl ++ sr_unit s2 r2) ++ nl.

(** Every character of [w] satisfies [p]. *)
Fixpoint all_chars (p : ascii -> bool) (w : string) : bool :=
  match w with
  | EmptyString => true
  | String a w' => p a && all_chars p w'
  end.

(** [x in w] for one character. *)
Fixpoint has_char (x : ascii) (w : string) : bool :=
  match w with
  | EmptyString => false
  | String a w' => Ascii.eqb x a || has_char x w'
  end.

(** The character before the position reached after reading [w]. *)
Fixpoint last_of (prev : option ascii) (w : string) : option ascii :=
  match w with
  | EmptyString => prev
  | String a w' => last_of (Some a) w'
  end.

(** [f] holds of the text left at every position inside [w], when [w] is
    followed by [s]. *)
Fixpoint all_suff (f : string -> bool) (w s : string) : bool :=
  match w with
  | EmptyString => true
  | String a w' => f (w ++ s) && all_suff f w' s
  end.

(** The text begins with two characters that the literals [x] and [y]
    match. *)
Definition starts2 (fl : Re.flags) (x y : ascii) (t : string) : bool :=
  match t with
  | String a t' =>
      Re.lit_matches fl x a
      && match t' with
         | String b _ => Re.lit_matches fl y b
         | EmptyString => false
         end
  | EmptyString => false
  end.

Definition head_in (p : ascii -> bool) (s : string) : bool :=
  match s with
  | String a _ => p a
  | EmptyString => false
  end.

(** A pattern every match of which reads the character [x]: a sufficient
    condition on the shape of the pattern. *)
Fixpoint needs (x : ascii) (r : Re.regex) : bool :=
  match r with
  | Re.Lit a => Ascii.eqb x a
  | Re.Seq r1 r2 => needs x r1 || needs x r2
  | Re.Alt r1 r2 => needs x r1 && needs x r2
  | Re.Group _ r' => needs x r'
  | _ => false
  end.

(** The characters allowed in the parts of a response of the wire format:
    no angle bracket that opens a tag and no backtick; a path holds no quote
    either. *)
Definition text_char (c : ascii) : bool :=
  negb (Ascii.eqb c "<") && negb (Ascii.eqb c "`").
Definition path_text_char (c : ascii) : bool :=
  text_char c && Re.none_of [DQ; SQ] c.

(** What is left after the white space at the head of the text does not
    begin with the two characters that open a closing tag. *)
Definition quiet_at (fl : Re.flags) (t : string) : bool :=
  negb (starts2 fl "<" "/" (lstrip t)).

(** The continuation of a match attempt: the end of the pattern. *)
Definition at_end (must_advance : bool) : Re.cont :=
  fun p' s' c' a' =>
    if must_advance && negb a' then None else Some (p', s', c', a').

(** [s'] is what is left of [s] at some position. *)
Definition is_suffix (s' s : string) : Prop := exists w, s = w ++ s'.

(** The rest of the pattern accepts at some later position of [s]. *)
Definition reaches (k : Re.cont) (s : string) (res : Re.res) : Prop :=
  exists p' s' c' a', k p' s' c' a' = Some res /\ is_suffix s' s.

(** A path of the wire format, and a unit the markers of which can be told
    from its texts: no line of the search text begins with [=], no line of
    the replacement begins with [>], and the search text is not blank. *)
Definition wire_path (p : string) : bool := all_chars path_text_char p.

Definition wire_unit (search replace : string) : bool :=
  all_chars text_char search && all_chars text_char replace
  && negb (contains search (nl ++ "="))
  && negb (contains replace (nl ++ ">"))
  && truthy (strip (DiffEditor.clean_code_block search)).


(** ** Further statements: the project scan *)

(** The file the dictionary holds under [fpath] is a Python file. *)
Definition python_file (files : ProjectContext.dict ProjectContext.FileInfo)
    (fpath : string) : bool :=
  match ProjectContext.dict_get fpath files with
  | Some info => String.eqb (ProjectContext.language info) "python"
  | None => false
  end.

(** A file dictionary with one Python file that imports a sibling by a
    relative name, a module that is nowhere and a module that exists. *)
Definition relative_import_files
  : ProjectContext.dict ProjectContext.FileInfo :=
  [("pkg/main.py",
    ProjectContext.mkFileInfo "pkg/main.py" "" 1 "python"
      [".models"; "nowhere"; "pkg.models"] [] [] []);
   ("pkg/models.py",
    ProjectContext.mkFileInfo "pkg/models.py" "" 1 "python" [] [] [] [])].

(** ** Further statements: chains of imports and the scan *)

(** The graph of a chain of imports: each name imports the next one, the
    last imports nothing. *)
Fixpoint chain_graph (names : list string)
  : ProjectContext.dict (list string) :=
  match names with
  | [] => []
  | x :: rest =>
      (x, match rest with [] => [] | y :: _ => [y] end) :: chain_graph rest
  end.

(** An entry of the dictionary of a scan: the record carries its key as its
    path, the key holds no backslash, and the size is neither zero nor above
    the limit. *)
Definition context_entry (kv : string * ProjectContext.FileInfo) : Prop :=
  ProjectContext.path (snd kv) = fst kv
  /\ has_char BSL (fst kv) = false
  /\ ProjectContext.size (snd kv) <> 0%N
  /\ (ProjectContext.size (snd kv) <= ProjectContext.MAX_FILE_SIZE)%N.
(** An output whose error line names a module that is on no disk but has a
    conventional top-level name. *)
Definition utils_output : string :=
  esc "Traceback (most recent call last):\n  File \qmain.py\q, line 1, in <module>\n    from utils.text import slug\nModuleNotFoundError: No module named 'utils.text'\n".


(* ================================================================== *)
(** * Properties *)
(* ================================================================== *)

(** ** The primitives agree with the interpreter on samples *)

Example esc_sample :
  esc "a\nb\q\\" = String "a" (String LF (String "b" (String DQ (chr BSL)))).
Proof. reflexivity. Qed.

Example finditer_empty_matches :
  map (fun m => (Re.group0 m, Re.group m 1))
      (Re.finditer Re.DOTALL DiffEditor.file_pattern (esc "a\n b"))
  = [("", Some ""); ("a", Some "a"); (nl, Some ""); ("", Some "");
     (" ", Some " "); ("", Some ""); ("b", Some "b"); ("", Some "")].
Proof. reflexivity. Qed.

Example exact_match_patch :
  DiffEditor.apply_search_replace (esc "a\nb\nc\n") (esc "b\n") (esc "B\n")
  = Some (esc "a\nB\nc\n").
Proof. reflexivity. Qed.

Example whitespace_patch :
  DiffEditor.apply_search_replace
    (esc "def f():   \n    pass\n") (esc "def f():\n    pass\n")
    (esc "def f():\n    return 1\n")
  = Some (esc "def f():\n    return 1\n").
Proof. reflexivity. Qed.

Example block_requirements_sample :
  Builder.block_requirements true
    (esc "<file path=\qrequirements.txt\q>\nutils\n</file>\n<EDIT  path='Requirements.TXT'>x</edit>ok")
  = esc "\nok".
Proof. vm_compute. reflexivity. Qed.

Example diagnose_traceback_sample :
  let dg :=
    Chat.diagnose_test_error proj (disk_with [(["proj"; "main.py"], "import requests")])
      (esc "Traceback (most recent call last):\n  File \qmain.py\q, line 1, in <module>\n    import requests\nModuleNotFoundError: No module named 'requests'\n") in
  (Chat.error_type dg, Chat.import_chain dg, Chat.affected_files dg,
   Chat.missing_module dg)
  = ("missing_module", ["main.py:1"], ["main.py"], "requests").
Proof. vm_compute. reflexivity. Qed.

(* ------------------------------------------------------------------ *)
(** ** Facts about texts and paths *)

Lemma eqb_false (a b : string) : a <> b -> String.eqb a b = false.
Proof. intro H. apply String.eqb_neq. exact H. Qed.

Lemma startswith_app (p s : string) : startswith (p ++ s) p = true.
Proof.
  induction p as [|a p IH]; simpl.
  - destruct s; reflexivity.
  - rewrite Ascii.eqb_refl. exact IH.
Qed.

Lemma find_unfold (s sub : string) :
  find s sub
  = if startswith s sub then Some 0
    else match s with
         | EmptyString => None
         | String _ s' => option_map S (find s' sub)
         end.
Proof. destruct s; reflexivity. Qed.

Lemma contains_here (p s : string) : contains (p ++ s) p = true.
Proof.
  unfold contains. rewrite find_unfold, startswith_app. reflexivity.
Qed.

Lemma contains_later (x s sub : string) :
  contains s sub = true -> contains (x ++ s) sub = true.
Proof.
  unfold contains. intro H.
  induction x as [|a x IH].
  - exact H.
  - change (String a x ++ s) with (String a (x ++ s)).
    rewrite find_unfold.
    destruct (startswith (String a (x ++ s)) sub); [reflexivity|].
    destruct (find (x ++ s) sub); [reflexivity | discriminate].
Qed.

Section Resolve.

Lemma resolve_onto_stack (p : Fs.path) (acc : list string) :
  Fs.resolve_onto acc p = rev (stack_after acc p).
Proof.
  revert acc. induction p as [|c p IH]; intro acc; simpl.
  - reflexivity.
  - destruct (String.eqb c ".."); apply IH.
Qed.

Lemma stack_after_app (p q : Fs.path) (acc : list string) :
  stack_after acc (p ++ q)%list = stack_after (stack_after acc p) q.
Proof.
  revert acc. induction p as [|c p IH]; intro acc; simpl.
  - reflexivity.
  - destruct (String.eqb c ".."); apply IH.
Qed.

Lemma stack_after_plain (q : Fs.path) (acc : list string) :
  mem ".." q = false -> stack_after acc q = (rev q ++ acc)%list.
Proof.
  revert acc. induction q as [|c q IH]; intros acc H; simpl.
  - reflexivity.
  - unfold mem in H. cbn [existsb] in H. apply orb_false_elim in H.
    destruct H as [Hc Hq].
    rewrite String.eqb_sym in Hc. rewrite Hc.
    rewrite (IH (c :: acc) Hq). rewrite <- app_assoc. reflexivity.
Qed.

(** Components without [..] appended to a path stay as they are when the
    path is resolved. *)
Lemma resolve_app (cwd rel : Fs.path) :
  mem ".." rel = false ->
  Fs.resolve (cwd ++ rel)%list = (Fs.resolve cwd ++ rel)%list.
Proof.
  intro H. unfold Fs.resolve.
  rewrite !resolve_onto_stack, stack_after_app, (stack_after_plain rel _ H).
  rewrite rev_app_distr, rev_involutive. reflexivity.
Qed.

Lemma path_eqb_eq (p q : Fs.path) : Fs.path_eqb p q = true -> p = q.
Proof.
  revert q. induction p as [|a p IH]; intros [|b q] H; simpl in H;
    try discriminate; [reflexivity|].
  apply andb_prop in H. destruct H as [Hab Hpq].
  apply String.eqb_eq in Hab. rewrite Hab, (IH q Hpq). reflexivity.
Qed.

Lemma path_eqb_refl (p : Fs.path) : Fs.path_eqb p p = true.
Proof.
  induction p as [|a p IH]; simpl; [reflexivity|].
  rewrite String.eqb_refl. exact IH.
Qed.

Lemma lookup_some (p : Fs.path) (l : list (Fs.path * string)) (text : string) :
  Fs.lookup p l = Some text -> In (p, text) l.
Proof.
  induction l as [|[q t] l IH]; simpl; [discriminate|].
  destruct (Fs.path_eqb p q) eqn:E.
  - intro H. inversion H; subst. apply path_eqb_eq in E. subst q.
    left. reflexivity.
  - intro H. right. exact (IH H).
Qed.

Lemma in_lookup (p : Fs.path) (l : list (Fs.path * string)) (text : string) :
  In (p, text) l -> Fs.lookup p l <> None.
Proof.
  induction l as [|[q t] l IH]; simpl; [contradiction|].
  intros [H|H].
  - inversion H; subst. rewrite path_eqb_refl. discriminate.
  - destruct (Fs.path_eqb p q); [discriminate | exact (IH H)].
Qed.

Lemma is_relative_to_app (base rel : Fs.path) :
  Fs.is_relative_to (base ++ rel)%list base = true.
Proof.
  induction base as [|b base IH]; simpl.
  - destruct rel; reflexivity.
  - rewrite String.eqb_refl. exact IH.
Qed.

Lemma is_relative_to_split (child base : Fs.path) :
  Fs.is_relative_to child base = true -> exists rel, child = (base ++ rel)%list.
Proof.
  revert child. induction base as [|b base IH]; intros child H.
  - exists child. reflexivity.
  - destruct child as [|c child]; simpl in H; [discriminate|].
    apply andb_prop in H. destruct H as [Hbc Hrest].
    apply String.eqb_eq in Hbc. subst c.
    destruct (IH child Hrest) as [rel Hrel]. exists rel. rewrite Hrel.
    reflexivity.
Qed.

End Resolve.

(** *** Trailing white space and substrings *)

Lemma split_cons (s : string) (sep : ascii) : exists h t, split s sep = h :: t.
Proof.
  induction s as [|c s IH]; simpl.
  - eauto.
  - destruct (Ascii.eqb c sep); [eauto|].
    destruct IH as (h & t & ->). eauto.
Qed.

Lemma join_cons (sep x : string) (y : string) (l : list string) :
  join sep (x :: y :: l) = x ++ sep ++ join sep (y :: l).
Proof. reflexivity. Qed.

Lemma join_cons_char (sep : string) (c : ascii) (x : string) (l : list string) :
  join sep (String c x :: l) = String c (join sep (x :: l)).
Proof. destruct l; reflexivity. Qed.

Lemma rstrip_cons (c : ascii) (h : string) :
  rstrip (String c h)
  = match rstrip h with
    | EmptyString => if isspace c then EmptyString else chr c
    | r => String c r
    end.
Proof. reflexivity. Qed.

Lemma tail_blank_head (s h : string) (t : list string) :
  split s LF = h :: t -> tail_blank true s = negb (truthy (rstrip h)).
Proof.
  revert h t. induction s as [|d s IH]; intros h t H.
  - simpl in H. inversion H. reflexivity.
  - simpl in H. simpl. destruct (Ascii.eqb d LF).
    + inversion H. reflexivity.
    + destruct (split_cons s LF) as (h' & t' & E). rewrite E in H.
      inversion H; subst; clear H. rewrite (IH _ _ E). rewrite rstrip_cons.
      destruct (rstrip h'); simpl.
      * destruct (isspace d); reflexivity.
      * apply andb_false_r.
Qed.

Lemma norm_nrm (s : string) :
  DiffEditor._normalize_trailing_whitespace s = nrm true s.
Proof.
  unfold DiffEditor._normalize_trailing_whitespace.
  induction s as [|c s IH].
  - reflexivity.
  - destruct (split_cons s LF) as (h & t & E).
    cbn [split nrm]. rewrite E in *.
    destruct (Ascii.eqb c LF) eqn:Ec.
    + cbn [map]. change (rstrip "") with "".
      rewrite <- IH. cbn [map]. apply Ascii.eqb_eq in Ec. subst c.
      reflexivity.
    + cbn [map] in *. rewrite (tail_blank_head s h t E).
      rewrite rstrip_cons. rewrite <- IH.
      destruct (rstrip h) eqn:Er; cbn [truthy negb andb].
      * rewrite andb_true_r. destruct (isspace c).
        -- reflexivity.
        -- unfold chr. rewrite join_cons_char. reflexivity.
      * rewrite andb_false_r. rewrite join_cons_char. reflexivity.
Qed.

Lemma tail_blank_app (b : bool) (x y : string) :
  tail_blank b (x ++ y) = tail_blank (tail_blank b y) x.
Proof.
  induction x as [|c x IH]; simpl.
  - reflexivity.
  - rewrite IH. reflexivity.
Qed.

Lemma nrm_app (b : bool) (x y : string) :
  nrm b (x ++ y) = nrm (tail_blank b y) x ++ nrm b y.
Proof.
  induction x as [|c x IH]; simpl.
  - reflexivity.
  - rewrite IH, tail_blank_app.
    destruct (Ascii.eqb c LF); [reflexivity|].
    destruct (isspace c && _); reflexivity.
Qed.

Lemma tail_blank_mono (s : string) :
  tail_blank false s = true -> tail_blank true s = true.
Proof.
  induction s as [|c s IH]; simpl; [discriminate|].
  destruct (Ascii.eqb c LF); [reflexivity|].
  destruct (isspace c); simpl; [exact IH | discriminate].
Qed.

Lemma nrm_all_blank (s : string) :
  tail_blank true s = true -> tail_blank false s = false -> nrm true s = "".
Proof.
  induction s as [|c s IH]; simpl; [reflexivity|].
  destruct (Ascii.eqb c LF); [discriminate|].
  destruct (isspace c); simpl; [|discriminate].
  intros H1 H2. rewrite H1. apply IH; assumption.
Qed.

Lemma nrm_prefix (s : string) : exists w, nrm false s = nrm true s ++ w.
Proof.
  induction s as [|c s [w IH]]; simpl.
  - exists "". reflexivity.
  - destruct (Ascii.eqb c LF).
    + exists w. rewrite IH. reflexivity.
    + destruct (isspace c); simpl.
      * destruct (tail_blank false s) eqn:Ef.
        -- rewrite (tail_blank_mono s Ef). exists w. exact IH.
        -- destruct (tail_blank true s) eqn:Et.
           ++ rewrite (nrm_all_blank s Et Ef). eexists. reflexivity.
           ++ exists w. rewrite IH. reflexivity.
      * exists w. rewrite IH. reflexivity.
Qed.

Lemma startswith_split (s p : string) :
  startswith s p = true -> s = p ++ drop (String.length p) s.
Proof.
  revert s. induction p as [|a p IH]; intros s H.
  - destruct s; reflexivity.
  - destruct s as [|b s]; simpl in H; [discriminate|].
    apply andb_prop in H. destruct H as [Hab Hp].
    apply Ascii.eqb_eq in Hab. subst b. simpl.
    rewrite <- (IH s Hp). reflexivity.
Qed.

Lemma find_split (s sub : string) (i : nat) :
  find s sub = Some i -> exists a b, s = a ++ sub ++ b.
Proof.
  revert i. induction s as [|c s IH]; intro i; rewrite find_unfold.
  - destruct (startswith "" sub) eqn:E; [|discriminate].
    intros _. exists "", (drop (String.length sub) "").
    apply (startswith_split "" sub E).
  - destruct (startswith (String c s) sub) eqn:E.
    + intros _. exists "", (drop (String.length sub) (String c s)).
      apply (startswith_split _ sub E).
    + destruct (find s sub) as [j|] eqn:F; [|discriminate].
      intros _. destruct (IH j eq_refl) as (a & b & Hab).
      exists (String c a), b. rewrite Hab. reflexivity.
Qed.

Lemma contains_split (s sub : string) :
  contains s sub = true -> exists a b, s = a ++ sub ++ b.
Proof.
  unfold contains. destruct (find s sub) as [i|] eqn:F; [|discriminate].
  intros _. exact (find_split s sub i F).
Qed.

Lemma append_assoc (a b c : string) : (a ++ b) ++ c = a ++ (b ++ c).
Proof. induction a; simpl; [reflexivity | rewrite IHa; reflexivity]. Qed.

Lemma norm_contains (content search : string) :
  contains content search = true ->
  contains (DiffEditor._normalize_trailing_whitespace content)
           (DiffEditor._normalize_trailing_whitespace search) = true.
Proof.
  intro H. destruct (contains_split _ _ H) as (a & b & ->).
  rewrite !norm_nrm, !nrm_app.
  apply contains_later.
  destruct (tail_blank true b).
  - apply contains_here.
  - destruct (nrm_prefix search) as [w ->].
    rewrite append_assoc. apply contains_here.
Qed.

Lemma count_from_contains (s sub : string) (skip : nat) :
  0 < count_from s sub skip -> contains s sub = true.
Proof.
  revert skip. induction s as [|c s IH]; intros skip H.
  - destruct skip; cbn [count_from] in H; [|lia].
    unfold contains. rewrite find_unfold.
    destruct (startswith "" sub); [reflexivity | lia].
  - destruct skip as [|k].
    + cbn [count_from] in H. unfold contains. rewrite find_unfold.
      destruct (startswith (String c s) sub) eqn:E; [reflexivity|].
      apply IH in H. unfold contains in H.
      destruct (find s sub); [reflexivity | discriminate].
    + cbn [count_from] in H. apply IH in H.
      apply (contains_later (chr c) s sub H).
Qed.

(* ------------------------------------------------------------------ *)
(** ** The patcher and multiple occurrences *)

(** C1: the patcher does pick an occurrence.  When the search text occurs
    in the content, and so when it occurs more than once, the exact strategy
    may decline but the search normalized for trailing white space occurs in
    the normalized content, and the second strategy replaces the lines of
    its first occurrence: the result is a new content, never the answer
    that nothing was found. *)
Theorem C1_multiple_occurrences_are_patched :
  forall content search replace : string,
    truthy search = true ->
    1 < count content search ->
    exists patched,
      DiffEditor.apply_search_replace content search replace = Some patched.
Proof.
  intros content search replace Hs Hcount.
  assert (Hc : contains content search = true).
  { apply (count_from_contains content search 0). unfold count in Hcount. lia. }
  unfold DiffEditor.apply_search_replace.
  destruct (negb (truthy content) || negb (truthy search)) eqn:E.
  - exfalso. rewrite Hs in E. cbn [negb] in E. rewrite orb_false_r in E.
    destruct content; [|discriminate].
    unfold contains in Hc. rewrite find_unfold in Hc.
    destruct search; discriminate.
  - destruct (contains content search && _); [eauto|].
    unfold DiffEditor.strategy_trailing.
    pose proof (norm_contains content search Hc) as Hn.
    unfold contains in Hn.
    destruct (find _ _); [eauto | discriminate].
Qed.

(** The input of the specification: [x\n] occurs twice in [x\nx\n]. *)
Lemma C1_multiple_occurrences_witness :
  truthy (esc "x\n") = true
  /\ 1 < count (esc "x\nx\n") (esc "x\n")
  /\ exists patched,
       DiffEditor.apply_search_replace (esc "x\nx\n") (esc "x\n") (esc "y\n")
       = Some patched.
Proof.
  assert (H1 : truthy (esc "x\n") = true) by reflexivity.
  assert (H2 : 1 < count (esc "x\nx\n") (esc "x\n")) by (vm_compute; lia).
  refine (conj H1 (conj H2 _)).
  exact (C1_multiple_occurrences_are_patched (esc "x\nx\n") (esc "x\n")
           (esc "y\n") H1 H2).
Defined.

Example twice_patch :
  DiffEditor.apply_search_replace (esc "x\nx\n") (esc "x\n") (esc "y\n")
  = Some (esc "y\n\n").
Proof. reflexivity. Qed.

(* ------------------------------------------------------------------ *)
(** ** Path containment *)

(** *** Directories and writes *)

Lemma stack_after_no_dotdot (p : Fs.path) (acc : list string) :
  mem ".." acc = false -> mem ".." (stack_after acc p) = false.
Proof.
  revert acc. induction p as [|c p IH]; intros acc H; [exact H|].
  cbn [stack_after]. destruct (String.eqb c "..") eqn:E.
  - apply IH. destruct acc as [|a acc]; [reflexivity|].
    unfold mem in *. cbn [existsb tl] in *.
    now apply orb_false_elim in H.
  - apply IH. unfold mem in *. cbn [existsb].
    rewrite String.eqb_sym, E. exact H.
Qed.

Lemma mem_rev (x : string) (l : list string) : mem x (rev l) = mem x l.
Proof.
  unfold mem. induction l as [|a l IH]; [reflexivity|].
  cbn [rev existsb]. rewrite existsb_app, IH. cbn [existsb].
  rewrite orb_false_r. apply orb_comm.
Qed.

(** A resolved path holds no [..], and resolving it again changes
    nothing. *)
Lemma resolve_no_dotdot (p : Fs.path) : mem ".." (Fs.resolve p) = false.
Proof.
  unfold Fs.resolve. rewrite resolve_onto_stack, mem_rev.
  now apply stack_after_no_dotdot.
Qed.

Lemma resolve_plain (p : Fs.path) : mem ".." p = false -> Fs.resolve p = p.
Proof. intros H. exact (resolve_app [] p H). Qed.

Lemma resolve_idem (p : Fs.path) : Fs.resolve (Fs.resolve p) = Fs.resolve p.
Proof. apply resolve_plain, resolve_no_dotdot. Qed.

Lemma mem_app_false (x : string) (a b : list string) :
  mem x (a ++ b) = false -> mem x a = false /\ mem x b = false.
Proof.
  unfold mem. rewrite existsb_app. apply orb_false_elim.
Qed.

Lemma path_eqb_app_false (p rest : Fs.path) :
  rest <> [] -> Fs.path_eqb p (p ++ rest)%list = false.
Proof.
  intros Hr. destruct (Fs.path_eqb p (p ++ rest)%list) eqn:E; [|reflexivity].
  apply path_eqb_eq in E. rewrite <- (app_nil_r p) in E at 1.
  apply app_inv_head in E. congruence.
Qed.

(** What lies above a regular file is a directory. *)
Lemma above_file_is_dir (d : Fs.disk) (p rest : Fs.path) (text : string) :
  Fs.lookup (p ++ rest)%list (Fs.files d) = Some text ->
  mem ".." (p ++ rest)%list = false -> rest <> [] ->
  Fs.is_dir d p = true.
Proof.
  intros Hl Hm Hr. unfold Fs.is_dir.
  destruct (mem_app_false _ _ _ Hm) as [Hp _].
  rewrite (resolve_plain p Hp). apply orb_true_iff. left.
  apply existsb_exists. exists ((p ++ rest)%list, text).
  split; [exact (lookup_some _ _ _ Hl)|].
  unfold Fs.below. cbn [fst].
  now rewrite is_relative_to_app, path_eqb_app_false.
Qed.

Lemma mkdir_from_above_file (d : Fs.disk) (text : string) (c : string) :
  forall (rest made : Fs.path),
    Fs.lookup (made ++ rest ++ [c])%list (Fs.files d) = Some text ->
    mem ".." (made ++ rest ++ [c])%list = false ->
    Fs.mkdir_from d made rest = (d, true).
Proof.
  induction rest as [|x rest IH]; intros made Hl Hm; [reflexivity|].
  cbn [Fs.mkdir_from].
  assert (E : (made ++ (x :: rest) ++ [c])%list
              = ((made ++ [x]) ++ rest ++ [c])%list)
    by (rewrite <- !app_assoc; reflexivity).
  rewrite E in Hl, Hm.
  rewrite (above_file_is_dir d (made ++ [x])%list (rest ++ [c])%list text
             Hl Hm)
    by (now destruct rest).
  exact (IH (made ++ [x])%list Hl Hm).
Qed.

(** Where a regular file is, and the disk does not refuse the write, the
    two calls go through and replace the text of the file. *)
Lemma mkdir_write_over_file (d : Fs.disk) (full_path : Fs.path)
    (old content : string) :
  Fs.read_text d full_path = Some old ->
  Fs.write_fails d (Fs.resolve full_path) = false ->
  Fs.mkdir_write d full_path content
  = (Fs.Disk ((Fs.resolve full_path, content) :: Fs.files d)
             (Fs.empty_dirs d) (Fs.write_fails d), true).
Proof.
  intros Hread Hw. unfold Fs.mkdir_write, Fs.mkdir_parents, Fs.parent.
  unfold Fs.read_text in Hread.
  assert (Hmk : Fs.mkdir_from d [] (removelast (Fs.resolve full_path))
                = (d, true)).
  { destruct (Fs.resolve full_path) as [|a q] eqn:Eq; [reflexivity|].
    assert (Hne : a :: q <> []) by discriminate.
    pose proof (app_removelast_last "" Hne) as Hsplit.
    apply (mkdir_from_above_file d old (last (a :: q) "")).
    - cbn [app]. rewrite <- Hsplit. exact Hread.
    - cbn [app]. rewrite <- Hsplit, <- Eq. apply resolve_no_dotdot. }
  rewrite Hmk. unfold Fs.write_text, Fs.is_file, Fs.read_text.
  rewrite Hw, resolve_idem, Hread. reflexivity.
Qed.

(** C2, for search/replace edits: [apply_edits] joins the path of the edit
    to the base directory and writes there; the containment check of
    [validate_filepath], which full-file creates go through, plays no part.
    Whenever the file the path points to holds a text that the search
    patches into a different one and the place is writable, the patched
    text is on disk afterwards, the call returns and the edit is reported
    as a success, whether or not the path stays under the root. *)
Theorem C2_apply_edits_writes_outside_root :
  forall (base_dir : Fs.path) (d : Fs.disk) (path search replace : string)
         (old new : string) (answer : string -> string),
    truthy path = true ->
    truthy search = true ->
    Fs.read_text d (Fs.joinpath base_dir path) = Some old ->
    DiffEditor.apply_search_replace old search replace = Some new ->
    String.eqb (strip old) (strip new) = false ->
    Fs.write_fails d (Fs.resolve (Fs.joinpath base_dir path)) = false ->
    let st :=
      DiffEditor.apply_edits [DiffEditor.search_replace path search replace]
        base_dir d [] true answer in
    Fs.read_text (DiffEditor.a_disk st) (Fs.joinpath base_dir path) = Some new
    /\ DiffEditor.a_results st = [(path, true)]
    /\ DiffEditor.a_raised st = None.
Proof.
  intros base_dir d path search replace old new answer
         Hpath Hsearch Hread Hpatch Hdiff Hwrite.
  unfold DiffEditor.apply_edits. cbn [fold_left].
  unfold DiffEditor.apply_edit_unless_raised. cbn [DiffEditor.a_raised].
  unfold DiffEditor.apply_edit.
  cbn [DiffEditor.search_replace DiffEditor.e_path DiffEditor.e_type
       DiffEditor.e_search DiffEditor.e_replace DiffEditor.a_disk
       DiffEditor.a_created].
  rewrite Hpath. cbn [negb].
  unfold DiffEditor._read_file_content, Fs.exists_, Fs.is_file.
  rewrite Hread. cbn [orb].
  change (String.eqb "search_replace" "search_replace") with true.
  cbv iota. rewrite Hsearch. cbn [negb]. rewrite Hpatch, Hdiff.
  rewrite andb_false_r.
  unfold DiffEditor.commit, DiffEditor._write_file.
  cbn [DiffEditor.a_disk].
  rewrite (mkdir_write_over_file d _ old new Hread Hwrite).
  cbn [DiffEditor.a_disk DiffEditor.a_results DiffEditor.a_raised app].
  split; [|split; reflexivity].
  unfold Fs.read_text. cbn [Fs.files Fs.lookup].
  rewrite path_eqb_refl. reflexivity.
Qed.

(** The path of the specification: refused by the check for the root
    [/proj], patched by [apply_edits]. *)
Lemma C2_apply_edits_witness :
  truthy "../../etc/passwd" = true
  /\ truthy "root:x:0:0" = true
  /\ Fs.read_text passwd_disk (Fs.joinpath proj "../../etc/passwd")
     = Some (esc "root:x:0:0\n")
  /\ DiffEditor.apply_search_replace (esc "root:x:0:0\n") "root:x:0:0"
       "root::0:0" = Some (esc "root::0:0\n")
  /\ String.eqb (strip (esc "root:x:0:0\n")) (strip (esc "root::0:0\n"))
     = false
  /\ Fs.write_fails passwd_disk (Fs.resolve (Fs.joinpath proj "../../etc/passwd"))
     = false
  /\ Builder.validate_filepath "../../etc/passwd" proj = false
  /\ (Fs.read_text
        (DiffEditor.a_disk
           (DiffEditor.apply_edits [passwd_edit] proj passwd_disk [] true
              (fun _ => "")))
        (Fs.joinpath proj "../../etc/passwd") = Some (esc "root::0:0\n")
      /\ DiffEditor.a_results
           (DiffEditor.apply_edits [passwd_edit] proj passwd_disk [] true
              (fun _ => ""))
         = [("../../etc/passwd", true)]
      /\ DiffEditor.a_raised
           (DiffEditor.apply_edits [passwd_edit] proj passwd_disk [] true
              (fun _ => ""))
         = None).
Proof.
  assert (H1 : truthy "../../etc/passwd" = true) by reflexivity.
  assert (H2 : truthy "root:x:0:0" = true) by reflexivity.
  assert (H3 : Fs.read_text passwd_disk (Fs.joinpath proj "../../etc/passwd")
               = Some (esc "root:x:0:0\n")) by reflexivity.
  assert (H4 : DiffEditor.apply_search_replace (esc "root:x:0:0\n")
                 "root:x:0:0" "root::0:0" = Some (esc "root::0:0\n"))
    by reflexivity.
  assert (H5 : String.eqb (strip (esc "root:x:0:0\n"))
                 (strip (esc "root::0:0\n")) = false) by reflexivity.
  assert (H6 : Fs.write_fails passwd_disk
                 (Fs.resolve (Fs.joinpath proj "../../etc/passwd")) = false)
    by reflexivity.
  assert (H7 : Builder.validate_filepath "../../etc/passwd" proj = false)
    by reflexivity.
  refine (conj H1 (conj H2 (conj H3 (conj H4 (conj H5 (conj H6 (conj H7 _))))))).
  exact (C2_apply_edits_writes_outside_root proj passwd_disk
           "../../etc/passwd" "root:x:0:0" "root::0:0" _ _ (fun _ => "")
           H1 H2 H3 H4 H5 H6).
Defined.

(** Full-file creates go through the check: a path that
    [validate_filepath] refuses leaves the disk as it is. *)
Lemma write_project_file_checked (d : Fs.disk) (base_dir : Fs.path)
    (filepath content : string) :
  Builder.validate_filepath (Builder.normalize_path filepath) base_dir = false ->
  Builder.write_project_file d base_dir filepath content
  = DiffEditor.Ok (d, false).
Proof.
  intro H. unfold Builder.write_project_file.
  destruct (negb (truthy (Builder.normalize_path filepath))); [reflexivity|].
  rewrite H. reflexivity.
Qed.

(* ------------------------------------------------------------------ *)
(** ** The safety check of the fix loop *)

(** C5, at a response that creates [./requirements.txt]: the diagnosis is a
    local-import issue, the safety check looks for the literal path
    [requirements.txt] only, the response goes through unchanged, and the
    dependency manifest is written. *)
Theorem C5_manifest_written_despite_local_import :
  let response := esc "<file path=\q./requirements.txt\q>\nutils\n</file>" in
  Builder.block_requirements true response = response
  /\ match Builder.apply_fix_response quiet true (Builder.Config false true)
             true response proj (disk_with []) [] with
     | DiffEditor.Ok o =>
         Fs.read_text (Builder.o_disk o) ["proj"; "requirements.txt"]
     | DiffEditor.Raise _ => None
     end = Some (esc "utils\n").
Proof. vm_compute. split; reflexivity. Qed.

(* ------------------------------------------------------------------ *)
(** ** Sanitization *)

(** C6: sanitization is not total.  For a path that is not a markdown
    path and a content whose first line that is not blank opens a fence,
    the loop that follows asks the list of lines for its [strip] method and
    the call raises [AttributeError]. *)
Theorem C6_sanitization_raises_on_fence :
  forall (content filepath line : string) (rest : list string),
    truthy content = true ->
    mem (lower (Fs.suffix filepath)) Builder._MARKDOWN_EXTENSIONS = false ->
    DiffEditor.drop_blank_lines (split content LF) = line :: rest ->
    DiffEditor.is_fence line = true ->
    Builder.clean_file_content content filepath
    = DiffEditor.Raise DiffEditor.AttributeError.
Proof.
  intros content filepath line rest Hc Hext Hlines Hfence.
  unfold Builder.clean_file_content.
  rewrite Hc, Hext, Hlines, Hfence. reflexivity.
Qed.

Lemma C6_sanitization_witness :
  truthy (esc "```python\nprint(1)\n```") = true
  /\ mem (lower (Fs.suffix "app.py")) Builder._MARKDOWN_EXTENSIONS = false
  /\ DiffEditor.drop_blank_lines (split (esc "```python\nprint(1)\n```") LF)
     = "```python" :: ["print(1)"; "```"]
  /\ DiffEditor.is_fence "```python" = true
  /\ Builder.clean_file_content (esc "```python\nprint(1)\n```") "app.py"
     = DiffEditor.Raise DiffEditor.AttributeError.
Proof.
  assert (H1 : truthy (esc "```python\nprint(1)\n```") = true) by reflexivity.
  assert (H2 : mem (lower (Fs.suffix "app.py")) Builder._MARKDOWN_EXTENSIONS
               = false) by reflexivity.
  assert (H3 : DiffEditor.drop_blank_lines
                 (split (esc "```python\nprint(1)\n```") LF)
               = "```python" :: ["print(1)"; "```"]) by reflexivity.
  assert (H4 : DiffEditor.is_fence "```python" = true) by reflexivity.
  refine (conj H1 (conj H2 (conj H3 (conj H4 _)))).
  exact (C6_sanitization_raises_on_fence _ "app.py" _ _ H1 H2 H3 H4).
Defined.

(** [clean_code_block] is not idempotent: a blank line under the fence
    survives the first pass and goes with the second. *)
Lemma clean_code_block_not_idempotent :
  DiffEditor.clean_code_block (esc "```\n\nx") = esc "\nx"
  /\ DiffEditor.clean_code_block
       (DiffEditor.clean_code_block (esc "```\n\nx")) = "x".
Proof. split; reflexivity. Qed.

(* ------------------------------------------------------------------ *)
(** ** Diagnosis of shared file state *)

(** C7: the detector of shared file state is out of reach for an output
    none of whose lines starts with one of the six exception prefixes.  The
    function returns the [unknown] diagnosis, without guidance, before it
    looks for the signatures of a list mismatch; this is the case of the
    output of a failed list comparison. *)
Theorem C7_list_mismatch_is_unknown :
  forall (cwd : Fs.path) (d : Fs.disk) (error_output : string),
    error_line_of error_output = "" ->
    Chat.diagnose_test_error cwd d error_output = Chat.unknown.
Proof.
  intros cwd d error_output H. unfold Chat.diagnose_test_error.
  unfold error_line_of in H. rewrite H. reflexivity.
Qed.

Lemma C7_list_mismatch_witness :
  error_line_of lists_differ_output = ""
  /\ contains lists_differ_output "First list contains 2 additional elements"
     = true
  /\ contains lists_differ_output "First extra element" = true
  /\ Chat.diagnose_test_error proj (disk_with []) lists_differ_output
     = Chat.unknown.
Proof.
  assert (H1 : error_line_of lists_differ_output = "") by reflexivity.
  assert (H2 : contains lists_differ_output
                 "First list contains 2 additional elements" = true)
    by reflexivity.
  assert (H3 : contains lists_differ_output "First extra element" = true)
    by reflexivity.
  refine (conj H1 (conj H2 (conj H3 _))).
  exact (C7_list_mismatch_is_unknown proj (disk_with []) lists_differ_output H1).
Defined.

(* ------------------------------------------------------------------ *)
(** ** Circular imports *)

(** *** Sorted keys *)


Section SortedKeys.

Import ProjectContext.




End SortedKeys.

(** *** What the detector files, on every graph *)

Lemma mem_In (x : string) (l : list string) : mem x l = true <-> In x l.
Proof.
  unfold mem. rewrite existsb_exists. split.
  - intros (y & Hy & E). apply String.eqb_eq in E. now subst.
  - intros H. exists x. split; [exact H|apply String.eqb_refl].
Qed.

Lemma NoDup_snoc {A : Type} (l : list A) (x : A) :
  NoDup l -> ~ In x l -> NoDup (l ++ [x]).
Proof.
  intros Hl Hx. apply NoDup_app.
  - exact Hl.
  - constructor; [intros []|constructor].
  - intros y Hy [->|[]]. exact (Hx Hy).
Qed.


Section Cycles.

Import ProjectContext.

Variable graph : dict (list string).




Lemma chain_removelast (l : list string) :
  chain graph l -> chain graph (removelast l).
Proof.
  induction l as [|a l IH]; intros H; [exact I|].
  destruct l as [|b l]; [exact I|].
  destruct H as [Hab H]. specialize (IH H).
  destruct l as [|c l]; [exact I|]. split; [exact Hab|exact IH].
Qed.



Lemma removelast_snoc {A : Type} (l : list A) (x : A) :
  removelast (l ++ [x]) = l.
Proof. now rewrite removelast_app, app_nil_r by discriminate. Qed.




Lemma graph_get_edge (node dep : string) :
  In dep (graph_get graph node) -> edge graph node dep.
Proof. trivial. Qed.




End Cycles.

Lemma Forall_snoc {A : Type} (P : A -> Prop) (l : list A) (x : A) :
  Forall P l -> P x -> Forall P (l ++ [x]).
Proof.
  intros Hl Hx. apply Forall_app. split; [exact Hl | constructor; [exact Hx | constructor]].
Qed.

(** *** The depth the search needs *)

Section CycleSearch.

Import ProjectContext.

Variable graph : dict (list string).












End CycleSearch.

(** *** The cycle of three nodes *)

Section ThreeCycle.

Import ProjectContext.

Variables a b c : string.
Hypothesis Hab : a <> b.
Hypothesis Hbc : b <> c.
Hypothesis Hac : a <> c.


End ThreeCycle.



Example three_cycle_entered_elsewhere :
  ProjectContext.detect_circular_imports 1000
    [("B", ["C"]); ("C", ["A"]); ("A", ["B"])]
  = ProjectContext.Returns
      [ProjectContext.mkIssue "circular_import" "A"
         "Circular import: B → C → A → B" "error" None None].
Proof. reflexivity. Qed.

(** Two ways around the same two nodes are one cycle to the detector, and
    a cycle reached only through visited nodes is not looked for again. *)
Example two_cycle_once :
  ProjectContext.detect_circular_imports 1000 [("A", ["B"]); ("B", ["A"])]
  = ProjectContext.Returns [cycle_issue ["A"; "B"]].
Proof. reflexivity. Qed.

(** A chain of imports longer than the interpreter allows: the detector
    raises. *)
Example chain_beyond_limit :
  ProjectContext.detect_circular_imports 2
    [("A", ["B"]); ("B", ["C"]); ("C", [])]
  = ProjectContext.RecursionError.
Proof. reflexivity. Qed.

(* ------------------------------------------------------------------ *)
(** ** The issues of a scan *)

Section ScanIssues.

Import ProjectContext.

(** A property of a loop state that every round preserves holds at the end
    of the loop. *)
Lemma fold_left_preserves {S A : Type} (P : S -> Prop) (f : S -> A -> S) :
  (forall s x, P s -> P (f s x)) ->
  forall l s, P s -> P (fold_left f l s).
Proof.
  intros Hf l. induction l as [|x l IH]; intros s Hs; simpl.
  - exact Hs.
  - apply IH, Hf, Hs.
Qed.

Variable files : dict FileInfo.

(** A round of the first loop adds an issue only for an import that is
    neither skipped as external nor classified as foreign, and that
    resolves to no file. *)
Lemma check_import_issues (P : Issue -> Prop) (fpath language : string)
    (imp : string) :
  (skipped_as_external imp language = false ->
   is_local_import imp language files = true ->
   resolve_import imp fpath files = None ->
   P (mkIssue "missing_import" fpath
        ("`" ++ fpath ++ "` imports `" ++ imp
         ++ "` but no matching file found")
        "error" (Some imp) None)) ->
  forall st,
    Forall P (v_issues st) ->
    Forall P (v_issues (check_import files fpath language st imp)).
Proof.
  intros HP st Hst. unfold check_import.
  destruct (skipped_as_external imp language) eqn:Hext; [exact Hst|].
  destruct (is_local_import imp language files) eqn:Hloc; [|exact Hst].
  cbn [negb].
  destruct (String.eqb language "python"
            && mem (_get_python_base_module imp files) (v_checked st));
    [exact Hst|].
  destruct (resolve_import imp fpath files) eqn:Hres; [exact Hst|].
  destruct (existsb (pair_eqb (fpath, imp)) (v_seen st)); [exact Hst|].
  cbn [v_issues]. apply Forall_snoc; [exact Hst | apply HP; reflexivity].
Qed.

Lemma check_imports_issues (P : Issue -> Prop) (fpath language : string)
    (imps : list string) :
  (forall imp,
      In imp imps ->
      skipped_as_external imp language = false ->
      is_local_import imp language files = true ->
      resolve_import imp fpath files = None ->
      P (mkIssue "missing_import" fpath
           ("`" ++ fpath ++ "` imports `" ++ imp
            ++ "` but no matching file found")
           "error" (Some imp) None)) ->
  forall st,
    Forall P (v_issues st) ->
    Forall P (v_issues (fold_left (check_import files fpath language) imps st)).
Proof.
  induction imps as [|imp imps IH]; intros HP st Hst; simpl.
  - exact Hst.
  - apply IH.
    + intros i Hi. apply HP. right. exact Hi.
    + apply check_import_issues; [|exact Hst].
      apply HP. left. reflexivity.
Qed.

Lemma missing_fold (P : Issue -> Prop) (l : dict FileInfo) :
  (forall fpath info imp,
      In (fpath, info) l ->
      In imp (imports info) ->
      skipped_as_external imp (language info) = false ->
      is_local_import imp (language info) files = true ->
      resolve_import imp fpath files = None ->
      P (mkIssue "missing_import" fpath
           ("`" ++ fpath ++ "` imports `" ++ imp
            ++ "` but no matching file found")
           "error" (Some imp) None)) ->
  forall st,
    Forall P (v_issues st) ->
    Forall P
      (v_issues
         (fold_left
            (fun (st : vstate) (kv : string * FileInfo) =>
               let '(fpath, info) := kv in
               fold_left (check_import files fpath (language info))
                         (imports info)
                         (mkVState (v_issues st) (v_seen st) []))
            l st)).
Proof.
  induction l as [|[fpath info] l IH]; intros HP st Hst; simpl.
  - exact Hst.
  - apply IH.
    + intros f i imp Hin. apply (HP f i imp). right. exact Hin.
    + apply check_imports_issues; [|exact Hst].
      intros imp Himp. apply (HP fpath info). left. reflexivity. exact Himp.
Qed.

(** Every issue of the first check is a [missing_import] issue, raised for
    a file of the project and one of its imports that is classified as
    local and resolves to no file. *)
Lemma missing_imports_all (P : Issue -> Prop) :
  (forall fpath info imp,
      In (fpath, info) files ->
      In imp (imports info) ->
      skipped_as_external imp (language info) = false ->
      is_local_import imp (language info) files = true ->
      resolve_import imp fpath files = None ->
      P (mkIssue "missing_import" fpath
           ("`" ++ fpath ++ "` imports `" ++ imp
            ++ "` but no matching file found")
           "error" (Some imp) None)) ->
  Forall P (missing_imports files).
Proof.
  intro HP. unfold missing_imports.
  apply missing_fold; [exact HP | constructor].
Qed.

Lemma orphan_files_all (graph : dict (list string)) :
  Forall (fun i => i_type i = "orphan_file") (orphan_files files graph).
Proof.
  unfold orphan_files. apply Forall_forall. intros i Hi.
  apply in_flat_map in Hi. destruct Hi as [kv [_ Hi]].
  destruct (mem (fst kv) (flat_map snd graph)); [contradiction|].
  destruct (negb (_is_orphan_candidate (fst kv))); [contradiction|].
  destruct Hi as [Hi|[]]. subst i. reflexivity.
Qed.

Lemma check_export_issues (fpath : string) st exp :
  Forall (fun i => i_type i = "duplicate_definition") (fst st) ->
  Forall (fun i => i_type i = "duplicate_definition")
         (fst (check_export fpath st exp)).
Proof.
  intro Hst. unfold check_export. destruct st as [issues all_exports].
  destruct (dict_get (List.last (words exp) "") all_exports) as [other|];
    [|exact Hst].
  destruct (negb (String.eqb other fpath)); [|exact Hst].
  destruct (contains (lower fpath) "test" || contains (lower other) "test"
            || startswith (List.last (words exp) "") "_"); [exact Hst|].
  destruct (mem (List.last (words exp) "") common_names); [exact Hst|].
  cbn [fst]. apply Forall_snoc; [exact Hst | reflexivity].
Qed.

Lemma duplicate_definitions_all :
  Forall (fun i => i_type i = "duplicate_definition")
         (duplicate_definitions files).
Proof.
  unfold duplicate_definitions.
  apply (fold_left_preserves
           (fun st : list Issue * dict string =>
              Forall (fun i => i_type i = "duplicate_definition") (fst st))).
  - intros st kv Hst.
    apply (fold_left_preserves
             (fun st : list Issue * dict string =>
                Forall (fun i => i_type i = "duplicate_definition") (fst st)));
      [|exact Hst].
    intros s exp Hs. apply check_export_issues, Hs.
  - constructor.
Qed.

End ScanIssues.

Section Scan.

Import ProjectContext.

Variable fnmatch : string -> string -> bool.
Variable ast_parse : string -> string + list ast_node.

Lemma scan_file_issues (patterns : list string) st f :
  Forall (fun i => i_type i = "empty_file") (snd st) ->
  Forall (fun i => i_type i = "empty_file")
         (snd (scan_file fnmatch ast_parse patterns st f)).
Proof.
  intro Hst. unfold scan_file.
  destruct st as [fs issues]. destruct f as [[[dir filename] st_size] text].
  destruct (mem filename IGNORE_FILES); [exact Hst|].
  destruct (_ && _); [exact Hst|].
  destruct (N.ltb MAX_FILE_SIZE st_size); [exact Hst|].
  destruct (N.eqb st_size 0).
  - cbn [snd]. apply Forall_snoc; [exact Hst | reflexivity].
  - destruct text; exact Hst.
Qed.

(** The issues of a scan are the [empty_file] issues of the walk followed by
    the issues of the three checks. *)
Lemma scan_project_issues_split (scan_dir : list node) (auto_detect : bool) :
  let ctx := scan_project fnmatch ast_parse scan_dir auto_detect in
  exists found,
    Forall (fun i => i_type i = "empty_file") found
    /\ issues ctx
       = (found ++ missing_imports (files ctx)
          ++ orphan_files (files ctx) (dependency_graph ctx)
          ++ duplicate_definitions (files ctx))%list.
Proof.
  unfold scan_project.
  destruct (find_project_root scan_dir auto_detect) as [actual_root entries].
  set (patterns := AiIgnore.load_aiignore _ _).
  pose proof (fold_left_preserves
                (fun st : dict FileInfo * list Issue =>
                   Forall (fun i => i_type i = "empty_file") (snd st))
                (scan_file fnmatch ast_parse patterns)
                (fun s x H => scan_file_issues patterns s x H)
                (walk entries) ([], []) (Forall_nil _)) as Hwalk.
  destruct (fold_left (scan_file fnmatch ast_parse patterns) (walk entries)
                      ([], [])) as [fs found].
  exists found. split; [exact Hwalk | reflexivity].
Qed.

Lemma scan_project_issues (scan_dir : list node) (auto_detect : bool) :
  Forall (fun i => In (i_type i) scan_issue_types)
         (issues (scan_project fnmatch ast_parse scan_dir auto_detect)).
Proof.
  destruct (scan_project_issues_split scan_dir auto_detect)
    as (found & Hfound & Heq).
  rewrite Heq.
  repeat (apply Forall_app; split).
  - revert Hfound. apply Forall_impl.
    intros i Hi. rewrite Hi. simpl. auto.
  - apply missing_imports_all. intros. simpl. auto.
  - generalize (orphan_files_all
                  (files (scan_project fnmatch ast_parse scan_dir auto_detect))
                  (dependency_graph
                     (scan_project fnmatch ast_parse scan_dir auto_detect))).
    apply Forall_impl. intros i Hi. rewrite Hi. simpl. auto.
  - generalize (duplicate_definitions_all
                  (files (scan_project fnmatch ast_parse scan_dir auto_detect))).
    apply Forall_impl. intros i Hi. rewrite Hi. simpl. auto 6.
Qed.

End Scan.

Section ScanFiles.

Import ProjectContext.

Variable fnmatch : string -> string -> bool.
Variable ast_parse : string -> string + list ast_node.

(** ** The dictionary of files *)

Lemma dict_set_in {V : Type} (k : string) (v : V) (m : dict V) kv :
  In kv (dict_set k v m) -> kv = (k, v) \/ In kv m.
Proof.
  induction m as [|[k' v'] m IH]; simpl.
  - intros [H|[]]. left. symmetry. exact H.
  - destruct (String.eqb k' k) eqn:E.
    + apply String.eqb_eq in E. subst k'.
      intros [H|H]; [left; symmetry; exact H | right; right; exact H].
    + intros [H|H]; [right; left; exact H|].
      destruct (IH H) as [H'|H']; [left; exact H' | right; right; exact H'].
Qed.

Lemma dict_set_keys {V : Type} (k : string) (v : V) (m : dict V) k' :
  In k' (map fst (dict_set k v m)) -> k' = k \/ In k' (map fst m).
Proof.
  intro H. apply in_map_iff in H. destruct H as [kv [Hk Hin]].
  apply dict_set_in in Hin. destruct Hin as [Hin|Hin].
  - left. subst kv. symmetry. exact Hk.
  - right. apply in_map_iff. exists kv. split; assumption.
Qed.

Lemma dict_set_nodup {V : Type} (k : string) (v : V) (m : dict V) :
  NoDup (map fst m) -> NoDup (map fst (dict_set k v m)).
Proof.
  induction m as [|[k' v'] m IH]; simpl; intro H.
  - constructor; [intros [] | constructor].
  - inversion H as [|? ? Hn Hm]; subst.
    destruct (String.eqb k' k) eqn:E; simpl.
    + constructor; assumption.
    + constructor; [|apply IH; exact Hm].
      intro Hin. apply dict_set_keys in Hin. destruct Hin as [Hin|Hin].
      * subst k'. rewrite String.eqb_refl in E. discriminate.
      * exact (Hn Hin).
Qed.

Lemma dict_get_in {V : Type} (k : string) (v : V) (m : dict V) :
  NoDup (map fst m) -> In (k, v) m -> dict_get k m = Some v.
Proof.
  induction m as [|[k' v'] m IH]; simpl; intros Hnd Hin; [contradiction|].
  inversion Hnd as [|? ? Hn Hm]; subst.
  destruct Hin as [Hin|Hin].
  - inversion Hin; subst. rewrite String.eqb_refl. reflexivity.
  - destruct (String.eqb k' k) eqn:E.
    + apply String.eqb_eq in E. subst k'. exfalso. apply Hn.
      apply in_map_iff. exists (k, v). split; [reflexivity | exact Hin].
    + apply IH; assumption.
Qed.

(** ** What an analyzer leaves alone *)

Lemma visit_same_source (info : FileInfo) (n : ast_node) :
  same_source (visit info n) info.
Proof. destruct n; repeat split. Qed.

Lemma visits_same_source (tree : list ast_node) (info : FileInfo) :
  same_source (fold_left visit tree info) info.
Proof.
  revert info. induction tree as [|n tree IH]; intro info; simpl.
  - repeat split.
  - destruct (IH (visit info n)) as (H1 & H2 & H3 & H4).
    destruct (visit_same_source info n) as (G1 & G2 & G3 & G4).
    repeat split; congruence.
Qed.

Lemma analyze_same_source (info : FileInfo) :
  same_source (analyze ast_parse info) info.
Proof.
  unfold analyze.
  destruct (String.eqb (language info) "python").
  - unfold analyze_python. destruct (ast_parse (content info)).
    + repeat split.
    + destruct (visits_same_source l info) as (H1 & H2 & H3 & H4).
      repeat split; assumption.
  - destruct (mem (language info) ["javascript"; "typescript"]);
      [repeat split|].
    destruct (String.eqb (language info) "rust"); [repeat split|].
    destruct (String.eqb (language info) "go"); [|repeat split].
    unfold analyze_go.
    destruct (Re.search Re.DOTALL go_block (content info)); repeat split.
Qed.

(** A file whose text does not parse keeps its lists of imports and
    exports empty and records the error. *)
Lemma analyze_syntax_error (base : FileInfo) (e : string) :
  language base = "python" ->
  ast_parse (content base) = inl e ->
  analyze ast_parse base = with_errors base ["Syntax error: " ++ e].
Proof.
  intros Hl He. unfold analyze, analyze_python. rewrite Hl, He. reflexivity.
Qed.

Lemma scan_file_files (patterns : list string) st f :
  (NoDup (map fst (fst st)) /\ Forall (scanned ast_parse) (fst st)) ->
  NoDup (map fst (fst (scan_file fnmatch ast_parse patterns st f)))
  /\ Forall (scanned ast_parse) (fst (scan_file fnmatch ast_parse patterns st f)).
Proof.
  intro Hst. unfold scan_file.
  destruct st as [fs issues]. destruct f as [[[dir filename] st_size] text].
  destruct (mem filename IGNORE_FILES); [exact Hst|].
  destruct (_ && _); [exact Hst|].
  destruct (N.ltb MAX_FILE_SIZE st_size); [exact Hst|].
  destruct (N.eqb st_size 0); [exact Hst|].
  destruct text as [content|]; [|exact Hst].
  cbn [fst] in *. destruct Hst as [Hnd Hall]. split.
  - apply dict_set_nodup, Hnd.
  - apply Forall_forall. intros kv Hin.
    apply dict_set_in in Hin. destruct Hin as [Hin|Hin].
    + subst kv. unfold scanned. cbn [fst snd]. eauto.
    + rewrite Forall_forall in Hall. apply Hall, Hin.
Qed.

Lemma scan_project_files (scan_dir : list node) (auto_detect : bool) :
  let ctx := scan_project fnmatch ast_parse scan_dir auto_detect in
  NoDup (map fst (files ctx)) /\ Forall (scanned ast_parse) (files ctx).
Proof.
  unfold scan_project.
  destruct (find_project_root scan_dir auto_detect) as [actual_root entries].
  set (patterns := AiIgnore.load_aiignore _ _).
  pose proof (fold_left_preserves
                (fun st : dict FileInfo * list Issue =>
                   NoDup (map fst (fst st)) /\ Forall (scanned ast_parse) (fst st))
                (scan_file fnmatch ast_parse patterns)
                (fun s x H => scan_file_files patterns s x H)
                (walk entries) ([], [])
                (conj (NoDup_nil _) (Forall_nil _))) as Hwalk.
  destruct (fold_left (scan_file fnmatch ast_parse patterns) (walk entries)
                      ([], [])) as [fs found].
  exact Hwalk.
Qed.

End ScanFiles.

(** C10: whatever the directory, the ignore matcher and the parser, the
    issues of the context returned by [scan_project] have the types
    [empty_file], [missing_import], [orphan_file] and
    [duplicate_definition] only; none is a [circular_import] issue, the
    cycle detector not being called by the scan; and a Python file whose
    text does not parse is kept in the dictionary of files with the syntax
    error on its list of errors and nothing else analyzed, no issue being
    raised for it. *)
Theorem C10_scan_issue_types :
  forall (fnmatch : string -> string -> bool)
         (ast_parse : string -> string + list ProjectContext.ast_node)
         (scan_dir : list ProjectContext.node) (auto_detect : bool),
    let ctx :=
      ProjectContext.scan_project fnmatch ast_parse scan_dir auto_detect in
    Forall (fun i => In (ProjectContext.i_type i) scan_issue_types)
           (ProjectContext.issues ctx)
    /\ Forall (fun i => ProjectContext.i_type i <> "circular_import")
              (ProjectContext.issues ctx)
    /\ forall fpath info e,
         In (fpath, info) (ProjectContext.files ctx) ->
         ProjectContext.language info = "python" ->
         ast_parse (ProjectContext.content info) = inl e ->
         ProjectContext.errors info = ["Syntax error: " ++ e]
         /\ ProjectContext.imports info = []
         /\ ProjectContext.exports info = [].
Proof.
  intros fnmatch ast_parse scan_dir auto_detect ctx.
  pose proof (scan_project_issues fnmatch ast_parse scan_dir auto_detect)
    as Htypes.
  fold ctx in Htypes.
  split; [exact Htypes|]. split.
  - revert Htypes. apply Forall_impl.
    intros i Hi Hc. rewrite Hc in Hi. simpl in Hi.
    repeat (destruct Hi as [Hi|Hi]; [discriminate|]). exact Hi.
  - intros fpath info e Hin Hlang Hparse.
    destruct (scan_project_files fnmatch ast_parse scan_dir auto_detect)
      as [_ Hall].
    fold ctx in Hall. rewrite Forall_forall in Hall.
    destruct (Hall _ Hin) as (content & sz & lang & Hinfo).
    cbn [fst snd] in Hinfo.
    set (base := ProjectContext.mkFileInfo fpath content sz lang [] [] [] [])
      in Hinfo.
    destruct (analyze_same_source ast_parse base) as (_ & Hc & _ & Hl).
    rewrite <- Hinfo in Hc, Hl.
    rewrite (analyze_syntax_error ast_parse base e) in Hinfo.
    + subst info. repeat split.
    + rewrite <- Hl. exact Hlang.
    + rewrite <- Hc. exact Hparse.
Qed.

Lemma C10_scan_witness :
  let ctx :=
    ProjectContext.scan_project AiIgnore.simple_fnmatch sample_parser
      broken_project true in
  In ("bad.py", broken_info) (ProjectContext.files ctx)
  /\ ProjectContext.language broken_info = "python"
  /\ sample_parser (ProjectContext.content broken_info)
     = inl "invalid syntax (<unknown>, line 1)"
  /\ (ProjectContext.errors broken_info
      = ["Syntax error: " ++ "invalid syntax (<unknown>, line 1)"]
      /\ ProjectContext.imports broken_info = []
      /\ ProjectContext.exports broken_info = []).
Proof.
  intro ctx.
  assert (H1 : In ("bad.py", broken_info) (ProjectContext.files ctx))
    by (vm_compute; left; reflexivity).
  assert (H2 : ProjectContext.language broken_info = "python")
    by reflexivity.
  assert (H3 : sample_parser (ProjectContext.content broken_info)
               = inl "invalid syntax (<unknown>, line 1)") by reflexivity.
  refine (conj H1 (conj H2 (conj H3 _))).
  exact (proj2 (proj2 (C10_scan_issue_types AiIgnore.simple_fnmatch
                         sample_parser broken_project true))
           "bad.py" broken_info _ H1 H2 H3).
Defined.

(* ------------------------------------------------------------------ *)
(** ** An import of a module that is nowhere *)

(** C4 as stated fails on a project of two files where [main.py] imports
    [helper] from [utils] and no [utils] module exists: the scan records the
    two imports of [main.py], raises one warning, for the orphan
    [helpers.py], and no [missing_import] issue at all. *)
Lemma C4_two_file_project_counterexample :
  let ctx :=
    ProjectContext.scan_project AiIgnore.simple_fnmatch sample_parser
      two_file_project true in
  option_map ProjectContext.imports
    (ProjectContext.dict_get "main.py" (ProjectContext.files ctx))
  = Some ["utils"; "utils.helper"]
  /\ map (fun i => (ProjectContext.i_type i, ProjectContext.i_file i,
                    ProjectContext.i_severity i))
         (ProjectContext.issues ctx)
     = [("orphan_file", "helpers.py", "warning")]
  /\ ~ exists i,
         In i (ProjectContext.issues ctx)
         /\ ProjectContext.i_type i = "missing_import".
Proof.
  vm_compute. repeat split.
  intros [i [[Hi|[]] Ht]]. subst i. discriminate Ht.
Qed.

Section UnknownModule.

Import ProjectContext.

Variable fnmatch : string -> string -> bool.
Variable ast_parse : string -> string + list ast_node.

Lemma python_import_not_local (files : dict FileInfo) (imp : string) :
  In imp ["utils"; "utils.helper"] ->
  dict_has "utils.py" files = false ->
  dict_has "utils/__init__.py" files = false ->
  any_under "utils/" files = false ->
  is_local_import imp "python" files = false.
Proof.
  intros Himp H1 H2 H3.
  destruct Himp as [<-|[<-|[]]];
    unfold is_local_import, is_local_python_import;
    cbn -[dict_has any_under];
    rewrite H1, H2, H3; reflexivity.
Qed.

End UnknownModule.

(** C4, amended: when [main.py] is scanned as a Python file whose imports
    are those of [from utils import helper], and the project holds no
    [utils.py], no [utils/__init__.py] and nothing under [utils/], the scan
    raises no [missing_import] issue for [main.py]: the import is classified
    as foreign to the project and is not validated. *)
Theorem C4_unknown_module_not_reported :
  forall (fnmatch : string -> string -> bool)
         (ast_parse : string -> string + list ProjectContext.ast_node)
         (scan_dir : list ProjectContext.node) (auto_detect : bool)
         (info : ProjectContext.FileInfo),
    let ctx :=
      ProjectContext.scan_project fnmatch ast_parse scan_dir auto_detect in
    ProjectContext.dict_get "main.py" (ProjectContext.files ctx) = Some info ->
    ProjectContext.language info = "python" ->
    ProjectContext.imports info = ["utils"; "utils.helper"] ->
    ProjectContext.dict_has "utils.py" (ProjectContext.files ctx) = false ->
    ProjectContext.dict_has "utils/__init__.py" (ProjectContext.files ctx)
      = false ->
    ProjectContext.any_under "utils/" (ProjectContext.files ctx) = false ->
    Forall (fun i => ProjectContext.i_type i = "missing_import" ->
                     ProjectContext.i_file i <> "main.py")
           (ProjectContext.issues ctx).
Proof.
  intros fnmatch ast_parse scan_dir auto_detect info ctx
         Hget Hlang Himps H1 H2 H3.
  destruct (scan_project_issues_split fnmatch ast_parse scan_dir auto_detect)
    as (found & Hfound & Heq).
  destruct (scan_project_files fnmatch ast_parse scan_dir auto_detect)
    as [Hnd _].
  fold ctx in Heq, Hnd. rewrite Heq.
  repeat (apply Forall_app; split).
  - revert Hfound. apply Forall_impl.
    intros i Hi Ht. rewrite Hi in Ht. discriminate.
  - apply missing_imports_all.
    intros fpath info' imp Hin Himp _ Hlocal _ _. cbn.
    intro Hmain. subst fpath.
    rewrite (dict_get_in "main.py" info' _ Hnd Hin) in Hget.
    inversion Hget; subst info'.
    rewrite Hlang in Hlocal. rewrite Himps in Himp.
    rewrite (python_import_not_local _ imp Himp H1 H2 H3) in Hlocal.
    discriminate.
  - generalize (orphan_files_all (ProjectContext.files ctx)
                  (ProjectContext.dependency_graph ctx)).
    apply Forall_impl. intros i Hi Ht. rewrite Hi in Ht. discriminate.
  - generalize (duplicate_definitions_all (ProjectContext.files ctx)).
    apply Forall_impl. intros i Hi Ht. rewrite Hi in Ht. discriminate.
Qed.

Lemma C4_unknown_module_witness :
  let ctx :=
    ProjectContext.scan_project AiIgnore.simple_fnmatch sample_parser
      two_file_project true in
  let info :=
    ProjectContext.mkFileInfo "main.py" (esc "from utils import helper\n") 25
      "python" ["utils"; "utils.helper"] [] [] [] in
  ProjectContext.dict_get "main.py" (ProjectContext.files ctx) = Some info
  /\ ProjectContext.language info = "python"
  /\ ProjectContext.imports info = ["utils"; "utils.helper"]
  /\ ProjectContext.dict_has "utils.py" (ProjectContext.files ctx) = false
  /\ ProjectContext.dict_has "utils/__init__.py" (ProjectContext.files ctx)
     = false
  /\ ProjectContext.any_under "utils/" (ProjectContext.files ctx) = false
  /\ Forall (fun i => ProjectContext.i_type i = "missing_import" ->
                      ProjectContext.i_file i <> "main.py")
            (ProjectContext.issues ctx).
Proof.
  intros ctx info.
  assert (H1 : ProjectContext.dict_get "main.py" (ProjectContext.files ctx)
               = Some info) by (vm_compute; reflexivity).
  assert (H2 : ProjectContext.language info = "python") by reflexivity.
  assert (H3 : ProjectContext.imports info = ["utils"; "utils.helper"])
    by reflexivity.
  assert (H4 : ProjectContext.dict_has "utils.py" (ProjectContext.files ctx)
               = false) by (vm_compute; reflexivity).
  assert (H5 : ProjectContext.dict_has "utils/__init__.py"
                 (ProjectContext.files ctx) = false)
    by (vm_compute; reflexivity).
  assert (H6 : ProjectContext.any_under "utils/" (ProjectContext.files ctx)
               = false) by (vm_compute; reflexivity).
  refine (conj H1 (conj H2 (conj H3 (conj H4 (conj H5 (conj H6 _)))))).
  exact (C4_unknown_module_not_reported AiIgnore.simple_fnmatch sample_parser
           two_file_project true info H1 H2 H3 H4 H5 H6).
Defined.

(* ------------------------------------------------------------------ *)
(** ** Missing modules: local import or pip package *)

Section MissingModule.

Variable cwd : Fs.path.
Variable d : Fs.disk.

Lemma strip_prefix_app (base rel : Fs.path) :
  strip_prefix base (base ++ rel)%list = Some rel.
Proof.
  induction base as [|b base IH]; simpl.
  - reflexivity.
  - rewrite String.eqb_refl. exact IH.
Qed.

Lemma no_entry_named_spec (name : string) (rel : Fs.path) :
  no_entry_named d cwd name = true ->
  In (Fs.resolve cwd ++ rel)%list (entries d) ->
  mem name rel = false.
Proof.
  unfold no_entry_named. intros H Hin.
  rewrite forallb_forall in H. specialize (H _ Hin).
  rewrite strip_prefix_app in H. apply negb_true_iff in H. exact H.
Qed.

Lemma is_file_entry (rel : Fs.path) :
  mem ".." rel = false ->
  Fs.is_file d (cwd ++ rel)%list = true ->
  In (Fs.resolve cwd ++ rel)%list (entries d).
Proof.
  intros Hrel H. unfold Fs.is_file, Fs.exists_, Fs.read_text in H.
  rewrite (resolve_app cwd rel Hrel) in H.
  destruct (Fs.lookup (Fs.resolve cwd ++ rel)%list (Fs.files d)) as [text|] eqn:E;
    [|discriminate].
  apply lookup_some in E. unfold entries. apply in_or_app. left.
  apply in_map_iff. exists ((Fs.resolve cwd ++ rel)%list, text).
  split; [reflexivity | exact E].
Qed.

Lemma is_dir_entry (rel : Fs.path) :
  mem ".." rel = false ->
  Fs.is_dir d (cwd ++ rel)%list = true ->
  exists more, In (Fs.resolve cwd ++ rel ++ more)%list (entries d).
Proof.
  intros Hrel H. unfold Fs.is_dir in H.
  rewrite (resolve_app cwd rel Hrel) in H.
  apply orb_prop in H. destruct H as [H|H];
    apply existsb_exists in H; destruct H as [x [Hin Hx]].
  - unfold Fs.below in Hx. apply andb_prop in Hx. destruct Hx as [Hx _].
    apply is_relative_to_split in Hx. destruct Hx as [more Hmore].
    exists more. unfold entries. apply in_or_app. left.
    apply in_map_iff. exists x. split; [|exact Hin].
    rewrite Hmore, <- app_assoc. reflexivity.
  - apply is_relative_to_split in Hx. destruct Hx as [more Hmore].
    exists more. unfold entries. apply in_or_app. right.
    rewrite app_assoc, <- Hmore. exact Hin.
Qed.

Lemma mem_app_l (name : string) (l more : list string) :
  mem name l = true -> mem name (l ++ more)%list = true.
Proof.
  unfold mem. intro H. rewrite existsb_app, H. reflexivity.
Qed.

(** Without an entry named [name], no file is found at a place whose
    path holds the name. *)
Lemma no_file_there (name : string) (rel : Fs.path) :
  no_entry_named d cwd name = true ->
  mem ".." rel = false ->
  mem name rel = true ->
  Fs.is_file d (cwd ++ rel)%list = false.
Proof.
  intros Hno Hrel Hname.
  destruct (Fs.is_file d (cwd ++ rel)%list) eqn:E; [|reflexivity].
  apply (is_file_entry rel Hrel) in E.
  rewrite (no_entry_named_spec name rel Hno E) in Hname. discriminate.
Qed.

Lemma no_dir_there (name : string) (rel : Fs.path) :
  no_entry_named d cwd name = true ->
  mem ".." rel = false ->
  mem name rel = true ->
  Fs.is_dir d (cwd ++ rel)%list = false.
Proof.
  intros Hno Hrel Hname.
  destruct (Fs.is_dir d (cwd ++ rel)%list) eqn:E; [|reflexivity].
  apply (is_dir_entry rel Hrel) in E. destruct E as [more E].
  pose proof (no_entry_named_spec name _ Hno E) as Hmem.
  rewrite (mem_app_l name rel more Hname) in Hmem. discriminate.
Qed.

(** A file makes a directory of every proper prefix of its path. *)
Lemma file_makes_dir (rel more : Fs.path) :
  mem ".." rel = false ->
  mem ".." (rel ++ more)%list = false ->
  more <> [] ->
  Fs.is_file d (cwd ++ rel ++ more)%list = true ->
  Fs.is_dir d (cwd ++ rel)%list = true.
Proof.
  intros Hrel Hall Hmore H.
  apply (is_file_entry (rel ++ more)%list Hall) in H.
  unfold entries in H. apply in_app_or in H.
  unfold Fs.is_dir. rewrite (resolve_app cwd rel Hrel).
  destruct H as [H|H].
  - apply in_map_iff in H. destruct H as [[q text] [Hq Hin]].
    cbn [fst] in Hq. subst q.
    apply orb_true_intro. left. apply existsb_exists.
    exists ((Fs.resolve cwd ++ rel ++ more)%list, text).
    split; [exact Hin|]. cbn [fst]. unfold Fs.below.
    rewrite app_assoc, is_relative_to_app. cbn [andb].
    apply negb_true_iff.
    destruct (Fs.path_eqb (Fs.resolve cwd ++ rel)%list
                ((Fs.resolve cwd ++ rel) ++ more)%list) eqn:E; [|reflexivity].
    apply path_eqb_eq in E.
    rewrite <- (app_nil_r (Fs.resolve cwd ++ rel)%list) in E at 1.
    apply app_inv_head in E. symmetry in E. contradiction.
  - apply orb_true_intro. right. apply existsb_exists.
    exists (Fs.resolve cwd ++ rel ++ more)%list. split; [exact H|].
    rewrite app_assoc. apply is_relative_to_app.
Qed.

(** The match of the missing-module pattern on the two error lines. *)
Lemma mod_match_requests :
  option_map (fun m => Chat.text_of (Re.group m 1))
             (Re.search Re.NOFLAGS Chat.mod_pattern requests_line)
  = Some "requests".
Proof. vm_compute. reflexivity. Qed.

Lemma mod_match_src_utils :
  option_map (fun m => Chat.text_of (Re.group m 1))
             (Re.search Re.NOFLAGS Chat.mod_pattern src_utils_line)
  = Some "src.utils".
Proof. vm_compute. reflexivity. Qed.

(** With the error line at hand, the diagnosis is that of the
    missing-module branch. *)
Lemma diagnose_by_line (error_output line missing : string) :
  error_line_of error_output = line ->
  truthy line = true ->
  option_map (fun m => Chat.text_of (Re.group m 1))
             (Re.search Re.NOFLAGS Chat.mod_pattern line) = Some missing ->
  Chat.diagnose_test_error cwd d error_output
  = Chat.diagnose_missing_module cwd d error_output missing.
Proof.
  intros Hline Htruthy Hmatch. unfold Chat.diagnose_test_error.
  unfold error_line_of in Hline. rewrite Hline, Htruthy. cbn [negb].
  destruct (Re.search Re.NOFLAGS Chat.mod_pattern line) as [m|];
    [|discriminate].
  cbn [option_map] in Hmatch. inversion Hmatch. reflexivity.
Qed.

Lemma requests_is_pip (error_output : string) :
  error_line_of error_output = requests_line ->
  no_entry_named d cwd "requests" = true ->
  no_entry_named d cwd "requests.py" = true ->
  let dg := Chat.diagnose_test_error cwd d error_output in
  Chat.is_pip_package dg = true /\ Chat.is_local_import dg = false.
Proof.
  intros Hline Hname Hfile dg. unfold dg.
  rewrite (diagnose_by_line error_output requests_line "requests" Hline
             eq_refl mod_match_requests).
  unfold Chat.diagnose_missing_module.
  destruct (Chat.extract_chain error_output) as [chain affected].
  change (nth 0 (split "requests" ".") "") with "requests".
  change (Fs.joinpath cwd ("requests" ++ ".py"))
    with (cwd ++ ["requests.py"])%list.
  change (Fs.joinpath cwd "requests") with (cwd ++ ["requests"])%list.
  change (Fs.joinpath (Chat.at_cwd cwd ["src"]) ("requests" ++ ".py"))
    with ((cwd ++ ["src"]) ++ ["requests.py"])%list.
  change (Fs.joinpath (Chat.at_cwd cwd ["src"]) "requests")
    with ((cwd ++ ["src"]) ++ ["requests"])%list.
  change (Fs.joinpath (Chat.at_cwd cwd ["lib"]) ("requests" ++ ".py"))
    with ((cwd ++ ["lib"]) ++ ["requests.py"])%list.
  change (Fs.joinpath (Chat.at_cwd cwd ["app"]) ("requests" ++ ".py"))
    with ((cwd ++ ["app"]) ++ ["requests.py"])%list.
  rewrite <- !app_assoc. cbn [app].
  rewrite (no_file_there "requests.py" ["requests.py"] Hfile eq_refl eq_refl).
  rewrite (no_dir_there "requests" ["requests"] Hname eq_refl eq_refl).
  rewrite (no_file_there "requests.py" ["src"; "requests.py"] Hfile eq_refl eq_refl).
  rewrite (no_dir_there "requests" ["src"; "requests"] Hname eq_refl eq_refl).
  rewrite (no_file_there "requests.py" ["lib"; "requests.py"] Hfile eq_refl eq_refl).
  rewrite (no_file_there "requests.py" ["app"; "requests.py"] Hfile eq_refl eq_refl).
  change (mem "requests" Chat.local_names) with false.
  cbn [existsb orb Chat.is_pip_package Chat.is_local_import].
  split; reflexivity.
Qed.

Lemma src_utils_is_local (error_output : string) :
  error_line_of error_output = src_utils_line ->
  Fs.is_file d (cwd ++ ["src"; "utils.py"])%list = true ->
  let dg := Chat.diagnose_test_error cwd d error_output in
  Chat.is_local_import dg = true /\ Chat.is_pip_package dg = false.
Proof.
  intros Hline Hfile dg. unfold dg.
  rewrite (diagnose_by_line error_output src_utils_line "src.utils" Hline
             eq_refl mod_match_src_utils).
  unfold Chat.diagnose_missing_module.
  destruct (Chat.extract_chain error_output) as [chain affected].
  change (nth 0 (split "src.utils" ".") "") with "src".
  change (Fs.joinpath cwd "src") with (cwd ++ ["src"])%list.
  rewrite (file_makes_dir ["src"] ["utils.py"] eq_refl eq_refl
             ltac:(discriminate) Hfile).
  cbn [existsb orb]. rewrite orb_true_r.
  cbn [Chat.is_pip_package Chat.is_local_import].
  split; reflexivity.
Qed.

(** The two flags are never both set. *)
Lemma flags_exclusive (error_output : string) :
  let dg := Chat.diagnose_test_error cwd d error_output in
  Chat.is_local_import dg && Chat.is_pip_package dg = false.
Proof.
  intro dg. unfold dg, Chat.diagnose_test_error.
  destruct (negb _); [reflexivity|].
  destruct (Re.search Re.NOFLAGS Chat.mod_pattern _).
  - unfold Chat.diagnose_missing_module.
    destruct (Chat.extract_chain error_output).
    destruct (existsb _ _); reflexivity.
  - destruct (Re.search Re.NOFLAGS Chat.name_pattern _).
    + unfold Chat.diagnose_missing_symbol. cbn [Chat.is_pip_package].
      apply andb_false_r.
    + destruct (contains _ "SyntaxError"); [reflexivity|].
      destruct (contains _ "IndentationError"); [reflexivity|].
      unfold Chat.diagnose_output.
      repeat match goal with
             | |- context [if ?b then _ else _] => destruct b
             | |- context [match ?o with Some _ => _ | None => _ end] =>
                 destruct o
             end; reflexivity.
Qed.

End MissingModule.

(** C8: when the error line of the output is the missing-module line for
    [requests] and neither a file or directory named [requests] nor a
    module file [requests.py] exists at or below the working directory, the
    diagnosis is a pip package and not a local import; when the line names
    [src.utils] and [src/utils.py] exists under the working directory, it
    is a local import and not a pip package; and for every output and every
    disk the two flags are not both set. *)
Theorem C8_missing_module_classification :
  forall (cwd : Fs.path) (d : Fs.disk) (error_output : string),
    (error_line_of error_output = requests_line ->
     no_entry_named d cwd "requests" = true ->
     no_entry_named d cwd "requests.py" = true ->
     Chat.is_pip_package (Chat.diagnose_test_error cwd d error_output) = true
     /\ Chat.is_local_import (Chat.diagnose_test_error cwd d error_output)
        = false)
    /\ (error_line_of error_output = src_utils_line ->
        Fs.is_file d (cwd ++ ["src"; "utils.py"])%list = true ->
        Chat.is_local_import (Chat.diagnose_test_error cwd d error_output)
        = true
        /\ Chat.is_pip_package (Chat.diagnose_test_error cwd d error_output)
           = false)
    /\ Chat.is_local_import (Chat.diagnose_test_error cwd d error_output)
       && Chat.is_pip_package (Chat.diagnose_test_error cwd d error_output)
       = false.
Proof.
  intros cwd d error_output. repeat split.
  - apply (requests_is_pip cwd d error_output); assumption.
  - apply (requests_is_pip cwd d error_output); assumption.
  - apply (src_utils_is_local cwd d error_output); assumption.
  - apply (src_utils_is_local cwd d error_output); assumption.
  - apply flags_exclusive.
Qed.

Lemma C8_missing_module_witness :
  (error_line_of requests_output = requests_line
   /\ no_entry_named requests_disk proj "requests" = true
   /\ no_entry_named requests_disk proj "requests.py" = true
   /\ Chat.is_pip_package
        (Chat.diagnose_test_error proj requests_disk requests_output) = true
   /\ Chat.is_local_import
        (Chat.diagnose_test_error proj requests_disk requests_output) = false)
  /\ (error_line_of src_utils_output = src_utils_line
      /\ Fs.is_file src_utils_disk (proj ++ ["src"; "utils.py"])%list = true
      /\ Chat.is_local_import
           (Chat.diagnose_test_error proj src_utils_disk src_utils_output)
         = true
      /\ Chat.is_pip_package
           (Chat.diagnose_test_error proj src_utils_disk src_utils_output)
         = false).
Proof.
  assert (H1 : error_line_of requests_output = requests_line)
    by (vm_compute; reflexivity).
  assert (H2 : no_entry_named requests_disk proj "requests" = true)
    by (vm_compute; reflexivity).
  assert (H3 : no_entry_named requests_disk proj "requests.py" = true)
    by (vm_compute; reflexivity).
  assert (H4 : error_line_of src_utils_output = src_utils_line)
    by (vm_compute; reflexivity).
  assert (H5 : Fs.is_file src_utils_disk (proj ++ ["src"; "utils.py"])%list
               = true) by (vm_compute; reflexivity).
  split.
  - refine (conj H1 (conj H2 (conj H3 _))).
    exact (proj1 (C8_missing_module_classification proj requests_disk
                    requests_output) H1 H2 H3).
  - refine (conj H4 (conj H5 _)).
    exact (proj1 (proj2 (C8_missing_module_classification proj src_utils_disk
                           src_utils_output)) H4 H5).
Defined.

(* ------------------------------------------------------------------ *)
(** ** Parsing a response with a create tag and an edit tag *)

(** The response of the wire format with one create tag and one edit tag
    of two units: the pass over the file tags of [parse_edit_blocks] asks a
    match of the one-group pattern for its second group, the call raises,
    and the caller is left with an empty list of edits; no list of three
    operations is returned. *)
Example sample_response_parse_raises :
  DiffEditor.parse_edit_blocks sample_response
  = DiffEditor.Raise DiffEditor.IndexError
  /\ Builder.edit_blocks_of sample_response = []
  /\ ~ exists p c p1 s1 r1 p2 s2 r2,
         DiffEditor.parse_edit_blocks sample_response
         = DiffEditor.Ok [DiffEditor.full_replace p c;
                          DiffEditor.search_replace p1 s1 r1;
                          DiffEditor.search_replace p2 s2 r2].
Proof.
  assert (H : DiffEditor.parse_edit_blocks sample_response
              = DiffEditor.Raise DiffEditor.IndexError)
    by (vm_compute; reflexivity).
  split; [exact H|]. split.
  - unfold Builder.edit_blocks_of. rewrite H. reflexivity.
  - intros (p & c & p1 & s1 & r1 & p2 & s2 & r2 & Hp).
    rewrite H in Hp. discriminate.
Qed.

(** *** The matcher on texts with unknown parts *)

Lemma length_app (a b : string) :
  String.length (a ++ b) = String.length a + String.length b.
Proof. induction a as [|x a IH]; cbn [append String.length]; [reflexivity|now rewrite IH]. Qed.

Lemma or_else_some (x y : option Re.res) (r : Re.res) :
  x = Some r -> Re.or_else x y = Some r.
Proof. intros ->. reflexivity. Qed.

Lemma run_seqs_cons (fl : Re.flags) (r r' : Re.regex) (rest : list Re.regex)
    prev s c adv k :
  Re.run fl (Re.seqs (r :: r' :: rest)) prev s c adv k
  = Re.run fl r prev s c adv
      (fun p' s' c' a' => Re.run fl (Re.seqs (r' :: rest)) p' s' c' a' k).
Proof. reflexivity. Qed.

Lemma lit_matches_refl (fl : Re.flags) (a : ascii) : Re.lit_matches fl a a = true.
Proof. unfold Re.lit_matches. destruct (Re.ignorecase fl); apply Ascii.eqb_refl. Qed.

(** A literal text read off the head of the subject. *)
Lemma run_str (fl : Re.flags) (a : ascii) (lit : string) :
  forall prev s c adv k,
    Re.run fl (Re.str (String a lit)) prev (String a lit ++ s) c adv k
    = k (last_of prev (String a lit)) s c true.
Proof.
  revert a. induction lit as [|b lit IH]; intros a prev s c adv k.
  - cbn [Re.str Re.run append last_of]. now rewrite lit_matches_refl.
  - change (Re.str (String a (String b lit)))
      with (Re.Seq (Re.Lit a) (Re.str (String b lit))).
    cbn [Re.run]. change (String a (String b lit) ++ s) with (String a (String b lit ++ s)).
    cbn iota. rewrite lit_matches_refl. rewrite IH. reflexivity.
Qed.

Lemma run_lit (fl : Re.flags) (a : ascii) prev s c adv k :
  Re.run fl (Re.Lit a) prev (String a s) c adv k = k (Some a) s c true.
Proof. cbn [Re.run]. now rewrite lit_matches_refl. Qed.

Lemma run_cls (fl : Re.flags) (p : ascii -> bool) (a : ascii) prev s c adv k :
  p a = true ->
  Re.run fl (Re.Cls p) prev (String a s) c adv k = k (Some a) s c true.
Proof. intros H. cbn [Re.run]. now rewrite H. Qed.

Lemma run_dot (fl : Re.flags) (a : ascii) prev s c adv k :
  Re.dotall fl = true ->
  Re.run fl Re.Dot prev (String a s) c adv k = k (Some a) s c true.
Proof. intros H. cbn [Re.run]. now rewrite H. Qed.

(** A greedy star of a class reads a run of the class to its end when the
    rest of the pattern matches there. *)
Lemma star_cls_take (fl : Re.flags) (p : ascii -> bool) (k : Re.cont)
    (res : Re.res) :
  forall w n prev s c adv,
    all_chars p w = true -> head_in p s = false -> String.length w <= n ->
    k (last_of prev w) s c (adv || truthy w) = Some res ->
    Re.star_loop (Re.run fl (Re.Cls p)) true k n prev (w ++ s) c adv = Some res.
Proof.
  induction w as [|a w IH]; intros n prev s c adv Hw Hs Hn Hk.
  - cbn [append last_of truthy] in *. rewrite orb_false_r in Hk.
    destruct n as [|n]; cbn [Re.star_loop]; [exact Hk|].
    destruct s as [|b s]; cbn [Re.run Re.or_else]; [exact Hk|].
    cbn [head_in] in Hs. rewrite Hs. exact Hk.
  - cbn [all_chars] in Hw. apply andb_prop in Hw. destruct Hw as [Ha Hw].
    destruct n as [|n]; [cbn [String.length] in Hn; lia|].
    cbn [String.length] in Hn.
    cbn [Re.star_loop append]. rewrite (run_cls fl p a _ _ _ _ _ Ha).
    apply or_else_some. apply IH; [exact Hw|exact Hs|lia|].
    cbn [last_of truthy] in Hk. rewrite orb_true_r in Hk.
    destruct (truthy w); exact Hk.
Qed.

Lemma run_star_cls (fl : Re.flags) (p : ascii -> bool) (k : Re.cont)
    (res : Re.res) w prev s c adv :
  all_chars p w = true -> head_in p s = false ->
  k (last_of prev w) s c (adv || truthy w) = Some res ->
  Re.run fl (Re.star (Re.Cls p)) prev (w ++ s) c adv k = Some res.
Proof.
  intros Hw Hs Hk. unfold Re.star.
  change (Re.star_loop (Re.run fl (Re.Cls p)) true k (String.length (w ++ s))
            prev (w ++ s) c adv = Some res).
  apply star_cls_take; try assumption. rewrite length_app. lia.
Qed.

Lemma run_plus_cls (fl : Re.flags) (p : ascii -> bool) (k : Re.cont)
    (res : Re.res) w prev s c adv :
  truthy w = true -> all_chars p w = true -> head_in p s = false ->
  k (last_of prev w) s c true = Some res ->
  Re.run fl (Re.plus (Re.Cls p)) prev (w ++ s) c adv k = Some res.
Proof.
  intros Ht Hw Hs Hk. destruct w as [|a w]; [discriminate|].
  cbn [all_chars] in Hw. apply andb_prop in Hw. destruct Hw as [Ha Hw].
  unfold Re.plus.
  change (Re.run fl (Re.Cls p) prev (String a (w ++ s)) c adv
            (fun p' s' c' a' =>
               Re.star_loop (Re.run fl (Re.Cls p)) true k (String.length s')
                 p' s' c' a') = Some res).
  rewrite (run_cls fl p a _ _ _ _ _ Ha).
  apply star_cls_take; try assumption. rewrite length_app. lia.
Qed.

(** A lazy star of the dot, under [re.DOTALL], stops at the first position
    where the rest of the pattern matches. *)
Lemma lazy_dot_skip (fl : Re.flags) (f : string -> bool) (k : Re.cont)
    (res : Re.res) :
  Re.dotall fl = true ->
  (forall t, f t = true -> forall p c a, k p t c a = None) ->
  forall w n prev s c adv,
    all_suff f w s = true -> String.length w <= n ->
    k (last_of prev w) s c (adv || truthy w) = Some res ->
    Re.star_loop (Re.run fl Re.Dot) false k n prev (w ++ s) c adv = Some res.
Proof.
  intros Hd Hf. induction w as [|a w IH]; intros n prev s c adv Hw Hn Hk.
  - cbn [append last_of truthy] in *. rewrite orb_false_r in Hk.
    destruct n as [|n]; cbn [Re.star_loop]; [exact Hk|].
    apply or_else_some. exact Hk.
  - cbn [all_suff] in Hw. apply andb_prop in Hw. destruct Hw as [Ha Hw].
    destruct n as [|n]; [cbn [String.length] in Hn; lia|].
    cbn [String.length] in Hn.
    cbn [Re.star_loop]. rewrite (Hf _ Ha). cbn [Re.or_else append].
    rewrite (run_dot fl a _ _ _ _ _ Hd).
    apply IH; [exact Hw|lia|].
    cbn [last_of truthy] in Hk. rewrite orb_true_r in Hk.
    destruct (truthy w); exact Hk.
Qed.

Lemma run_lazy_dot (fl : Re.flags) (f : string -> bool) (k : Re.cont)
    (res : Re.res) w prev s c adv :
  Re.dotall fl = true ->
  (forall t, f t = true -> forall p c a, k p t c a = None) ->
  all_suff f w s = true ->
  k (last_of prev w) s c (adv || truthy w) = Some res ->
  Re.run fl (Re.lazy_star Re.Dot) prev (w ++ s) c adv k = Some res.
Proof.
  intros Hd Hf Hw Hk. unfold Re.lazy_star.
  change (Re.star_loop (Re.run fl Re.Dot) false k (String.length (w ++ s))
            prev (w ++ s) c adv = Some res).
  apply (lazy_dot_skip fl f); try assumption. rewrite length_app. lia.
Qed.

(** The scanner passes over the positions where the pattern cannot start. *)
Lemma scan_skip (fl : Re.flags) (r : Re.regex) (f : string -> bool) :
  (forall t, f t = true -> forall p c a k, Re.run fl r p t c a k = None) ->
  forall w prev s ma,
    all_suff f w s = true ->
    Re.scan fl r prev (w ++ s) ma
    = Re.scan fl r (last_of prev w) s (ma && negb (truthy w)).
Proof.
  intros Hf. induction w as [|a w IH]; intros prev s ma Hw.
  - cbn [append last_of truthy negb]. now rewrite andb_true_r.
  - cbn [all_suff] in Hw. apply andb_prop in Hw. destruct Hw as [Ha Hw].
    cbn [append Re.scan]. unfold Re.match_here at 1.
    change (String a (w ++ s)) with (String a w ++ s) at 1.
    rewrite (Hf _ Ha). rewrite (IH _ _ _ Hw).
    cbn [last_of truthy negb andb]. now rewrite andb_false_r.
Qed.

Lemma all_suff_app (f : string -> bool) (w1 w2 s : string) :
  all_suff f (w1 ++ w2) s = all_suff f w1 (w2 ++ s) && all_suff f w2 s.
Proof.
  induction w1 as [|a w1 IH]; [reflexivity|].
  cbn [append all_suff]. rewrite IH.
  change (String a (w1 ++ w2) ++ s) with (String a ((w1 ++ w2) ++ s)).
  change (String a w1 ++ w2 ++ s) with (String a (w1 ++ w2 ++ s)).
  rewrite append_assoc. now rewrite andb_assoc.
Qed.

Lemma last_of_app (prev : option ascii) (a b : string) :
  last_of prev (a ++ b) = last_of (last_of prev a) b.
Proof. revert prev. induction a as [|x a IH]; intros prev; [reflexivity|apply IH]. Qed.

Lemma between_app (w s : string) : Re.between (w ++ s) s = w.
Proof.
  unfold Re.between. rewrite length_app.
  replace (String.length w + String.length s - String.length s)
    with (String.length w) by lia.
  induction w as [|a w IH]; cbn [append String.length take].
  - destruct s; reflexivity.
  - now rewrite IH.
Qed.

(** *** Characters and positions *)

Lemma lit_lt (fl : Re.flags) (a : ascii) :
  Ascii.eqb a "<" = false -> Re.lit_matches fl "<" a = false.
Proof.
  destruct fl as [[] d m]; unfold Re.lit_matches; cbn [Re.ignorecase].
  - destruct a as [[] [] [] [] [] [] [] []]; vm_compute; intro H; exact H.
  - rewrite Ascii.eqb_sym. trivial.
Qed.

Lemma lit_backtick (fl : Re.flags) (b : ascii) :
  Re.lit_matches fl "`" b = true -> b = "`"%char.
Proof.
  destruct fl as [[] d m]; unfold Re.lit_matches; cbn [Re.ignorecase].
  - destruct b as [[] [] [] [] [] [] [] []]; vm_compute; intro H;
      first [reflexivity | discriminate].
  - intro H. apply Ascii.eqb_eq in H. now subst.
Qed.

Lemma text_char_lt (a : ascii) : text_char a = true -> Ascii.eqb a "<" = false.
Proof.
  unfold text_char. destruct (Ascii.eqb a "<"); [discriminate|reflexivity].
Qed.

Lemma text_char_backtick (a : ascii) :
  text_char a = true -> Ascii.eqb "`" a = false.
Proof.
  unfold text_char. rewrite (Ascii.eqb_sym "`" a).
  destruct (Ascii.eqb a "`"); [|reflexivity].
  rewrite andb_false_r. discriminate.
Qed.

Lemma space_not_lt (a : ascii) : isspace a = true -> Ascii.eqb a "<" = false.
Proof.
  intros H. destruct (Ascii.eqb a "<") eqn:E; [|reflexivity].
  apply Ascii.eqb_eq in E. subst a. vm_compute in H. discriminate.
Qed.

Lemma all_chars_impl (p q : ascii -> bool) (w : string) :
  (forall a, p a = true -> q a = true) ->
  all_chars p w = true -> all_chars q w = true.
Proof.
  intros Hpq. induction w as [|a w IH]; [reflexivity|].
  cbn [all_chars]. intros H. apply andb_prop in H. destruct H as [Ha Hw].
  now rewrite (Hpq _ Ha), (IH Hw).
Qed.

Lemma has_char_app (x : ascii) (a b : string) :
  has_char x (a ++ b) = has_char x a || has_char x b.
Proof.
  induction a as [|y a IH]; [reflexivity|].
  cbn [append has_char]. now rewrite IH, orb_assoc.
Qed.

Lemma text_no_backtick (w : string) :
  all_chars text_char w = true -> has_char "`" w = false.
Proof.
  induction w as [|a w IH]; [reflexivity|].
  cbn [all_chars has_char]. intros H. apply andb_prop in H.
  destruct H as [Ha Hw]. now rewrite (text_char_backtick _ Ha), (IH Hw).
Qed.

(** No position inside a text without the opening bracket begins a tag. *)
Lemma all_suff_first (fl : Re.flags) (y : ascii) (w s : string) :
  all_chars text_char w = true ->
  all_suff (fun t => negb (starts2 fl "<" y t)) w s = true.
Proof.
  induction w as [|a w IH]; [reflexivity|].
  cbn [all_chars all_suff append]. intros H. apply andb_prop in H.
  destruct H as [Ha Hw]. rewrite (IH Hw). unfold starts2.
  now rewrite (lit_lt fl a (text_char_lt a Ha)).
Qed.

(** A text that holds no pair [xy] has no position that begins with it,
    whatever follows, unless what follows begins with [y]. *)
Lemma all_suff_pair (x y : ascii) (w u : string) :
  contains w (String x (String y "")) = false ->
  head_in (Ascii.eqb y) u = false ->
  all_suff (fun t => negb (starts2 Re.DOTALL x y t)) w u = true.
Proof.
  intros Hc Hu. induction w as [|a w IH]; [reflexivity|].
  unfold contains in Hc. rewrite find_unfold in Hc.
  destruct (startswith (String a w) (String x (String y ""))) eqn:E;
    [discriminate|].
  assert (Hw : contains w (String x (String y "")) = false).
  { unfold contains.
    destruct (find w (String x (String y ""))); [discriminate|reflexivity]. }
  cbn [all_suff]. rewrite (IH Hw), andb_true_r.
  cbn [append]. unfold starts2, Re.lit_matches. cbn [Re.ignorecase Re.DOTALL].
  destruct w as [|b w].
  - cbn [append]. destruct u as [|b u].
    + now rewrite andb_false_r.
    + cbn [head_in] in Hu. now rewrite Hu, andb_false_r.
  - cbn [append]. cbn [startswith] in E.
    destruct w; cbn [startswith] in E; rewrite andb_true_r in E; now rewrite E.
Qed.

(** *** White space before a closing tag *)

Lemma quiet_sym (fl : Re.flags) (w u : string) :
  all_chars text_char w = true -> quiet_at fl u = true ->
  quiet_at fl (w ++ u) = true.
Proof.
  intros Hw Hu. induction w as [|a w IH]; [exact Hu|].
  cbn [all_chars] in Hw. apply andb_prop in Hw. destruct Hw as [Ha Hw].
  unfold quiet_at, lstrip. cbn [append lstrip_by].
  destruct (isspace a).
  - exact (IH Hw).
  - unfold starts2. now rewrite (lit_lt fl a (text_char_lt a Ha)).
Qed.

Lemma all_suff_quiet (fl : Re.flags) (w u : string) :
  all_chars text_char w = true -> quiet_at fl u = true ->
  all_suff (quiet_at fl) w u = true.
Proof.
  intros Hw Hu. induction w as [|a w IH]; [reflexivity|].
  cbn [all_suff]. rewrite (quiet_sym fl _ u Hw Hu).
  cbn [all_chars] in Hw. apply andb_prop in Hw. now rewrite IH.
Qed.

Lemma all_suff_ws_before (fl : Re.flags) (a : ascii) (u : string) :
  isspace a = true -> quiet_at fl u = true ->
  all_suff (quiet_at fl) (chr a) u = true.
Proof.
  intros Ha Hu. cbn [all_suff chr append]. rewrite andb_true_r.
  unfold quiet_at, lstrip. cbn [lstrip_by]. rewrite Ha. exact Hu.
Qed.

Lemma all_suff_cons (f : string -> bool) (w1 w2 s : string) :
  all_suff f w1 (w2 ++ s) = true -> all_suff f w2 s = true ->
  all_suff f (w1 ++ w2) s = true.
Proof. intros H1 H2. now rewrite all_suff_app, H1, H2. Qed.

(** A literal that opens with [</] fails where the text does not. *)
Lemma str_close_fail (fl : Re.flags) (z : ascii) (lit t : string) :
  starts2 fl "<" "/" t = false ->
  forall p c a k,
    Re.run fl (Re.str (String "<" (String "/" (String z lit)))) p t c a k = None.
Proof.
  intros H p c a k.
  change (Re.str (String "<" (String "/" (String z lit))))
    with (Re.Seq (Re.Lit "<") (Re.Seq (Re.Lit "/") (Re.str (String z lit)))).
  destruct t as [|x [|y t]]; cbn [Re.run]; [reflexivity| |];
    unfold starts2 in H.
  - destruct (Re.lit_matches fl "<" x); reflexivity.
  - destruct (Re.lit_matches fl "<" x); [|reflexivity].
    cbn [andb] in H. now rewrite H.
Qed.

(** The white space and the closing tag fail where the text is quiet. *)
Lemma star_ws_fail (fl : Re.flags) (k : Re.cont) :
  (forall t, starts2 fl "<" "/" t = false -> forall p c a, k p t c a = None) ->
  forall t, quiet_at fl t = true ->
  forall n p c a,
    Re.star_loop (Re.run fl (Re.Cls Re.is_s)) true k n p t c a = None.
Proof.
  intros Hk. induction t as [|x t IH]; intros Hq n p c a.
  - assert (H0 : k p "" c a = None) by (apply Hk; reflexivity).
    destruct n; cbn [Re.star_loop Re.run Re.or_else]; exact H0.
  - destruct (isspace x) eqn:E.
    + assert (H0 : k p (String x t) c a = None).
      { apply Hk. unfold starts2.
        now rewrite (lit_lt fl x (space_not_lt x E)). }
      assert (Hq' : quiet_at fl t = true).
      { unfold quiet_at, lstrip in Hq. cbn [lstrip_by] in Hq.
        rewrite E in Hq. exact Hq. }
      destruct n; cbn [Re.star_loop]; [exact H0|].
      rewrite (run_cls fl Re.is_s x _ _ _ _ _ E).
      rewrite (IH Hq'). cbn [Re.or_else]. exact H0.
    + assert (H0 : k p (String x t) c a = None).
      { apply Hk. unfold quiet_at, lstrip in Hq. cbn [lstrip_by] in Hq.
        rewrite E in Hq. now destruct (starts2 fl "<" "/" (String x t)). }
      destruct n; cbn [Re.star_loop]; [exact H0|].
      cbn [Re.run]. unfold Re.is_s. rewrite E. cbn [Re.or_else]. exact H0.
Qed.

Lemma ws_close_fail (fl : Re.flags) (z : ascii) (lit t : string) :
  quiet_at fl t = true ->
  forall p c a k,
    Re.run fl (Re.seqs [Re.star (Re.Cls Re.is_s);
                        Re.str (String "<" (String "/" (String z lit)))])
      p t c a k = None.
Proof.
  intros Hq p c a k.
  change (Re.star_loop (Re.run fl (Re.Cls Re.is_s)) true
            (fun p' s' c' a' =>
               Re.run fl (Re.str (String "<" (String "/" (String z lit))))
                 p' s' c' a' k)
            (String.length t) p t c a = None).
  apply star_ws_fail; [|exact Hq].
  intros t' H p' c' a'. now apply str_close_fail.
Qed.

(** *** Patterns that need a character the text lacks *)

Lemma is_suffix_refl (s : string) : is_suffix s s.
Proof. exists "". reflexivity. Qed.

Lemma is_suffix_trans (a b c : string) :
  is_suffix a b -> is_suffix b c -> is_suffix a c.
Proof.
  intros [w1 H1] [w2 H2]. exists (w2 ++ w1). now rewrite H2, H1, append_assoc.
Qed.

Lemma is_suffix_tail (a : ascii) (s : string) : is_suffix s (String a s).
Proof. exists (String a ""). reflexivity. Qed.

Lemma has_char_suffix (x : ascii) (s' s : string) :
  is_suffix s' s -> has_char x s' = true -> has_char x s = true.
Proof.
  intros [w ->] H. rewrite has_char_app, H. apply orb_true_r.
Qed.

Lemma star_loop_reach
    (body : option ascii -> string -> Re.caps -> bool -> Re.cont -> option Re.res) :
  (forall prev s c adv k res,
     body prev s c adv k = Some res -> reaches k s res) ->
  forall g k n prev s c adv res,
    Re.star_loop body g k n prev s c adv = Some res -> reaches k s res.
Proof.
  intros Hbody g k. induction n as [|n IH]; intros prev s c adv res H.
  - exists prev, s, c, adv. split; [exact H|apply is_suffix_refl].
  - cbn [Re.star_loop] in H.
    assert (Hagain :
      forall res',
        body prev s c false
          (fun prev' s' c' adv' =>
             if adv' then Re.star_loop body g k n prev' s' c' true else None)
        = Some res' -> reaches k s res').
    { intros res' Hb. apply Hbody in Hb.
      destruct Hb as (p1 & s1 & c1 & a1 & Hb & Hs1).
      destruct a1; [|discriminate].
      apply IH in Hb. destruct Hb as (p2 & s2 & c2 & a2 & Hb & Hs2).
      exists p2, s2, c2, a2. split; [exact Hb|].
      exact (is_suffix_trans _ _ _ Hs2 Hs1). }
    assert (Hstop : forall res', k prev s c adv = Some res' -> reaches k s res').
    { intros res' Hk. exists prev, s, c, adv.
      split; [exact Hk|apply is_suffix_refl]. }
    destruct g; unfold Re.or_else in H.
    + destruct (body prev s c false _) eqn:E.
      * inversion H; subst. now apply Hagain.
      * now apply Hstop.
    + destruct (k prev s c adv) eqn:E.
      * inversion H; subst. now apply Hstop.
      * now apply Hagain.
Qed.

(** A successful match hands a later position of the text to the rest of
    the pattern. *)
Lemma run_reach (fl : Re.flags) (r : Re.regex) :
  forall prev s c adv k res,
    Re.run fl r prev s c adv k = Some res -> reaches k s res.
Proof.
  induction r as [|a|p| |r1 IH1 r2 IH2|r1 IH1 r2 IH2|g r IH|n r IH| | |r IH];
    intros prev s c adv k res H; cbn [Re.run] in H.
  - exists prev, s, c, adv. split; [exact H|apply is_suffix_refl].
  - destruct s as [|b s]; [discriminate|].
    destruct (Re.lit_matches fl a b); [|discriminate].
    exists (Some b), s, c, true. split; [exact H|apply is_suffix_tail].
  - destruct s as [|b s]; [discriminate|].
    destruct (p b); [|discriminate].
    exists (Some b), s, c, true. split; [exact H|apply is_suffix_tail].
  - destruct s as [|b s]; [discriminate|].
    destruct (Re.dotall fl || negb (Ascii.eqb b LF)); [|discriminate].
    exists (Some b), s, c, true. split; [exact H|apply is_suffix_tail].
  - apply IH1 in H. destruct H as (p1 & s1 & c1 & a1 & H & Hs1).
    apply IH2 in H. destruct H as (p2 & s2 & c2 & a2 & H & Hs2).
    exists p2, s2, c2, a2. split; [exact H|].
    exact (is_suffix_trans _ _ _ Hs2 Hs1).
  - unfold Re.or_else in H.
    destruct (Re.run fl r1 prev s c adv k) eqn:E.
    + inversion H; subst. now apply IH1 in E.
    + now apply IH2 in H.
  - apply (star_loop_reach (Re.run fl r) IH) in H. exact H.
  - apply IH in H. destruct H as (p1 & s1 & c1 & a1 & H & Hs1).
    exists p1, s1, ((n, (s, s1)) :: c1), a1. split; assumption.
  - destruct (Re.at_line_start fl prev); [|discriminate].
    exists prev, s, c, adv. split; [exact H|apply is_suffix_refl].
  - destruct s; [|discriminate].
    exists prev, "", c, adv. split; [exact H|apply is_suffix_refl].
  - destruct (Re.run fl r prev s c adv _) as [[[[p1 s1] c1] a1]|];
      [|discriminate].
    exists prev, s, c1, adv. split; [exact H|apply is_suffix_refl].
Qed.

(** A successful match of a pattern that needs [x] starts in a text that
    holds [x]. *)
Lemma run_needs (fl : Re.flags) (x : ascii) :
  (forall b, Re.lit_matches fl x b = true -> b = x) ->
  forall r prev s c adv k res,
    needs x r = true ->
    Re.run fl r prev s c adv k = Some res -> has_char x s = true.
Proof.
  intros Hx.
  induction r as [|a|p| |r1 IH1 r2 IH2|r1 IH1 r2 IH2|g r IH|n r IH| | |r IH];
    intros prev s c adv k res Hn H; cbn [needs] in Hn; try discriminate.
  - apply Ascii.eqb_eq in Hn. subst a. cbn [Re.run] in H.
    destruct s as [|b s]; [discriminate|].
    destruct (Re.lit_matches fl x b) eqn:E; [|discriminate].
    apply Hx in E. subst b. cbn [has_char]. now rewrite Ascii.eqb_refl.
  - cbn [Re.run] in H. destruct (needs x r1) eqn:E1.
    + exact (IH1 _ _ _ _ _ _ eq_refl H).
    + cbn [orb] in Hn. apply run_reach in H.
      destruct H as (p1 & s1 & c1 & a1 & H & Hs1).
      apply (has_char_suffix x s1 s Hs1).
      exact (IH2 _ _ _ _ _ _ Hn H).
  - apply andb_prop in Hn. destruct Hn as [Hn1 Hn2].
    cbn [Re.run] in H. unfold Re.or_else in H.
    destruct (Re.run fl r1 prev s c adv k) eqn:E.
    + exact (IH1 _ _ _ _ _ _ Hn1 E).
    + exact (IH2 _ _ _ _ _ _ Hn2 H).
  - cbn [Re.run] in H. exact (IH _ _ _ _ _ _ Hn H).
Qed.

Lemma scan_needs (fl : Re.flags) (x : ascii) (r : Re.regex) :
  (forall b, Re.lit_matches fl x b = true -> b = x) ->
  needs x r = true ->
  forall s prev ma, has_char x s = false -> Re.scan fl r prev s ma = None.
Proof.
  intros Hx Hn.
  assert (Hhere : forall s prev ma,
            has_char x s = false -> Re.match_here fl r prev s ma = None).
  { intros s prev ma Hs. unfold Re.match_here.
    destruct (Re.run fl r prev s [] false _) as [res|] eqn:E; [|reflexivity].
    apply (run_needs fl x Hx) in E; [|exact Hn]. congruence. }
  induction s as [|a s IH]; intros prev ma Hs; cbn [Re.scan];
    rewrite (Hhere _ _ _ Hs); [reflexivity|].
  cbn [has_char] in Hs. apply orb_false_elim in Hs. now apply IH.
Qed.

Lemma finditer_needs (fl : Re.flags) (x : ascii) (r : Re.regex) (s : string) :
  (forall b, Re.lit_matches fl x b = true -> b = x) ->
  needs x r = true -> has_char x s = false -> Re.finditer fl r s = [].
Proof.
  intros Hx Hn Hs. unfold Re.finditer. cbn [Re.finditer_from].
  now rewrite (scan_needs fl x r Hx Hn).
Qed.

(** *** Steps of a match *)

Lemma seq_some (fl : Re.flags) (r R : Re.regex) prev s c adv k res :
  Re.run fl r prev s c adv (fun p' s' c' a' => Re.run fl R p' s' c' a' k)
  = Some res ->
  Re.run fl (Re.Seq r R) prev s c adv k = Some res.
Proof. exact (fun H => H). Qed.

Lemma group_some (fl : Re.flags) (n : nat) (r : Re.regex) prev s c adv k res :
  Re.run fl r prev s c adv
    (fun p' s' c' a' => k p' s' ((n, (s, s')) :: c') a') = Some res ->
  Re.run fl (Re.Group n r) prev s c adv k = Some res.
Proof. exact (fun H => H). Qed.

Lemma alt_left (fl : Re.flags) (r1 r2 : Re.regex) prev s c adv k res :
  Re.run fl r1 prev s c adv k = Some res ->
  Re.run fl (Re.Alt r1 r2) prev s c adv k = Some res.
Proof. intros H. cbn [Re.run]. now rewrite H. Qed.

Lemma str_some (fl : Re.flags) (a : ascii) (lit : string) prev s c adv k res :
  k (last_of prev (String a lit)) s c true = Some res ->
  Re.run fl (Re.str (String a lit)) prev (String a lit ++ s) c adv k = Some res.
Proof. intros H. now rewrite run_str. Qed.

Lemma lit_some (fl : Re.flags) (a : ascii) prev s c adv k res :
  k (Some a) s c true = Some res ->
  Re.run fl (Re.Lit a) prev (String a s) c adv k = Some res.
Proof. intros H. now rewrite run_lit. Qed.

Lemma cls_some (fl : Re.flags) (p : ascii -> bool) (a : ascii)
    prev s c adv k res :
  p a = true -> k (Some a) s c true = Some res ->
  Re.run fl (Re.Cls p) prev (String a s) c adv k = Some res.
Proof. intros Hp H. now rewrite (run_cls fl p a _ _ _ _ _ Hp). Qed.

Lemma at_end_some (ma : bool) (p : option ascii) (s : string) (c : Re.caps) :
  at_end ma p s c true = Some (p, s, c, true).
Proof. unfold at_end. now rewrite andb_false_r. Qed.

(** *** The create tag *)

Lemma create_tag_shape (pf cf rest : string) :
  create_tag pf cf ++ rest
  = "<file" ++ " " ++ "path="
    ++ String DQ (pf ++ String DQ (String ">" (String LF
         ((cf ++ nl) ++ "</file>" ++ rest)))).
Proof. unfold create_tag. rewrite !append_assoc. reflexivity. Qed.

Lemma file_tag_run (prev : option ascii) (pf body rest : string) (ma : bool) :
  truthy pf = true ->
  all_chars (Re.none_of [DQ; SQ]) pf = true ->
  all_suff (fun t => negb (starts2 Re.DOTALL_IGNORECASE "<" "/" t))
           body ("</file>" ++ rest) = true ->
  exists P,
    Re.run Re.DOTALL_IGNORECASE Builder.file_tag prev
      ("<file" ++ " " ++ "path="
       ++ String DQ (pf ++ String DQ (String ">" (String LF
            (body ++ "</file>" ++ rest)))))
      [] false (at_end ma)
    = Some (P, rest,
            [(2, (body ++ "</file>" ++ rest, "</file>" ++ rest));
             (1, (pf ++ String DQ (String ">" (String LF
                    (body ++ "</file>" ++ rest))),
                  String DQ (String ">" (String LF
                    (body ++ "</file>" ++ rest)))))],
            true).
Proof.
  intros Ht Hpf Hbody. eexists.
  unfold Builder.file_tag. cbn [Re.seqs].
  apply seq_some, str_some. cbv beta.
  apply seq_some, run_plus_cls; [reflexivity|reflexivity|reflexivity|].
  cbv beta.
  apply seq_some, str_some. cbv beta.
  apply seq_some. unfold Re.quote at 1. apply cls_some; [reflexivity|].
  cbv beta.
  apply seq_some, group_some, run_plus_cls; [exact Ht|exact Hpf|reflexivity|].
  cbv beta.
  apply seq_some. unfold Re.quote at 1. apply cls_some; [reflexivity|].
  cbv beta.
  apply seq_some, lit_some. cbv beta.
  apply seq_some. unfold Re.opt. apply alt_left, lit_some. cbv beta.
  apply seq_some, group_some.
  apply (run_lazy_dot Re.DOTALL_IGNORECASE
           (fun t => negb (starts2 Re.DOTALL_IGNORECASE "<" "/" t)));
    [reflexivity| |exact Hbody|].
  - intros t Hq p c a. apply str_close_fail.
    now destruct (starts2 Re.DOTALL_IGNORECASE "<" "/" t).
  - cbv beta. apply str_some. apply at_end_some.
Qed.

(** *** Where a pattern cannot start *)

Lemma start2_fail (fl : Re.flags) (x y : ascii) (R1 R2 : Re.regex) (t : string) :
  starts2 fl x y t = false ->
  forall p c a k,
    Re.run fl (Re.Seq (Re.Seq (Re.Lit x) (Re.Seq (Re.Lit y) R1)) R2) p t c a k
    = None.
Proof.
  intros H p c a k. destruct t as [|u [|v t]]; cbn [Re.run]; [reflexivity| |];
    unfold starts2 in H.
  - destruct (Re.lit_matches fl x u); reflexivity.
  - destruct (Re.lit_matches fl x u); [|reflexivity].
    cbn [andb] in H. now rewrite H.
Qed.

Lemma start2_fail_lit (fl : Re.flags) (x y : ascii) (R1 R2 : Re.regex)
    (t : string) :
  starts2 fl x y t = false ->
  forall p c a k,
    Re.run fl (Re.Seq (Re.Lit x) (Re.Seq (Re.Seq (Re.Lit y) R1) R2)) p t c a k
    = None.
Proof.
  intros H p c a k. destruct t as [|u [|v t]]; cbn [Re.run]; [reflexivity| |];
    unfold starts2 in H.
  - destruct (Re.lit_matches fl x u); reflexivity.
  - destruct (Re.lit_matches fl x u); [|reflexivity].
    cbn [andb] in H. now rewrite H.
Qed.

Lemma file_tag_start (t : string) :
  negb (starts2 Re.DOTALL_IGNORECASE "<" "f" t) = true ->
  forall p c a k, Re.run Re.DOTALL_IGNORECASE Builder.file_tag p t c a k = None.
Proof.
  intros H p c a k. unfold Builder.file_tag. cbn [Re.seqs].
  change (Re.str "<file")
    with (Re.Seq (Re.Lit "<") (Re.Seq (Re.Lit "f") (Re.str "ile"))).
  apply start2_fail. now destruct (starts2 Re.DOTALL_IGNORECASE "<" "f" t).
Qed.

Lemma edit_pattern_start (t : string) :
  negb (starts2 Re.DOTALL "<" "e" t) = true ->
  forall p c a k, Re.run Re.DOTALL DiffEditor.edit_pattern p t c a k = None.
Proof.
  intros H p c a k. unfold DiffEditor.edit_pattern. cbn [Re.seqs].
  change (Re.str "<edit")
    with (Re.Seq (Re.Lit "<") (Re.Seq (Re.Lit "e") (Re.str "dit"))).
  apply start2_fail. now destruct (starts2 Re.DOTALL "<" "e" t).
Qed.

Lemma sr_pattern_start (t : string) :
  negb (starts2 Re.DOTALL "<" "<" t) = true ->
  forall p c a k, Re.run Re.DOTALL DiffEditor.sr_pattern p t c a k = None.
Proof.
  intros H p c a k. unfold DiffEditor.sr_pattern. cbn [Re.seqs].
  change (Re.str "<<<<<<< SEARCH")
    with (Re.Seq (Re.Lit "<") (Re.Seq (Re.Lit "<") (Re.str "<<<<< SEARCH"))).
  apply start2_fail. now destruct (starts2 Re.DOTALL "<" "<" t).
Qed.

(** *** The scanner and the iteration *)

Lemma append_nil_r (s : string) : s ++ "" = s.
Proof. induction s as [|a s IH]; [reflexivity|]. cbn [append]. now rewrite IH. Qed.

Lemma scan_none (fl : Re.flags) (r : Re.regex) (f : string -> bool) :
  (forall t, f t = true -> forall p c a k, Re.run fl r p t c a k = None) ->
  f "" = true ->
  forall w prev ma, all_suff f w "" = true -> Re.scan fl r prev w ma = None.
Proof.
  intros Hf H0 w prev ma Hw. rewrite <- (append_nil_r w).
  rewrite (scan_skip fl r f Hf w prev "" ma Hw).
  cbn [Re.scan]. unfold Re.match_here. now rewrite (Hf "" H0).
Qed.

Lemma match_here_some (fl : Re.flags) (r : Re.regex) prev s ma p' s' c' a' :
  Re.run fl r prev s [] false (at_end ma) = Some (p', s', c', a') ->
  Re.match_here fl r prev s ma = Some (Re.RMatch prev s p' s' c' a').
Proof.
  intros H. unfold Re.match_here. unfold at_end in H. now rewrite H.
Qed.

Lemma scan_here (fl : Re.flags) (r : Re.regex) prev s ma m :
  Re.match_here fl r prev s ma = Some m -> Re.scan fl r prev s ma = Some m.
Proof. intros H. destruct s; cbn [Re.scan]; now rewrite H. Qed.

Lemma finditer_one (fl : Re.flags) (r : Re.regex) (s : string) (m : Re.rmatch) :
  Re.scan fl r None s false = Some m ->
  Re.scan fl r (Re.m_prev_end m) (Re.m_to m) (negb (Re.m_nonempty m)) = None ->
  Re.finditer fl r s = [m].
Proof.
  intros H1 H2. unfold Re.finditer. cbn [Re.finditer_from].
  now rewrite H1, H2.
Qed.

Lemma finditer_two (fl : Re.flags) (r : Re.regex) (s : string)
    (m1 m2 : Re.rmatch) :
  truthy s = true ->
  Re.scan fl r None s false = Some m1 ->
  Re.scan fl r (Re.m_prev_end m1) (Re.m_to m1) (negb (Re.m_nonempty m1))
  = Some m2 ->
  Re.scan fl r (Re.m_prev_end m2) (Re.m_to m2) (negb (Re.m_nonempty m2))
  = None ->
  Re.finditer fl r s = [m1; m2].
Proof.
  intros Ht H1 H2 H3. unfold Re.finditer.
  destruct s as [|a s]; [discriminate|].
  cbn [String.length Nat.add Re.finditer_from].
  now rewrite H1, H2, H3.
Qed.

Lemma group_first (p q : option ascii) (s t : string) (n : nat)
    (w u : string) (c : Re.caps) (a : bool) :
  Re.group (Re.RMatch p s q t ((n, (w ++ u, u)) :: c) a) n = Some w.
Proof.
  unfold Re.group. cbn [Re.m_caps Re.lookup]. rewrite Nat.eqb_refl.
  now rewrite between_app.
Qed.

Lemma group_second (p q : option ascii) (s t : string) (n1 n : nat)
    (x : string * string) (w u : string) (c : Re.caps) (a : bool) :
  Nat.eqb n1 n = false ->
  Re.group (Re.RMatch p s q t ((n1, x) :: (n, (w ++ u, u)) :: c) a) n = Some w.
Proof.
  intros H. unfold Re.group. cbn [Re.m_caps Re.lookup]. rewrite H.
  rewrite Nat.eqb_refl. now rewrite between_app.
Qed.

(** *** The pass over the create tags *)

Lemma file_pass (pf cf rest : string) :
  truthy pf = true ->
  all_chars (Re.none_of [DQ; SQ]) pf = true ->
  all_chars text_char cf = true ->
  all_suff (fun t => negb (starts2 Re.DOTALL_IGNORECASE "<" "f" t)) rest ""
  = true ->
  exists m,
    Re.finditer Re.DOTALL_IGNORECASE Builder.file_tag (create_tag pf cf ++ rest)
    = [m]
    /\ Re.group m 1 = Some pf /\ Re.group m 2 = Some (cf ++ nl).
Proof.
  intros Ht Hpf Hcf Hrest. rewrite create_tag_shape.
  assert (Hbody :
    all_suff (fun t => negb (starts2 Re.DOTALL_IGNORECASE "<" "/" t))
             (cf ++ nl) ("</file>" ++ rest) = true).
  { apply all_suff_cons; [now apply all_suff_first|reflexivity]. }
  destruct (file_tag_run None pf (cf ++ nl) rest false Ht Hpf Hbody) as [P HP].
  eexists. split; [|split].
  - apply finditer_one.
    + apply scan_here, match_here_some. exact HP.
    + cbn [Re.m_prev_end Re.m_to Re.m_nonempty negb].
      apply (scan_none _ _ _ file_tag_start); [reflexivity|exact Hrest].
  - apply group_second. reflexivity.
  - apply group_first.
Qed.

(** *** The pass over the edit tags *)

Lemma edit_tag_shape (pe units tail : string) :
  edit_tag pe units ++ tail
  = "<edit" ++ " " ++ "path="
    ++ String DQ (pe ++ String DQ (String ">"
         (nl ++ units ++ nl ++ "</edit>" ++ tail))).
Proof. unfold edit_tag. rewrite !append_assoc. reflexivity. Qed.

Lemma edit_pattern_run (prev : option ascii) (pe units tail : string)
    (ma : bool) :
  truthy pe = true ->
  all_chars (Re.none_of [DQ; SQ]) pe = true ->
  head_in Re.is_s (units ++ nl ++ "</edit>" ++ tail) = false ->
  all_suff (quiet_at Re.DOTALL) units (nl ++ "</edit>" ++ tail) = true ->
  exists P,
    Re.run Re.DOTALL DiffEditor.edit_pattern prev
      ("<edit" ++ " " ++ "path="
       ++ String DQ (pe ++ String DQ (String ">"
            (nl ++ units ++ nl ++ "</edit>" ++ tail))))
      [] false (at_end ma)
    = Some (P, tail,
            [(2, (units ++ nl ++ "</edit>" ++ tail, nl ++ "</edit>" ++ tail));
             (1, (pe ++ String DQ (String ">"
                    (nl ++ units ++ nl ++ "</edit>" ++ tail)),
                  String DQ (String ">"
                    (nl ++ units ++ nl ++ "</edit>" ++ tail))))],
            true).
Proof.
  intros Ht Hpe Hhead Hunits. eexists.
  unfold DiffEditor.edit_pattern. cbn [Re.seqs].
  apply seq_some, str_some. cbv beta.
  apply seq_some, run_plus_cls; [reflexivity|reflexivity|reflexivity|].
  cbv beta.
  apply seq_some, str_some. cbv beta.
  apply seq_some. unfold Re.quote at 1. apply cls_some; [reflexivity|].
  cbv beta.
  apply seq_some, group_some, run_plus_cls; [exact Ht|exact Hpe|reflexivity|].
  cbv beta.
  apply seq_some. unfold Re.quote at 1. apply cls_some; [reflexivity|].
  cbv beta.
  apply seq_some, lit_some. cbv beta.
  apply seq_some, run_star_cls; [reflexivity|exact Hhead|].
  cbv beta.
  apply seq_some, group_some.
  apply (run_lazy_dot Re.DOTALL (quiet_at Re.DOTALL));
    [reflexivity| |exact Hunits|].
  - intros t Hq p c a. now apply (ws_close_fail Re.DOTALL "e" "dit>").
  - cbv beta.
    apply seq_some, run_star_cls; [reflexivity|reflexivity|].
    cbv beta. apply str_some. apply at_end_some.
Qed.

Lemma edit_pass (pre pe units tail : string) :
  all_suff (fun t => negb (starts2 Re.DOTALL "<" "e" t)) pre
           (edit_tag pe units ++ tail) = true ->
  truthy pe = true ->
  all_chars (Re.none_of [DQ; SQ]) pe = true ->
  head_in Re.is_s (units ++ nl ++ "</edit>" ++ tail) = false ->
  all_suff (quiet_at Re.DOTALL) units (nl ++ "</edit>" ++ tail) = true ->
  all_suff (fun t => negb (starts2 Re.DOTALL "<" "e" t)) tail "" = true ->
  exists m,
    Re.finditer Re.DOTALL DiffEditor.edit_pattern
      (pre ++ edit_tag pe units ++ tail) = [m]
    /\ Re.group m 1 = Some pe /\ Re.group m 2 = Some units.
Proof.
  intros Hpre Ht Hpe Hhead Hunits Htail.
  destruct (edit_pattern_run (last_of None pre) pe units tail
              (false && negb (truthy pre)) Ht Hpe Hhead Hunits) as [P HP].
  eexists. split; [|split].
  - apply finditer_one.
    + rewrite (scan_skip _ _ _ edit_pattern_start pre None _ false Hpre).
      rewrite edit_tag_shape.
      apply scan_here, match_here_some. exact HP.
    + cbn [Re.m_prev_end Re.m_to Re.m_nonempty negb].
      apply (scan_none _ _ _ edit_pattern_start); [reflexivity|exact Htail].
  - apply group_second. reflexivity.
  - apply group_first.
Qed.

(** *** The SEARCH/REPLACE units of a block *)

Lemma sr_unit_shape (s r rest : string) :
  sr_unit s r ++ rest
  = "<<<<<<< SEARCH"
    ++ String LF (s ++ String LF ("=======" ++ String LF
         (r ++ String LF (">>>>>>> REPLACE" ++ rest)))).
Proof. unfold sr_unit. rewrite !append_assoc. reflexivity. Qed.

Lemma sr_pattern_run (prev : option ascii) (s r rest : string) (ma : bool) :
  contains s (nl ++ "=") = false ->
  contains r (nl ++ ">") = false ->
  exists P,
    Re.run Re.DOTALL DiffEditor.sr_pattern prev
      ("<<<<<<< SEARCH"
       ++ String LF (s ++ String LF ("=======" ++ String LF
            (r ++ String LF (">>>>>>> REPLACE" ++ rest)))))
      [] false (at_end ma)
    = Some (P, rest,
            [(2, (r ++ String LF (">>>>>>> REPLACE" ++ rest),
                  String LF (">>>>>>> REPLACE" ++ rest)));
             (1, (s ++ String LF ("=======" ++ String LF
                    (r ++ String LF (">>>>>>> REPLACE" ++ rest))),
                  String LF ("=======" ++ String LF
                    (r ++ String LF (">>>>>>> REPLACE" ++ rest)))))],
            true).
Proof.
  intros Hs Hr. eexists.
  unfold DiffEditor.sr_pattern. cbn [Re.seqs].
  apply seq_some, str_some. cbv beta.
  apply seq_some, lit_some. cbv beta.
  apply seq_some, group_some.
  apply (run_lazy_dot Re.DOTALL (fun t => negb (starts2 Re.DOTALL LF "=" t)));
    [reflexivity| | |].
  - intros t Hq p c a.
    change (Re.str "=======")
      with (Re.Seq (Re.Lit "=") (Re.str "======")).
    apply start2_fail_lit. now destruct (starts2 Re.DOTALL LF "=" t).
  - apply all_suff_pair; [exact Hs|reflexivity].
  - cbv beta.
    apply seq_some, lit_some. cbv beta.
    apply seq_some, str_some. cbv beta.
    apply seq_some, lit_some. cbv beta.
    apply seq_some, group_some.
    apply (run_lazy_dot Re.DOTALL (fun t => negb (starts2 Re.DOTALL LF ">" t)));
      [reflexivity| | |].
    + intros t Hq p c a.
      change (Re.str ">>>>>>> REPLACE")
        with (Re.Seq (Re.Lit ">") (Re.str ">>>>>> REPLACE")).
      destruct t as [|u [|v t]]; cbn [Re.run]; [reflexivity| |];
        unfold starts2 in Hq.
      * destruct (Re.lit_matches Re.DOTALL LF u); reflexivity.
      * destruct (Re.lit_matches Re.DOTALL LF u); [|reflexivity].
        cbn [andb] in Hq.
        destruct (Re.lit_matches Re.DOTALL ">" v); [discriminate|reflexivity].
    + apply all_suff_pair; [exact Hr|reflexivity].
    + cbv beta. apply seq_some, lit_some. cbv beta.
      apply str_some. apply at_end_some.
Qed.

Lemma sr_pass (s1 r1 s2 r2 : string) :
  contains s1 (nl ++ "=") = false -> contains r1 (nl ++ ">") = false ->
  contains s2 (nl ++ "=") = false -> contains r2 (nl ++ ">") = false ->
  DiffEditor.sr_findall (sr_unit s1 r1 ++ nl ++ sr_unit s2 r2)
  = [(s1, r1); (s2, r2)].
Proof.
  intros Hs1 Hr1 Hs2 Hr2. unfold DiffEditor.sr_findall.
  destruct (sr_pattern_run None s1 r1 (nl ++ sr_unit s2 r2) false Hs1 Hr1)
    as [P1 H1].
  destruct (sr_pattern_run (last_of P1 nl) s2 r2 "" (false && negb (truthy nl))
              Hs2 Hr2) as [P2 H2].
  erewrite finditer_two;
    [ | reflexivity
      | rewrite sr_unit_shape; apply scan_here, match_here_some; exact H1
      | cbn [Re.m_prev_end Re.m_to Re.m_nonempty negb];
        rewrite (scan_skip _ _ _ sr_pattern_start nl P1 _ false eq_refl);
        rewrite <- (append_nil_r (sr_unit s2 r2)); rewrite sr_unit_shape;
        apply scan_here, match_here_some; exact H2
      | cbn [Re.m_prev_end Re.m_to Re.m_nonempty negb];
        apply (scan_none _ _ _ sr_pattern_start); reflexivity ].
  cbn [map]. rewrite !group_first.
  rewrite !group_second by reflexivity. reflexivity.
Qed.

(** *** Content without a fence *)

Lemma has_char_lstrip (x : ascii) (p : ascii -> bool) (t : string) :
  has_char x (lstrip_by p t) = true -> has_char x t = true.
Proof.
  induction t as [|a t IH]; cbn [lstrip_by]; [trivial|].
  destruct (p a); [|trivial].
  intros H. cbn [has_char]. rewrite (IH H). apply orb_true_r.
Qed.

Lemma has_char_rstrip (x : ascii) (p : ascii -> bool) (t : string) :
  has_char x (rstrip_by p t) = true -> has_char x t = true.
Proof.
  induction t as [|a t IH]; cbn [rstrip_by]; [trivial|].
  destruct (rstrip_by p t) as [|b r].
  - destruct (p a); [discriminate|].
    cbn [has_char chr]. rewrite orb_false_r. intros ->. reflexivity.
  - cbn [has_char] in *. intros H. apply orb_prop in H.
    destruct H as [H|H]; [now rewrite H|].
    rewrite (IH H). apply orb_true_r.
Qed.

Lemma fence_has_backtick (l : string) :
  DiffEditor.is_fence l = true -> has_char "`" l = true.
Proof.
  unfold DiffEditor.is_fence, strip, strip_by. intros H.
  apply (has_char_rstrip _ isspace), (has_char_lstrip _ isspace).
  destruct (lstrip_by isspace (rstrip_by isspace l)) as [|c t];
    cbn [startswith] in H; [discriminate|].
  apply andb_prop in H. destruct H as [H _]. cbn [has_char]. now rewrite H.
Qed.

Lemma split_has_char (x sep : ascii) (s : string) :
  has_char x s = false ->
  Forall (fun l => has_char x l = false) (split s sep).
Proof.
  induction s as [|c s IH]; intros H; cbn [split].
  - constructor; [reflexivity|constructor].
  - cbn [has_char] in H. apply orb_false_elim in H. destruct H as [Hc Hs].
    specialize (IH Hs). destruct (Ascii.eqb c sep).
    + constructor; [reflexivity|exact IH].
    + destruct (split s sep) as [|h t].
      * constructor; [|constructor]. cbn [chr has_char]. now rewrite Hc.
      * inversion IH; subst. constructor; [|assumption].
        cbn [has_char]. now rewrite Hc.
Qed.

Lemma drop_blank_lines_all (P : string -> Prop) (l : list string) :
  Forall P l -> Forall P (DiffEditor.drop_blank_lines l).
Proof.
  induction 1 as [|x l Hx Hl IH]; cbn [DiffEditor.drop_blank_lines];
    [constructor|].
  destruct (truthy (strip x)); [constructor; assumption|exact IH].
Qed.

(** The sanitizer returns on a content that holds no backtick. *)
Lemma clean_file_content_ok (content filepath : string) :
  has_char "`" content = false ->
  exists cleaned, Builder.clean_file_content content filepath
                  = DiffEditor.Ok cleaned.
Proof.
  intros H. unfold Builder.clean_file_content.
  destruct (negb (truthy content)); [eexists; reflexivity|].
  destruct (mem _ Builder._MARKDOWN_EXTENSIONS); [eexists; reflexivity|].
  pose proof (drop_blank_lines_all _ _ (split_has_char "`" LF content H)) as Hl.
  destruct (DiffEditor.drop_blank_lines (split content LF)) as [|l rest].
  - eexists; reflexivity.
  - inversion Hl as [|? ? Hhead _]; subst.
    destruct (DiffEditor.is_fence l) eqn:E.
    + apply fence_has_backtick in E. congruence.
    + eexists; reflexivity.
Qed.

(** *** A response of the wire format *)

Ltac segments tac :=
  repeat (apply all_suff_cons; [rewrite ?append_assoc; tac|]);
  rewrite ?append_assoc; tac.

Section WireResponse.

Variables pf cf pe s1 r1 s2 r2 : string.
Hypothesis Hpf : wire_path pf = true.
Hypothesis Hpe : wire_path pe = true.
Hypothesis Hcf : all_chars text_char cf = true.
Hypothesis Hu1 : wire_unit s1 r1 = true.
Hypothesis Hu2 : wire_unit s2 r2 = true.

Lemma wire_path_text (p : string) :
  wire_path p = true -> all_chars text_char p = true.
Proof.
  apply all_chars_impl. intros a H. unfold path_text_char in H.
  now apply andb_prop in H.
Qed.

Lemma wire_path_quotes (p : string) :
  wire_path p = true -> all_chars (Re.none_of [DQ; SQ]) p = true.
Proof.
  apply all_chars_impl. intros a H. unfold path_text_char in H.
  now apply andb_prop in H.
Qed.

Lemma wire_unit_parts (s r : string) :
  wire_unit s r = true ->
  all_chars text_char s = true /\ all_chars text_char r = true
  /\ contains s (nl ++ "=") = false /\ contains r (nl ++ ">") = false
  /\ truthy (strip (DiffEditor.clean_code_block s)) = true.
Proof.
  unfold wire_unit. intros H.
  apply andb_prop in H. destruct H as [H H5].
  apply andb_prop in H. destruct H as [H H4].
  apply andb_prop in H. destruct H as [H H3].
  apply andb_prop in H. destruct H as [H1 H2].
  apply negb_true_iff in H3. apply negb_true_iff in H4. auto.
Qed.

Let units : string := sr_unit s1 r1 ++ nl ++ sr_unit s2 r2.

Lemma wire_no_backtick :
  has_char "`" (wire_response pf cf pe s1 r1 s2 r2) = false.
Proof.
  destruct (wire_unit_parts _ _ Hu1) as (Hs1 & Hr1 & _).
  destruct (wire_unit_parts _ _ Hu2) as (Hs2 & Hr2 & _).
  unfold wire_response, create_tag, edit_tag, sr_unit.
  rewrite !has_char_app.
  rewrite (text_no_backtick _ (wire_path_text _ Hpf)).
  rewrite (text_no_backtick _ (wire_path_text _ Hpe)).
  rewrite (text_no_backtick _ Hcf).
  rewrite (text_no_backtick _ Hs1), (text_no_backtick _ Hr1).
  rewrite (text_no_backtick _ Hs2), (text_no_backtick _ Hr2).
  reflexivity.
Qed.

Lemma wire_edit_pass :
  truthy pe = true ->
  exists m,
    Re.finditer Re.DOTALL DiffEditor.edit_pattern
      (wire_response pf cf pe s1 r1 s2 r2) = [m]
    /\ Re.group m 1 = Some pe /\ Re.group m 2 = Some units.
Proof.
  intros Ht.
  destruct (wire_unit_parts _ _ Hu1) as (Hs1 & Hr1 & _).
  destruct (wire_unit_parts _ _ Hu2) as (Hs2 & Hr2 & _).
  pose proof (wire_path_text _ Hpf) as Hpf'.
  unfold wire_response.
  rewrite <- (append_assoc (create_tag pf cf) nl).
  apply edit_pass.
  - unfold create_tag. rewrite !append_assoc.
    segments ltac:(first [reflexivity | now apply all_suff_first]).
  - exact Ht.
  - exact (wire_path_quotes _ Hpe).
  - reflexivity.
  - unfold units, sr_unit. rewrite !append_assoc.
    segments ltac:(first
      [ reflexivity
      | apply all_suff_quiet; [assumption|reflexivity]
      | apply all_suff_ws_before;
        [reflexivity|apply quiet_sym; [assumption|reflexivity]] ]).
  - reflexivity.
Qed.

Lemma wire_file_pass :
  truthy pf = true ->
  exists m,
    Re.finditer Re.DOTALL_IGNORECASE Builder.file_tag
      (wire_response pf cf pe s1 r1 s2 r2) = [m]
    /\ Re.group m 1 = Some pf /\ Re.group m 2 = Some (cf ++ nl).
Proof.
  intros Ht.
  destruct (wire_unit_parts _ _ Hu1) as (Hs1 & Hr1 & _).
  destruct (wire_unit_parts _ _ Hu2) as (Hs2 & Hr2 & _).
  pose proof (wire_path_text _ Hpe) as Hpe'.
  unfold wire_response.
  apply file_pass.
  - exact Ht.
  - exact (wire_path_quotes _ Hpf).
  - exact Hcf.
  - unfold edit_tag, sr_unit. rewrite !append_assoc.
    segments ltac:(first [reflexivity | now apply all_suff_first]).
Qed.

End WireResponse.

(** *** The pass over the file blocks *)

Lemma file_pattern_first (a : ascii) (rest : string) :
  Ascii.eqb LF a = false ->
  Re.run Re.DOTALL DiffEditor.file_pattern None (String a rest) [] false
    (at_end false)
  = Some (None, String a rest,
          [(1, ("" ++ String a rest, String a rest))], false).
Proof.
  intros Hne. unfold DiffEditor.file_pattern, Re.opt, Re.lazy_star.
  cbn [Re.run]. unfold Re.lit_matches. cbn [Re.ignorecase Re.DOTALL].
  rewrite Hne. cbn [Re.or_else String.length Re.star_loop].
  reflexivity.
Qed.

Lemma file_pattern_second (a : ascii) (rest : string) :
  Ascii.eqb LF a = false ->
  Re.run Re.DOTALL DiffEditor.file_pattern None (String a rest) [] false
    (at_end true)
  = Some (Some a, rest, [(1, (chr a ++ rest, rest))], true).
Proof.
  intros Hne. unfold DiffEditor.file_pattern, Re.opt, Re.lazy_star.
  cbn [Re.run]. unfold Re.lit_matches. cbn [Re.ignorecase Re.DOTALL].
  rewrite Hne.
  cbn [Re.or_else String.length Re.star_loop at_end andb negb orb Re.dotall].
  destruct (String.length rest);
    cbn [Re.star_loop Re.or_else at_end andb negb]; reflexivity.
Qed.

(** The pattern of the pass has one group; its first match is empty and its
    second holds the first character of the response, and for that match the
    pass asks for a second group. *)
Lemma format3_raises (a : ascii) (rest : string) (st : DiffEditor.pstate) :
  Ascii.eqb LF a = false ->
  truthy (DiffEditor._normalize_edit_path (chr a)) = true ->
  mem (DiffEditor._normalize_edit_path (chr a)) (snd st) = false ->
  DiffEditor.format3 (String a rest) st = DiffEditor.Raise DiffEditor.IndexError.
Proof.
  intros Hne Ht Hm. unfold DiffEditor.format3, Re.finditer.
  cbn [Re.finditer_from].
  rewrite (scan_here _ _ _ _ _ _
             (match_here_some _ _ _ _ _ _ _ _ _
                (file_pattern_first a rest Hne))).
  cbn [Re.m_prev_end Re.m_to Re.m_nonempty negb].
  rewrite (scan_here _ _ _ _ _ _
             (match_here_some _ _ _ _ _ _ _ _ _
                (file_pattern_second a rest Hne))).
  cbn [DiffEditor.for_each]. unfold DiffEditor.format3_body at 1.
  destruct st as [edits found]. cbn [snd] in Hm.
  unfold DiffEditor.group_of at 1.
  cbn [Nat.leb DiffEditor.file_pattern_groups DiffEditor.bind].
  rewrite group_first. cbn [DiffEditor.text_of].
  change (DiffEditor._normalize_edit_path "") with "".
  cbn [truthy negb orb DiffEditor.bind].
  unfold DiffEditor.format3_body at 1.
  unfold DiffEditor.group_of at 1.
  cbn [Nat.leb DiffEditor.file_pattern_groups DiffEditor.bind].
  rewrite group_first. cbn [DiffEditor.text_of].
  rewrite Ht, Hm. reflexivity.
Qed.

(** *** Characters of a normalized path *)

Lemma all_chars_app (p : ascii -> bool) (a b : string) :
  all_chars p (a ++ b) = all_chars p a && all_chars p b.
Proof.
  induction a as [|x a IH]; [reflexivity|].
  cbn [append all_chars]. now rewrite IH, andb_assoc.
Qed.

Lemma all_chars_replace_from (p : ascii -> bool) (old new : string) :
  all_chars p new = true ->
  forall s skip, all_chars p s = true ->
                 all_chars p (replace_from s old new skip) = true.
Proof.
  intros Hnew. induction s as [|c s IH]; intros skip Hs.
  - cbn [replace_from]. destruct old; [exact Hnew|reflexivity].
  - cbn [all_chars] in Hs. apply andb_prop in Hs. destruct Hs as [Hc Hs].
    cbn [replace_from]. destruct skip as [|k]; [|now apply IH].
    destruct old as [|o old].
    + rewrite all_chars_app. cbn [all_chars]. now rewrite Hnew, Hc, IH.
    + destruct (startswith (String c s) (String o old)).
      * rewrite all_chars_app. now rewrite Hnew, IH.
      * cbn [all_chars]. now rewrite Hc, IH.
Qed.

Lemma all_chars_drop (p : ascii -> bool) (n : nat) (s : string) :
  all_chars p s = true -> all_chars p (drop n s) = true.
Proof.
  revert s. induction n as [|n IH]; intros s Hs; destruct s as [|c s];
    cbn [drop]; try exact Hs.
  cbn [all_chars] in Hs. apply andb_prop in Hs. now apply IH.
Qed.

Lemma all_chars_collapse (p : ascii -> bool) (n : nat) (s : string) :
  p "/"%char = true ->
  all_chars p s = true ->
  all_chars p (DiffEditor.collapse_slashes n s) = true.
Proof.
  intros Hslash. revert s. induction n as [|n IH]; intros s Hs;
    cbn [DiffEditor.collapse_slashes]; [exact Hs|].
  destruct (contains s "//"); [|exact Hs].
  apply IH. unfold replace. apply all_chars_replace_from; [|exact Hs].
  cbn [all_chars]. now rewrite Hslash.
Qed.

Lemma all_chars_lstrip (p q : ascii -> bool) (s : string) :
  all_chars p s = true -> all_chars p (lstrip_by q s) = true.
Proof.
  induction s as [|c s IH]; intros Hs; cbn [lstrip_by]; [exact Hs|].
  destruct (q c); [|exact Hs].
  cbn [all_chars] in Hs. apply andb_prop in Hs. now apply IH.
Qed.

Lemma all_chars_rstrip (p q : ascii -> bool) (s : string) :
  all_chars p s = true -> all_chars p (rstrip_by q s) = true.
Proof.
  induction s as [|c s IH]; intros Hs; cbn [rstrip_by]; [exact Hs|].
  cbn [all_chars] in Hs. apply andb_prop in Hs. destruct Hs as [Hc Hs].
  specialize (IH Hs). destruct (rstrip_by q s) as [|b r].
  - destruct (q c); [reflexivity|]. cbn [chr all_chars]. now rewrite Hc.
  - cbn [all_chars] in *. now rewrite Hc, IH.
Qed.

Lemma normalize_edit_path_chars (p : ascii -> bool) (s : string) :
  p "/"%char = true ->
  all_chars p s = true ->
  all_chars p (DiffEditor._normalize_edit_path s) = true.
Proof.
  intros Hslash Hs. unfold DiffEditor._normalize_edit_path.
  destruct (negb (truthy s)); [exact Hs|].
  unfold strip, strip_by.
  apply all_chars_lstrip, all_chars_rstrip, all_chars_collapse;
    [exact Hslash|].
  assert (Hr : all_chars p (replace s (chr BSL) "/") = true).
  { unfold replace. apply all_chars_replace_from; [|exact Hs].
    cbn [all_chars]. now rewrite Hslash. }
  destruct (startswith (replace s (chr BSL) "/") "./");
    [now apply all_chars_drop|exact Hr].
Qed.

(** *** The two parsers on a response of the wire format *)

Section WireParsers.

Variables pf cf pe s1 r1 s2 r2 : string.
Hypothesis Hpf : wire_path pf = true.
Hypothesis Hnf : truthy (Builder.normalize_path (strip pf)) = true.
Hypothesis Hpe : wire_path pe = true.
Hypothesis Hne : truthy (DiffEditor._normalize_edit_path pe) = true.
Hypothesis Hcf : all_chars text_char cf = true.
Hypothesis Hu1 : wire_unit s1 r1 = true.
Hypothesis Hu2 : wire_unit s2 r2 = true.

(** The passes over the edit tags. *)
Lemma wire_edit_passes :
  DiffEditor.format2 (wire_response pf cf pe s1 r1 s2 r2)
    (DiffEditor.format1 (wire_response pf cf pe s1 r1 s2 r2) ([], []))
  = ([DiffEditor.search_replace (DiffEditor._normalize_edit_path pe)
        (DiffEditor.clean_code_block s1) (DiffEditor.clean_code_block r1);
      DiffEditor.search_replace (DiffEditor._normalize_edit_path pe)
        (DiffEditor.clean_code_block s2) (DiffEditor.clean_code_block r2)],
     [DiffEditor._normalize_edit_path pe]).
Proof.
  assert (Hte : truthy pe = true).
  { destruct pe; [discriminate|reflexivity]. }
  destruct (wire_unit_parts _ _ Hu1) as (Hs1 & Hr1 & Hc1 & Hd1 & Ht1).
  destruct (wire_unit_parts _ _ Hu2) as (Hs2 & Hr2 & Hc2 & Hd2 & Ht2).
  destruct (wire_edit_pass pf cf pe s1 r1 s2 r2 Hpf Hpe Hcf Hu1 Hu2 Hte)
    as (m & Hm & Hg1 & Hg2).
  unfold DiffEditor.format1. rewrite Hm.
  cbn [fold_left]. unfold DiffEditor.format1_body.
  rewrite Hg1, Hg2. cbn [DiffEditor.text_of].
  rewrite Hne. cbn [negb].
  rewrite (sr_pass s1 r1 s2 r2 Hc1 Hd1 Hc2 Hd2).
  unfold DiffEditor.sr_edits. cbn [flat_map fst snd].
  rewrite Ht1, Ht2. reflexivity.
Qed.

(** The parser of the create tags. *)
Lemma wire_create_pass :
  exists content,
    Builder.clean_file_content (cf ++ nl) (Builder.normalize_path (strip pf))
    = DiffEditor.Ok content
    /\ Builder.parse_files_from_response (wire_response pf cf pe s1 r1 s2 r2)
       = DiffEditor.Ok [(Builder.normalize_path (strip pf), content)].
Proof.
  assert (Htf : truthy pf = true).
  { destruct pf; [discriminate|reflexivity]. }
  assert (Hno : has_char "`" (cf ++ nl) = false).
  { rewrite has_char_app, (text_no_backtick _ Hcf). reflexivity. }
  destruct (clean_file_content_ok (cf ++ nl)
              (Builder.normalize_path (strip pf)) Hno) as [content Hc].
  exists content. split; [exact Hc|].
  destruct (wire_file_pass pf cf pe s1 r1 s2 r2 Hpf Hpe Hcf Hu1 Hu2 Htf)
    as (m & Hm & Hg1 & Hg2).
  pose proof (wire_no_backtick pf cf pe s1 r1 s2 r2 Hpf Hpe Hcf Hu1 Hu2) as Hb.
  unfold Builder.parse_files_from_response.
  assert (Htr : truthy (wire_response pf cf pe s1 r1 s2 r2) = true)
    by reflexivity.
  rewrite Htr, Hm. cbn [negb].
  rewrite (finditer_needs Re.DOTALL "`" Builder.heading_block _
             (lit_backtick _) eq_refl Hb).
  rewrite (finditer_needs Re.DOTALL "`" Builder.comment_block _
             (lit_backtick _) eq_refl Hb).
  rewrite (finditer_needs Re.DOTALL_IGNORECASE "`" Builder.label_block _
             (lit_backtick _) eq_refl Hb).
  cbn [DiffEditor.for_each]. rewrite Hg1, Hg2. cbn [DiffEditor.text_of].
  unfold Builder.take_file. rewrite Hnf. cbn [mem existsb negb andb].
  rewrite Hc. reflexivity.
Qed.

(** The edit parser as a whole: its pass over the file blocks raises, and
    the caller is left without the edits the first passes collected. *)
Lemma wire_parse_edit_blocks_raises :
  DiffEditor.parse_edit_blocks (wire_response pf cf pe s1 r1 s2 r2)
  = DiffEditor.Raise DiffEditor.IndexError
  /\ Builder.edit_blocks_of (wire_response pf cf pe s1 r1 s2 r2) = [].
Proof.
  assert (H : DiffEditor.parse_edit_blocks (wire_response pf cf pe s1 r1 s2 r2)
              = DiffEditor.Raise DiffEditor.IndexError).
  { unfold DiffEditor.parse_edit_blocks.
    assert (Htr : truthy (wire_response pf cf pe s1 r1 s2 r2) = true)
      by reflexivity.
    rewrite Htr. cbn [negb]. rewrite wire_edit_passes.
    assert (Hshape : exists rest,
              wire_response pf cf pe s1 r1 s2 r2 = String "<" rest)
      by (eexists; reflexivity).
    destruct Hshape as [rest ->].
    rewrite format3_raises; [reflexivity|reflexivity|reflexivity|].
    cbn [snd mem existsb]. rewrite orb_false_r.
    change (DiffEditor._normalize_edit_path (chr "<")) with "<".
    apply eqb_false. intros E.
    pose proof (normalize_edit_path_chars text_char pe eq_refl
                  (wire_path_text _ Hpe)) as Hall.
    rewrite <- E in Hall. discriminate. }
  split; [exact H|]. unfold Builder.edit_blocks_of. now rewrite H.
Qed.

End WireParsers.

(** C3 fails on every response of the wire format with one create tag
    followed by one edit tag of two units: [parse_edit_blocks] returns no
    list of operations, it raises [IndexError] in its pass over the file
    blocks; [process_response_files] catches the exception and goes on with
    an empty list of edits, so the two search/replace operations are lost,
    and the one operation left is the create that
    [parse_files_from_response] returns, with its normalized path and the
    content the sanitizer returns. *)
Theorem C3_parse_edit_blocks_raises_on_tags :
  forall pf cf pe s1 r1 s2 r2 : string,
    wire_path pf = true ->
    truthy (Builder.normalize_path (strip pf)) = true ->
    wire_path pe = true ->
    truthy (DiffEditor._normalize_edit_path pe) = true ->
    all_chars text_char cf = true ->
    wire_unit s1 r1 = true ->
    wire_unit s2 r2 = true ->
    let response := wire_response pf cf pe s1 r1 s2 r2 in
    DiffEditor.parse_edit_blocks response
    = DiffEditor.Raise DiffEditor.IndexError
    /\ Builder.edit_blocks_of response = []
    /\ exists content,
         Builder.clean_file_content (cf ++ nl)
           (Builder.normalize_path (strip pf)) = DiffEditor.Ok content
         /\ Builder.parse_files_from_response response
            = DiffEditor.Ok [(Builder.normalize_path (strip pf), content)].
Proof.
  intros pf cf pe s1 r1 s2 r2 Hpf Hnf Hpe Hne Hcf Hu1 Hu2 response.
  destruct (wire_parse_edit_blocks_raises pf cf pe s1 r1 s2 r2 Hpf Hpe Hne
              Hcf Hu1 Hu2) as [Hraise Hnone].
  split; [exact Hraise|]. split; [exact Hnone|].
  exact (wire_create_pass pf cf pe s1 r1 s2 r2 Hpf Hnf Hpe Hcf Hu1 Hu2).
Qed.

Example sample_is_wire :
  sample_response
  = wire_response "./src//new.py" "print(1)" (esc "src\\main.py")
      "a = 1" "a = 2" "b = 1" "b = 2".
Proof. reflexivity. Qed.

Lemma C3_parse_edit_blocks_witness :
  wire_path "./src//new.py" = true
  /\ truthy (Builder.normalize_path (strip "./src//new.py")) = true
  /\ wire_path (esc "src\\main.py") = true
  /\ truthy (DiffEditor._normalize_edit_path (esc "src\\main.py")) = true
  /\ all_chars text_char "print(1)" = true
  /\ wire_unit "a = 1" "a = 2" = true
  /\ wire_unit "b = 1" "b = 2" = true
  /\ DiffEditor.parse_edit_blocks sample_response
     = DiffEditor.Raise DiffEditor.IndexError
  /\ Builder.edit_blocks_of sample_response = []
  /\ exists content,
       Builder.clean_file_content (esc "print(1)\n") "src/new.py"
       = DiffEditor.Ok content
       /\ Builder.parse_files_from_response sample_response
          = DiffEditor.Ok [("src/new.py", content)].
Proof.
  assert (H1 : wire_path "./src//new.py" = true) by reflexivity.
  assert (H2 : truthy (Builder.normalize_path (strip "./src//new.py")) = true)
    by reflexivity.
  assert (H3 : wire_path (esc "src\\main.py") = true) by reflexivity.
  assert (H4 : truthy (DiffEditor._normalize_edit_path (esc "src\\main.py"))
               = true) by reflexivity.
  assert (H5 : all_chars text_char "print(1)" = true) by reflexivity.
  assert (H6 : wire_unit "a = 1" "a = 2" = true) by reflexivity.
  assert (H7 : wire_unit "b = 1" "b = 2" = true) by reflexivity.
  refine (conj H1 (conj H2 (conj H3 (conj H4 (conj H5 (conj H6 (conj H7 _))))))).
  exact (C3_parse_edit_blocks_raises_on_tags "./src//new.py" "print(1)"
           (esc "src\\main.py") "a = 1" "a = 2" "b = 1" "b = 2"
           H1 H2 H3 H4 H5 H6 H7).
Defined.

(** ** Lines, and stripping at both ends *)

Lemma join_split (s : string) : join nl (split s LF) = s.
Proof.
  induction s as [|c s IH]; [reflexivity|].
  cbn [split]. destruct (split_cons s LF) as (h & t & Hs).
  rewrite Hs in *. destruct (Ascii.eqb c LF) eqn:E.
  - apply Ascii.eqb_eq in E. subst c. rewrite join_cons, IH. reflexivity.
  - rewrite join_cons_char, IH. reflexivity.
Qed.

Lemma split_plain (x : string) :
  has_char LF x = false -> split x LF = [x].
Proof.
  induction x as [|c x IH]; [reflexivity|].
  cbn [has_char]. intros H. apply orb_false_elim in H. destruct H as [Hc Hx].
  cbn [split]. rewrite Ascii.eqb_sym, Hc, (IH Hx). reflexivity.
Qed.

Lemma split_app_sep (x z : string) :
  has_char LF x = false -> split (x ++ String LF z) LF = x :: split z LF.
Proof.
  induction x as [|c x IH]; intros H.
  - cbn [append split]. now rewrite Ascii.eqb_refl.
  - cbn [has_char] in H. apply orb_false_elim in H. destruct H as [Hc Hx].
    cbn [append split]. rewrite Ascii.eqb_sym, Hc, (IH Hx). reflexivity.
Qed.

Lemma split_lines_plain (s : string) :
  Forall (fun l => has_char LF l = false) (split s LF).
Proof.
  induction s as [|c s IH]; cbn [split].
  - constructor; [reflexivity|constructor].
  - destruct (Ascii.eqb c LF) eqn:E.
    + constructor; [reflexivity|exact IH].
    + destruct (split s LF) as [|h t].
      * constructor; [|constructor]. cbn [chr has_char].
        now rewrite Ascii.eqb_sym, E.
      * inversion IH; subst. constructor; [|assumption].
        cbn [has_char]. now rewrite Ascii.eqb_sym, E.
Qed.

(** Splitting what was joined gives the lines back. *)
Lemma split_join (l : list string) :
  l <> [] -> Forall (fun x => has_char LF x = false) l ->
  split (join nl l) LF = l.
Proof.
  induction l as [|x l IH]; intros Hne Hl; [contradiction|].
  inversion Hl as [|? ? Hx Hl']; subst. destruct l as [|y l].
  - cbn [join]. now apply split_plain.
  - rewrite join_cons. unfold nl, chr. cbn [append].
    rewrite (split_app_sep _ _ Hx). f_equal. apply IH; [discriminate|exact Hl'].
Qed.

Lemma lstrip_by_idem (p : ascii -> bool) (s : string) :
  lstrip_by p (lstrip_by p s) = lstrip_by p s.
Proof.
  induction s as [|c s IH]; [reflexivity|].
  cbn [lstrip_by]. destruct (p c) eqn:E; [exact IH|].
  cbn [lstrip_by]. now rewrite E.
Qed.

Lemma rstrip_by_app (p : ascii -> bool) (a b : string) :
  rstrip_by p (a ++ b)
  = match rstrip_by p b with
    | EmptyString => rstrip_by p a
    | r => a ++ r
    end.
Proof.
  induction a as [|c a IH].
  - cbn [append rstrip_by]. destruct (rstrip_by p b); reflexivity.
  - cbn [append rstrip_by]. rewrite IH.
    destruct (rstrip_by p b) as [|x r]; [reflexivity|].
    destruct a; reflexivity.
Qed.

Lemma rstrip_by_prefix (p : ascii -> bool) (s : string) :
  exists w, s = rstrip_by p s ++ w /\ all_chars p w = true.
Proof.
  induction s as [|c s IH].
  - exists "". split; reflexivity.
  - destruct IH as (w & Hw & Hp). cbn [rstrip_by].
    destruct (rstrip_by p s) as [|x r] eqn:E.
    + cbn [append] in Hw. subst w. destruct (p c) eqn:Hc.
      * exists (String c s). split; [reflexivity|].
        cbn [all_chars]. now rewrite Hc, Hp.
      * exists s. split; [reflexivity|exact Hp].
    + exists w. split; [|exact Hp]. rewrite Hw at 1. reflexivity.
Qed.

Lemma rstrip_by_cons (p : ascii -> bool) (c : ascii) (h : string) :
  rstrip_by p (String c h)
  = match rstrip_by p h with
    | EmptyString => if p c then EmptyString else chr c
    | r => String c r
    end.
Proof. reflexivity. Qed.

Lemma rstrip_by_idem (p : ascii -> bool) (s : string) :
  rstrip_by p (rstrip_by p s) = rstrip_by p s.
Proof.
  induction s as [|c s IH]; [reflexivity|].
  rewrite rstrip_by_cons. destruct (rstrip_by p s) as [|x r] eqn:E.
  - destruct (p c) eqn:Hc; [reflexivity|].
    unfold chr. rewrite rstrip_by_cons. cbn [rstrip_by]. now rewrite Hc.
  - rewrite rstrip_by_cons, IH. reflexivity.
Qed.

(** Stripping at the left leaves a text that is stripped at the right
    stripped at the right. *)
Lemma rstrip_lstrip_fixed (p : ascii -> bool) (s : string) :
  rstrip_by p s = s -> rstrip_by p (lstrip_by p s) = lstrip_by p s.
Proof.
  induction s as [|c s IH]; intros H; [reflexivity|].
  cbn [lstrip_by]. destruct (p c) eqn:Hc; [|exact H].
  apply IH. cbn [rstrip_by] in H. destruct (rstrip_by p s) as [|x r].
  - rewrite Hc in H. discriminate.
  - now inversion H.
Qed.

Lemma strip_by_fixed (p : ascii -> bool) (s : string) :
  lstrip_by p (strip_by p s) = strip_by p s
  /\ rstrip_by p (strip_by p s) = strip_by p s.
Proof.
  unfold strip_by. split; [apply lstrip_by_idem|].
  apply rstrip_lstrip_fixed, rstrip_by_idem.
Qed.

Lemma strip_by_idem (p : ascii -> bool) (s : string) :
  strip_by p (strip_by p s) = strip_by p s.
Proof.
  destruct (strip_by_fixed p s) as [Hl Hr].
  unfold strip_by at 1. now rewrite Hr, Hl.
Qed.

(** A stripped text followed by one stripped character strips back. *)
Lemma strip_by_snoc (p : ascii -> bool) (y : string) (c : ascii) :
  p c = true -> truthy y = true ->
  lstrip_by p y = y -> rstrip_by p y = y ->
  strip_by p (y ++ chr c) = y.
Proof.
  intros Hc Ht Hl Hr. unfold strip_by. rewrite rstrip_by_app.
  cbn [chr rstrip_by]. rewrite Hc, Hr. exact Hl.
Qed.

Lemma endswith_char_cons (a c : ascii) (s : string) :
  endswith (String a s) (chr c)
  = match s with
    | EmptyString => Ascii.eqb a c
    | String _ _ => endswith s (chr c)
    end.
Proof.
  unfold endswith. destruct s as [|b s].
  - cbn. now destruct (Ascii.eqb a c).
  - cbn [String.length chr Nat.leb Nat.sub andb drop].
    rewrite Nat.sub_0_r. reflexivity.
Qed.

(** A text stripped of [c] at the right does not end with [c]. *)
Lemma endswith_rstrip_fixed (c : ascii) (s : string) :
  rstrip_by (Ascii.eqb c) s = s -> endswith s (chr c) = false.
Proof.
  induction s as [|a s IH]; intros H; [reflexivity|].
  rewrite endswith_char_cons. cbn [rstrip_by] in H.
  destruct s as [|b s].
  - cbn [rstrip_by] in H. rewrite Ascii.eqb_sym.
    destruct (Ascii.eqb c a); [discriminate|reflexivity].
  - apply IH. destruct (rstrip_by (Ascii.eqb c) (String b s)) as [|x r].
    + destruct (Ascii.eqb c a); discriminate.
    + now inversion H.
Qed.

(** ** Python imports and the first check *)

Section PythonImports.

Import ProjectContext.

Lemma first_some_none {A B : Type} (f : A -> option B) (l : list A) (x : A) :
  first_some f l = None -> In x l -> f x = None.
Proof.
  induction l as [|y l IH]; intros H Hin; [contradiction|].
  cbn [first_some] in H. destruct (f y) eqn:E; [discriminate|].
  destruct Hin as [->|Hin]; [exact E|exact (IH H Hin)].
Qed.

Lemma one_in_down_from (n : nat) : 0 < n -> In 1 (down_from n).
Proof.
  intros H. unfold down_from. apply -> in_rev. apply in_seq. lia.
Qed.

Lemma split_nonempty (s : string) (sep : ascii) : 0 < List.length (split s sep).
Proof.
  destruct (split_cons s sep) as (h & t & ->). cbn [List.length]. lia.
Qed.

(** An import that the files of the project make local resolves: the last
    round of the resolver looks for the module, the package and the directory
    that the classification looked for. *)
Lemma local_python_import_resolves (files : dict FileInfo)
    (imp from_file : string) :
  _is_external_python imp = false ->
  startswith imp "." = false ->
  is_local_python_import imp files = true ->
  resolve_python_import imp from_file files <> None.
Proof.
  intros Hext Hdot Hloc Hres.
  unfold is_local_python_import in Hloc. rewrite Hext, Hdot in Hloc.
  unfold resolve_python_import in Hres.
  pose proof (first_some_none _ _ 1 Hres
                (one_in_down_from _ (split_nonempty imp "."))) as H1.
  cbn beta in H1.
  destruct (split_cons imp ".") as (h & t & Hs). rewrite Hs in *.
  cbn [firstn join nth] in *.
  destruct (dict_has (h ++ ".py") files); [discriminate|].
  destruct (dict_has (h ++ "/__init__.py") files); [discriminate|].
  rewrite Hloc in H1. discriminate.
Qed.

End PythonImports.

Section PythonMissingImports.

Import ProjectContext.

(** X1.  Among the issues of [validate_cross_references], a missing import
    of a Python file is always an import that starts with a dot: an import
    written with an absolute name is either foreign to the project, and not
    validated, or local by the files of the project, and then it resolves. *)
Theorem python_missing_import_is_relative :
  forall (files : dict FileInfo) (graph : dict (list string)),
    NoDup (map fst files) ->
    Forall
      (fun i =>
         forall imp,
           i_type i = "missing_import" ->
           i_import i = Some imp ->
           python_file files (i_file i) = true ->
           startswith imp "." = true)
      (validate_cross_references files graph).
Proof.
  intros files graph Hnd. unfold validate_cross_references.
  apply Forall_app. split; [|apply Forall_app; split].
  - apply missing_imports_all.
    intros fpath info imp Hin Himp Hext Hloc Hres imp' _ Heq Hpy.
    cbn [i_import i_file] in *. inversion Heq; subst imp'.
    unfold python_file in Hpy.
    rewrite (dict_get_in fpath info files Hnd Hin) in Hpy.
    apply String.eqb_eq in Hpy.
    unfold resolve_import in Hres.
    rewrite (dict_get_in fpath info files Hnd Hin) in Hres.
    rewrite Hpy in *. cbn [String.eqb] in Hres.
    unfold skipped_as_external in Hext. unfold is_local_import in Hloc.
    cbn in Hext, Hloc.
    destruct (startswith imp ".") eqn:Hdot; [reflexivity|].
    exfalso.
    exact (local_python_import_resolves files imp fpath Hext Hdot Hloc Hres).
  - eapply Forall_impl; [|apply orphan_files_all].
    intros i Ht imp Hm. rewrite Ht in Hm. discriminate.
  - eapply Forall_impl; [|apply duplicate_definitions_all].
    intros i Ht imp Hm. rewrite Ht in Hm. discriminate.
Qed.

End PythonMissingImports.

Lemma python_missing_import_witness :
  NoDup (map fst relative_import_files)
  /\ Forall
       (fun i =>
          forall imp,
            ProjectContext.i_type i = "missing_import" ->
            ProjectContext.i_import i = Some imp ->
            python_file relative_import_files (ProjectContext.i_file i) = true ->
            startswith imp "." = true)
       (ProjectContext.validate_cross_references relative_import_files
          (ProjectContext.build_dependency_graph relative_import_files)).
Proof.
  assert (H : NoDup (map fst relative_import_files)).
  { repeat constructor; cbn; intuition discriminate. }
  split; [exact H|].
  exact (python_missing_import_is_relative relative_import_files _ H).
Defined.

(** The relative import of the sample is the one import reported. *)
Example relative_import_reported :
  map ProjectContext.i_import
    (ProjectContext.missing_imports relative_import_files)
  = [Some ".models"].
Proof. vm_compute. reflexivity. Qed.

(** ** Sanitization that returns *)

(** No character of a text of the model is a byte-order mark. *)
Lemma lstrip_bom_plain (x : string) : Builder.lstrip_bom x = x.
Proof.
  unfold Builder.lstrip_bom. destruct x as [|c x]; [reflexivity|].
  cbn [lstrip_by]. unfold Builder.is_bom.
  pose proof (N_ascii_bounded c) as Hc.
  destruct (N.eqb_spec (N_of_ascii c) 65279) as [E|E]; [lia|reflexivity].
Qed.

Lemma finish_content_spec (x : string) :
  Builder.finish_content x
  = if truthy (strip_by (Ascii.eqb LF) x)
    then strip_by (Ascii.eqb LF) x ++ nl else "".
Proof.
  unfold Builder.finish_content. rewrite lstrip_bom_plain.
  destruct (strip_by_fixed (Ascii.eqb LF) x) as [_ Hr].
  destruct (strip_by (Ascii.eqb LF) x) as [|a y] eqn:E; [reflexivity|].
  unfold nl. rewrite (endswith_rstrip_fixed LF _ Hr). reflexivity.
Qed.

Lemma finish_content_idem (x : string) :
  Builder.finish_content (Builder.finish_content x) = Builder.finish_content x.
Proof.
  rewrite (finish_content_spec x).
  destruct (strip_by_fixed (Ascii.eqb LF) x) as [Hl Hr].
  destruct (truthy (strip_by (Ascii.eqb LF) x)) eqn:E; [|reflexivity].
  rewrite finish_content_spec. unfold nl.
  rewrite (strip_by_snoc _ _ LF (Ascii.eqb_refl LF) E Hl Hr).
  now rewrite E.
Qed.

Lemma drop_blank_lines_head (lines : list string) (l : string)
    (rest : list string) :
  DiffEditor.drop_blank_lines lines = l :: rest -> truthy (strip l) = true.
Proof.
  induction lines as [|x lines IH]; cbn [DiffEditor.drop_blank_lines];
    [discriminate|].
  destruct (truthy (strip x)) eqn:E; [|exact IH].
  intros H. inversion H; subst. exact E.
Qed.

Lemma truthy_strip_nonempty (l : string) :
  truthy (strip l) = true -> truthy l = true.
Proof. destruct l; [discriminate|reflexivity]. Qed.

Lemma rstrip_by_plain (c : ascii) (l : string) :
  has_char c l = false -> rstrip_by (Ascii.eqb c) l = l.
Proof.
  induction l as [|a l IH]; [reflexivity|].
  cbn [has_char]. intros H. apply orb_false_elim in H. destruct H as [Ha Hl].
  rewrite rstrip_by_cons, (IH Hl). destruct l; [now rewrite Ha|reflexivity].
Qed.

Lemma rstrip_by_head (p : ascii -> bool) (a : ascii) (t : string) :
  rstrip_by p (String a t) = "" \/ exists r, rstrip_by p (String a t) = String a r.
Proof.
  rewrite rstrip_by_cons. destruct (rstrip_by p t) as [|x r].
  - destruct (p a); [left; reflexivity|right; exists ""; reflexivity].
  - right. exists (String x r). reflexivity.
Qed.

(** The text made of the lines [l :: rest], cleaned at both ends and closed
    by a newline, still begins with the line [l]. *)
Lemma finish_content_first_line (l : string) (rest : list string) :
  truthy l = true -> has_char LF l = false ->
  exists w, Builder.finish_content (join nl (l :: rest)) = l ++ String LF w.
Proof.
  intros Ht Hl. rewrite finish_content_spec.
  assert (Hx : exists t, join nl (l :: rest) = l ++ t
                         /\ (t = "" \/ exists t', t = String LF t')).
  { destruct rest as [|y rest].
    - exists "". split; [cbn [join]; now rewrite append_nil_r|now left].
    - exists (nl ++ join nl (y :: rest)). split; [apply join_cons|].
      right. eexists. reflexivity. }
  destruct Hx as (t & Hx & Hshape). rewrite Hx.
  assert (Hr : exists t', rstrip_by (Ascii.eqb LF) (l ++ t) = l ++ t'
                          /\ (t' = "" \/ exists t'', t' = String LF t'')).
  { rewrite rstrip_by_app. destruct Hshape as [->|(t' & ->)].
    - cbn [rstrip_by]. rewrite (rstrip_by_plain LF l Hl).
      exists "". split; [now rewrite append_nil_r|now left].
    - destruct (rstrip_by_head (Ascii.eqb LF) LF t') as [E|(r & E)];
        rewrite E.
      + rewrite (rstrip_by_plain LF l Hl).
        exists "". split; [now rewrite append_nil_r|now left].
      + exists (String LF r). split; [reflexivity|]. right. now exists r. }
  destruct Hr as (t' & Hr & Hshape').
  unfold strip_by. rewrite Hr.
  destruct l as [|a l]; [discriminate|].
  cbn [has_char] in Hl. apply orb_false_elim in Hl. destruct Hl as [Ha _].
  cbn [append lstrip_by]. rewrite Ha. cbn [truthy].
  destruct Hshape' as [->|(t'' & ->)].
  - exists "". rewrite append_nil_r. reflexivity.
  - exists (t'' ++ nl). change (String a l ++ String LF (t'' ++ nl))
      with (String a (l ++ String LF (t'' ++ nl))).
    change (String a (l ++ String LF t'') ++ nl)
      with (String a ((l ++ String LF t'') ++ nl)).
    now rewrite append_assoc.
Qed.

(** X2.  On the texts of the model, whose code points are below 256 and
    which therefore hold no byte-order mark, sanitization is idempotent
    whenever it returns: a content that [clean_file_content] returns for a
    path is returned unchanged when it is given back with the same path. *)
Theorem clean_file_content_idempotent_on_results :
  forall content filepath cleaned : string,
    Builder.clean_file_content content filepath = DiffEditor.Ok cleaned ->
    Builder.clean_file_content cleaned filepath = DiffEditor.Ok cleaned.
Proof.
  intros content filepath cleaned H.
  unfold Builder.clean_file_content in H.
  destruct (negb (truthy content)) eqn:Hc.
  { inversion H; subst. unfold Builder.clean_file_content. now rewrite Hc. }
  assert (Hfinish : forall x,
            cleaned = Builder.finish_content x ->
            mem (lower (Fs.suffix filepath)) Builder._MARKDOWN_EXTENSIONS = true ->
            Builder.clean_file_content cleaned filepath = DiffEditor.Ok cleaned).
  { intros x -> Hmd. unfold Builder.clean_file_content. rewrite Hmd.
    rewrite finish_content_idem.
    destruct (negb (truthy (Builder.finish_content x))); reflexivity. }
  destruct (mem (lower (Fs.suffix filepath)) Builder._MARKDOWN_EXTENSIONS)
    eqn:Hmd.
  { inversion H; subst. now apply (Hfinish content). }
  pose proof (drop_blank_lines_all _ _ (split_lines_plain content)) as Hplain.
  destruct (DiffEditor.drop_blank_lines (split content LF)) as [|l rest] eqn:El.
  { cbn [DiffEditor.bind] in H. inversion H; subst. reflexivity. }
  destruct (DiffEditor.is_fence l) eqn:Ef.
  { cbn in H. discriminate. }
  assert (Hcl : cleaned = Builder.finish_content (join nl (l :: rest)))
    by (cbn [DiffEditor.bind] in H; congruence).
  clear H. subst cleaned.
  pose proof (drop_blank_lines_head _ _ _ El) as Hl.
  inversion Hplain as [|? ? Hl' _]; subst.
  destruct (finish_content_first_line l rest (truthy_strip_nonempty l Hl) Hl')
    as (w & Hw).
  unfold Builder.clean_file_content. rewrite Hmd.
  assert (Ht : truthy (Builder.finish_content (join nl (l :: rest))) = true).
  { rewrite Hw. destruct l; [discriminate|reflexivity]. }
  rewrite Ht. cbn [negb].
  assert (Hsplit : DiffEditor.drop_blank_lines
                     (split (Builder.finish_content (join nl (l :: rest))) LF)
                   = l :: split w LF).
  { rewrite Hw, (split_app_sep _ _ Hl').
    cbn [DiffEditor.drop_blank_lines]. now rewrite Hl. }
  rewrite Hsplit. rewrite Ef. cbn [DiffEditor.bind].
  rewrite <- (split_app_sep _ _ Hl'), <- Hw, join_split.
  now rewrite finish_content_idem.
Qed.

Lemma clean_file_content_idempotent_witness :
  Builder.clean_file_content (esc "\n\nx = 1  \n\n\n") "app.py"
  = DiffEditor.Ok (esc "x = 1  \n")
  /\ Builder.clean_file_content (esc "x = 1  \n") "app.py"
     = DiffEditor.Ok (esc "x = 1  \n").
Proof.
  assert (H : Builder.clean_file_content (esc "\n\nx = 1  \n\n\n") "app.py"
              = DiffEditor.Ok (esc "x = 1  \n")) by reflexivity.
  split; [exact H|].
  exact (clean_file_content_idempotent_on_results _ _ _ H).
Defined.

(** ** Code blocks without a fence *)

Lemma drop_blank_lines_idem (lines : list string) :
  DiffEditor.drop_blank_lines (DiffEditor.drop_blank_lines lines)
  = DiffEditor.drop_blank_lines lines.
Proof.
  induction lines as [|x lines IH]; [reflexivity|].
  cbn [DiffEditor.drop_blank_lines]. destruct (truthy (strip x)) eqn:E;
    [|exact IH].
  cbn [DiffEditor.drop_blank_lines]. now rewrite E.
Qed.

Lemma pop_fences_none (lines : list string) :
  Forall (fun l => DiffEditor.is_fence l = false) lines ->
  DiffEditor.pop_fences lines = lines.
Proof.
  induction 1 as [|x lines Hx Hl IH]; [reflexivity|].
  cbn [DiffEditor.pop_fences]. rewrite IH. destruct lines; [now rewrite Hx|reflexivity].
Qed.

Lemma no_backtick_no_fence (l : string) :
  has_char "`" l = false -> DiffEditor.is_fence l = false.
Proof.
  intros H. destruct (DiffEditor.is_fence l) eqn:E; [|reflexivity].
  apply fence_has_backtick in E. congruence.
Qed.

(** The block of a text without a backtick: its lines from the first line
    that is not blank. *)
Lemma clean_code_block_plain (text : string) :
  truthy text = true -> has_char "`" text = false ->
  DiffEditor.clean_code_block text
  = join nl (DiffEditor.drop_blank_lines (split text LF)).
Proof.
  intros Ht Hb. unfold DiffEditor.clean_code_block. rewrite Ht. cbn [negb].
  pose proof (drop_blank_lines_all _ _ (split_has_char "`" LF text Hb)) as Hl.
  assert (Hf : Forall (fun l => DiffEditor.is_fence l = false)
                 (DiffEditor.drop_blank_lines (split text LF))).
  { eapply Forall_impl; [|exact Hl]. apply no_backtick_no_fence. }
  destruct (DiffEditor.drop_blank_lines (split text LF)) as [|l rest] eqn:E.
  - reflexivity.
  - inversion Hf as [|? ? Hfl _]; subst. rewrite Hfl.
    now rewrite (pop_fences_none _ Hf).
Qed.

Lemma join_has_char (x : ascii) (l : list string) :
  Ascii.eqb x LF = false ->
  Forall (fun s => has_char x s = false) l -> has_char x (join nl l) = false.
Proof.
  intros Hx. induction 1 as [|s l Hs Hl IH]; [reflexivity|].
  destruct l as [|y l]; [exact Hs|].
  rewrite join_cons, !has_char_app, Hs, IH. cbn [nl chr has_char].
  now rewrite Hx.
Qed.

(** X3.  On a text without a backtick [clean_code_block] is idempotent:
    cleaning the block a second time changes nothing. *)
Theorem clean_code_block_idempotent_without_fence :
  forall text : string,
    has_char "`" text = false ->
    DiffEditor.clean_code_block (DiffEditor.clean_code_block text)
    = DiffEditor.clean_code_block text.
Proof.
  intros text Hb. destruct (truthy text) eqn:Ht.
  2:{ destruct text; [reflexivity|discriminate]. }
  rewrite (clean_code_block_plain text Ht Hb).
  pose proof (drop_blank_lines_all _ _ (split_has_char "`" LF text Hb)) as Hl.
  pose proof (drop_blank_lines_all _ _ (split_lines_plain text)) as Hp.
  pose proof (drop_blank_lines_idem (split text LF)) as Hi.
  destruct (DiffEditor.drop_blank_lines (split text LF)) as [|l rest] eqn:E;
    [reflexivity|].
  destruct (truthy (join nl (l :: rest))) eqn:Hj.
  2:{ destruct (join nl (l :: rest)); [reflexivity|discriminate]. }
  rewrite (clean_code_block_plain _ Hj
             (join_has_char "`" _ eq_refl Hl)).
  rewrite (split_join (l :: rest)); [|discriminate|exact Hp].
  now rewrite Hi.
Qed.

Lemma clean_code_block_idempotent_witness :
  has_char "`" (esc "\n  \nx = 1\n\ny = 2\n") = false
  /\ DiffEditor.clean_code_block
       (DiffEditor.clean_code_block (esc "\n  \nx = 1\n\ny = 2\n"))
     = DiffEditor.clean_code_block (esc "\n  \nx = 1\n\ny = 2\n").
Proof.
  assert (H : has_char "`" (esc "\n  \nx = 1\n\ny = 2\n") = false)
    by reflexivity.
  split; [exact H|].
  exact (clean_code_block_idempotent_without_fence _ H).
Defined.

(** ** Normalized paths *)

Lemma replace_char_gone (c : ascii) (new s : string) :
  has_char c new = false ->
  forall skip, has_char c (replace_from s (chr c) new skip) = false.
Proof.
  intros Hnew. unfold chr. induction s as [|a s IH]; intros skip.
  - reflexivity.
  - cbn [replace_from]. destruct skip as [|k]; [|apply IH].
    cbn [startswith String.length Nat.sub].
    replace (startswith s "") with true by (destruct s; reflexivity).
    destruct (Ascii.eqb c a) eqn:E; cbn [andb].
    + rewrite has_char_app, Hnew. apply (IH 0).
    + cbn [has_char]. rewrite E. apply (IH 0).
Qed.

Lemma has_char_replace_from (c : ascii) (old new : string) :
  has_char c new = false ->
  forall s skip, has_char c s = false ->
                 has_char c (replace_from s old new skip) = false.
Proof.
  intros Hnew. induction s as [|a s IH]; intros skip Hs.
  - cbn [replace_from]. destruct old; [exact Hnew|reflexivity].
  - cbn [has_char] in Hs. apply orb_false_elim in Hs. destruct Hs as [Ha Hs].
    cbn [replace_from]. destruct skip as [|k]; [|now apply IH].
    destruct old as [|o old].
    + rewrite has_char_app, Hnew. cbn [has_char]. now rewrite Ha, IH.
    + destruct (startswith (String a s) (String o old)).
      * rewrite has_char_app, Hnew. now rewrite IH.
      * cbn [has_char]. now rewrite Ha, IH.
Qed.

Lemma has_char_drop (c : ascii) (n : nat) (s : string) :
  has_char c s = false -> has_char c (drop n s) = false.
Proof.
  revert s. induction n as [|n IH]; intros s Hs; destruct s as [|a s];
    cbn [drop]; try exact Hs.
  cbn [has_char] in Hs. apply orb_false_elim in Hs. now apply IH.
Qed.

Lemma has_char_collapse (c : ascii) (n : nat) (s : string) :
  Ascii.eqb c "/" = false ->
  has_char c s = false ->
  has_char c (DiffEditor.collapse_slashes n s) = false.
Proof.
  intros Hc. revert s. induction n as [|n IH]; intros s Hs;
    cbn [DiffEditor.collapse_slashes]; [exact Hs|].
  destruct (contains s "//"); [|exact Hs].
  apply IH. unfold replace. apply has_char_replace_from; [|exact Hs].
  cbn [has_char]. now rewrite Hc.
Qed.

Lemma has_char_none_lstrip (c : ascii) (p : ascii -> bool) (s : string) :
  has_char c s = false -> has_char c (lstrip_by p s) = false.
Proof.
  intros H. destruct (has_char c (lstrip_by p s)) eqn:E; [|reflexivity].
  apply has_char_lstrip in E. congruence.
Qed.

Lemma has_char_none_rstrip (c : ascii) (p : ascii -> bool) (s : string) :
  has_char c s = false -> has_char c (rstrip_by p s) = false.
Proof.
  intros H. destruct (has_char c (rstrip_by p s)) eqn:E; [|reflexivity].
  apply has_char_rstrip in E. congruence.
Qed.

(** One round of the loop that collapses doubled slashes shortens the
    text. *)
Lemma replace_slashes_length (s : string) (skip : nat) :
  skip <= 1 ->
  String.length (replace_from s "//" "/" skip) <= String.length s - skip.
Proof.
  revert skip. induction s as [|a s IH]; intros skip Hk.
  - cbn. lia.
  - cbn [replace_from]. destruct skip as [|k].
    + destruct (startswith (String a s) "//") eqn:E.
      * cbn [String.length Nat.sub append].
        destruct s as [|b s]; [cbn in E; rewrite andb_false_r in E; discriminate|].
        specialize (IH 1 (le_n 1)). cbn [String.length] in *. lia.
      * specialize (IH 0 (Nat.le_0_l 1)). cbn [String.length]. lia.
    + assert (k = 0) by lia. subst k. specialize (IH 0 (Nat.le_0_l 1)).
      cbn [String.length]. lia.
Qed.

Lemma replace_slashes_shorter (s : string) :
  contains s "//" = true ->
  String.length (replace s "//" "/") < String.length s.
Proof.
  unfold replace, contains. induction s as [|a s IH]; rewrite find_unfold.
  - cbn. discriminate.
  - intros H. cbn [replace_from].
    destruct (startswith (String a s) "//") eqn:E.
    + cbn [String.length Nat.sub append].
      destruct s as [|b s]; [cbn in E; rewrite andb_false_r in E; discriminate|].
      pose proof (replace_slashes_length (String b s) 1 (le_n 1)) as L.
      cbn [String.length] in *. lia.
    + destruct (find s "//") eqn:F; [|discriminate].
      specialize (IH eq_refl). cbn [String.length]. lia.
Qed.

(** The loop is given enough rounds: no doubled slash is left. *)
Lemma collapse_slashes_done (n : nat) (s : string) :
  String.length s <= n ->
  contains (DiffEditor.collapse_slashes n s) "//" = false.
Proof.
  revert s. induction n as [|n IH]; intros s Hn.
  - destruct s; [reflexivity|cbn [String.length] in Hn; lia].
  - cbn [DiffEditor.collapse_slashes].
    destruct (contains s "//") eqn:E; [|exact E].
    apply IH. pose proof (replace_slashes_shorter s E). lia.
Qed.

Lemma contains_app_l (x w sub : string) :
  contains x sub = true -> contains (x ++ w) sub = true.
Proof.
  intros H. destruct (contains_split x sub H) as (a & b & ->).
  rewrite !append_assoc. apply contains_later. apply contains_here.
Qed.

Lemma lstrip_by_suffix (p : ascii -> bool) (s : string) :
  exists w, s = w ++ lstrip_by p s.
Proof.
  induction s as [|a s IH]; [exists ""; reflexivity|].
  cbn [lstrip_by]. destruct (p a); [|exists ""; reflexivity].
  destruct IH as (w & Hw). exists (String a w). cbn [append]. now rewrite <- Hw.
Qed.

Lemma contains_none_rstrip (p : ascii -> bool) (s sub : string) :
  contains s sub = false -> contains (rstrip_by p s) sub = false.
Proof.
  intros H. destruct (contains (rstrip_by p s) sub) eqn:E; [|reflexivity].
  destruct (rstrip_by_prefix p s) as (w & Hw & _).
  apply (contains_app_l _ w) in E. rewrite <- Hw in E. congruence.
Qed.

Lemma contains_none_lstrip (p : ascii -> bool) (s sub : string) :
  contains s sub = false -> contains (lstrip_by p s) sub = false.
Proof.
  intros H. destruct (contains (lstrip_by p s) sub) eqn:E; [|reflexivity].
  destruct (lstrip_by_suffix p s) as (w & Hw).
  apply (contains_later w) in E. rewrite <- Hw in E. congruence.
Qed.

(** X4.  What the two path normalizers return holds no backslash and no
    doubled slash; [normalize_path] ends with no slash, and
    [_normalize_edit_path] has no white space at either end. *)
Theorem normalized_paths_are_clean :
  forall filepath : string,
    (has_char BSL (Builder.normalize_path filepath) = false
     /\ contains (Builder.normalize_path filepath) "//" = false
     /\ endswith (Builder.normalize_path filepath) "/" = false)
    /\ (has_char BSL (DiffEditor._normalize_edit_path filepath) = false
        /\ contains (DiffEditor._normalize_edit_path filepath) "//" = false
        /\ strip (DiffEditor._normalize_edit_path filepath)
           = DiffEditor._normalize_edit_path filepath).
Proof.
  intros filepath.
  unfold Builder.normalize_path, DiffEditor._normalize_edit_path.
  destruct filepath as [|a s]; [repeat split; reflexivity|].
  cbn [truthy negb].
  set (r := replace (String a s) (chr BSL) "/").
  assert (Hr : has_char BSL r = false)
    by (apply replace_char_gone; reflexivity).
  set (u := if startswith r "./" then drop 2 r else r).
  assert (Hu : has_char BSL u = false).
  { unfold u. destruct (startswith r "./"); [now apply has_char_drop|exact Hr]. }
  pose proof (has_char_collapse BSL (String.length u) u eq_refl Hu) as Hc.
  pose proof (collapse_slashes_done (String.length u) u (le_n _)) as Hd.
  split; split; [|split| |split].
  - now apply has_char_none_rstrip.
  - now apply contains_none_rstrip.
  - apply (endswith_rstrip_fixed "/"). apply rstrip_by_idem.
  - unfold strip, strip_by.
    now apply has_char_none_lstrip, has_char_none_rstrip.
  - unfold strip, strip_by.
    now apply contains_none_lstrip, contains_none_rstrip.
  - apply strip_by_idem.
Qed.

Example normalize_path_not_idempotent :
  Builder.normalize_path "././a" = "./a"
  /\ Builder.normalize_path "./a" = "a".
Proof. split; reflexivity. Qed.

(** ** The patcher on a single occurrence *)

Lemma find_take_drop (s sub : string) (i : nat) :
  find s sub = Some i ->
  s = take i s ++ sub ++ drop (i + String.length sub) s
  /\ String.length (take i s) = i.
Proof.
  revert i. induction s as [|c s IH]; intros i; rewrite find_unfold.
  - destruct (startswith "" sub) eqn:E; [|discriminate].
    intros H. inversion H; subst. split; [|reflexivity].
    exact (startswith_split "" sub E).
  - destruct (startswith (String c s) sub) eqn:E.
    + intros H. inversion H; subst. split; [|reflexivity].
      exact (startswith_split _ sub E).
    + destruct (find s sub) as [j|] eqn:F; [|discriminate].
      intros H. inversion H; subst. destruct (IH j eq_refl) as [Hs Hl].
      cbn [take drop Nat.add append String.length]. split; [|now rewrite Hl].
      now rewrite <- Hs.
Qed.

(** X5.  When the search text is not empty and is counted once in the
    content, [apply_search_replace] replaces its leftmost occurrence and
    leaves the text before and after it as it was. *)
Theorem apply_search_replace_single_occurrence :
  forall content search replace : string,
    truthy search = true ->
    count content search = 1 ->
    exists before after,
      content = before ++ search ++ after
      /\ find content search = Some (String.length before)
      /\ DiffEditor.apply_search_replace content search replace
         = Some (before ++ replace ++ after).
Proof.
  intros content search replace Hs Hc.
  assert (Hin : contains content search = true).
  { apply (count_from_contains content search 0). unfold count in Hc. lia. }
  assert (Ht : truthy content = true).
  { destruct content; [|reflexivity]. destruct search; discriminate. }
  unfold contains in Hin. destruct (find content search) as [i|] eqn:F;
    [|discriminate].
  destruct (find_take_drop content search i F) as [Hsplit Hlen].
  exists (take i content), (drop (i + String.length search) content).
  split; [exact Hsplit|]. split; [now rewrite Hlen|].
  unfold DiffEditor.apply_search_replace. rewrite Ht, Hs. cbn [negb orb].
  unfold contains. rewrite F, Hc. cbn [Nat.eqb andb].
  unfold replace_first. now rewrite F.
Qed.

Lemma apply_search_replace_single_witness :
  truthy "x = 1" = true
  /\ count (esc "a\nx = 1\nb") "x = 1" = 1
  /\ exists before after,
       esc "a\nx = 1\nb" = before ++ "x = 1" ++ after
       /\ find (esc "a\nx = 1\nb") "x = 1" = Some (String.length before)
       /\ DiffEditor.apply_search_replace (esc "a\nx = 1\nb") "x = 1" "x = 2"
          = Some (before ++ "x = 2" ++ after).
Proof.
  assert (H1 : truthy "x = 1" = true) by reflexivity.
  assert (H2 : count (esc "a\nx = 1\nb") "x = 1" = 1) by reflexivity.
  refine (conj H1 (conj H2 _)).
  exact (apply_search_replace_single_occurrence _ _ "x = 2" H1 H2).
Defined.

(** ** The loop that applies the edits *)

Section ApplyEdits.

Import DiffEditor.

Variable base_dir : Fs.path.
Variable auto_apply : bool.
Variable answer : string -> string.






End ApplyEdits.


(** An edit of a file and an edit whose path is the directory [src]: the
    first is applied, the second ends the call. *)
Example apply_edits_on_a_directory :
  let st :=
    DiffEditor.apply_edits
      [DiffEditor.search_replace "src/main.py" "a = 1" "a = 2";
       DiffEditor.full_replace "src" "x";
       DiffEditor.full_replace "notes.txt" "never reached"]
      proj (disk_with [(["proj"; "src"; "main.py"], esc "a = 1\n")]) [] true
      (fun _ => "") in
  DiffEditor.a_raised st = Some DiffEditor.IsADirectoryError
  /\ DiffEditor.a_results st = [("src/main.py", true)]
  /\ Fs.read_text (DiffEditor.a_disk st) ["proj"; "src"; "main.py"]
     = Some (esc "a = 2\n")
  /\ Fs.read_text (DiffEditor.a_disk st) ["proj"; "notes.txt"] = None.
Proof. vm_compute. repeat split. Qed.

Section NoConsent.

Import DiffEditor.

Variable base_dir : Fs.path.
Variable answer : string -> string.
Hypothesis Hno : forall p, mem (lower (strip (answer p))) ["y"; "yes"] = false.

Ltac no_write :=
  destruct (if String.eqb (e_type _) "search_replace" then _ else _)
    as [new|]; [|split; reflexivity];
  match goal with
  | |- context [truthy ?old && String.eqb (strip ?old) (strip new)] =>
      destruct (truthy old && String.eqb (strip old) (strip new));
      [split; reflexivity|]
  end;
  rewrite Hno; split; reflexivity.

Lemma apply_edit_declined (st : astate) (e : edit) :
  a_disk (apply_edit base_dir false answer st e) = a_disk st
  /\ a_created (apply_edit base_dir false answer st e) = a_created st.
Proof.
  unfold apply_edit.
  destruct (negb (truthy (e_path e))); [split; reflexivity|].
  destruct (_read_file_content _ _ _ _) as [[old|]|x];
    [|split; reflexivity|split; reflexivity].
  no_write.
Qed.

Lemma apply_edits_declined_from (edits : list edit) (st : astate) :
  a_disk (fold_left (apply_edit_unless_raised base_dir false answer) edits st)
  = a_disk st
  /\ a_created
       (fold_left (apply_edit_unless_raised base_dir false answer) edits st)
     = a_created st.
Proof.
  revert st. induction edits as [|e edits IH]; intros st; cbn [fold_left].
  - split; reflexivity.
  - destruct (IH (apply_edit_unless_raised base_dir false answer st e))
      as [-> ->].
    unfold apply_edit_unless_raised.
    destruct (a_raised st); [split; reflexivity|apply apply_edit_declined].
Qed.

End NoConsent.

(** X7.  Without [auto_apply], and with a user who never answers [y] or
    [yes], [apply_edits] writes nothing: the disk and the dictionary of
    created files are as they were. *)
Theorem apply_edits_needs_consent :
  forall (edits : list DiffEditor.edit) (base_dir : Fs.path) (d : Fs.disk)
         (created_files : DiffEditor.created) (answer : string -> string),
    (forall p, mem (lower (strip (answer p))) ["y"; "yes"] = false) ->
    DiffEditor.a_disk
      (DiffEditor.apply_edits edits base_dir d created_files false answer) = d
    /\ DiffEditor.a_created
         (DiffEditor.apply_edits edits base_dir d created_files false answer)
       = created_files.
Proof.
  intros edits base_dir d created_files answer Hno.
  unfold DiffEditor.apply_edits.
  exact (apply_edits_declined_from base_dir answer Hno edits
           (DiffEditor.AState d created_files [] None)).
Qed.

Lemma apply_edits_needs_consent_witness :
  (forall p : string, mem (lower (strip ((fun _ => " No ") p))) ["y"; "yes"]
                      = false)
  /\ DiffEditor.a_disk
       (DiffEditor.apply_edits [passwd_edit] proj passwd_disk [] false
          (fun _ => " No ")) = passwd_disk
  /\ DiffEditor.a_created
       (DiffEditor.apply_edits [passwd_edit] proj passwd_disk [] false
          (fun _ => " No ")) = [].
Proof.
  assert (H : forall p : string,
            mem (lower (strip ((fun _ => " No ") p))) ["y"; "yes"] = false)
    by (intros p; reflexivity).
  split; [exact H|].
  exact (apply_edits_needs_consent [passwd_edit] proj passwd_disk []
           (fun _ => " No ") H).
Defined.

(** ** Responses without a tag *)

Lemma lit_lt_only (fl : Re.flags) (b : ascii) :
  Re.lit_matches fl "<" b = true -> b = "<"%char.
Proof.
  intros H. destruct (Ascii.eqb b "<") eqn:E; [now apply Ascii.eqb_eq|].
  rewrite (lit_lt fl b E) in H. discriminate.
Qed.

Lemma normalize_edit_path_char (a : ascii) :
  isspace a = false ->
  exists x, DiffEditor._normalize_edit_path (chr a) = chr x
            /\ isspace x = false.
Proof.
  intros Ha.
  assert (Hone : forall x, isspace x = false ->
            strip (DiffEditor.collapse_slashes
                     (String.length
                        (if startswith (String x "") "./"
                         then drop 2 (String x "") else String x ""))
                     (if startswith (String x "") "./"
                      then drop 2 (String x "") else String x ""))
            = chr x).
  { intros x Hx. cbn [startswith]. rewrite andb_false_r.
    cbn [String.length DiffEditor.collapse_slashes].
    assert (Hc : contains (String x "") "//" = false).
    { unfold contains. cbn [find startswith]. now rewrite andb_false_r. }
    rewrite Hc. unfold strip, strip_by. cbn [rstrip_by lstrip_by chr].
    rewrite Hx. unfold chr. cbn [lstrip_by]. now rewrite Hx. }
  unfold DiffEditor._normalize_edit_path. cbn [chr truthy negb].
  unfold replace. cbn [replace_from chr startswith String.length Nat.sub].
  rewrite andb_true_r. destruct (Ascii.eqb BSL a) eqn:E.
  - exists "/"%char. split; [|reflexivity].
    cbn [append replace_from]. exact (Hone "/"%char eq_refl).
  - exists a. split; [|exact Ha]. cbn [replace_from]. exact (Hone a Ha).
Qed.

(** X8.  On a response that holds no opening bracket and begins with a
    character that is not white space, [parse_edit_blocks] raises
    [IndexError]: its last pass reads the second group of a pattern that has
    one.  The caller catches the exception and goes on without edits. *)
Theorem parse_edit_blocks_raises_without_tags :
  forall (a : ascii) (rest : string),
    isspace a = false ->
    has_char "<" (String a rest) = false ->
    DiffEditor.parse_edit_blocks (String a rest)
    = DiffEditor.Raise DiffEditor.IndexError
    /\ Builder.edit_blocks_of (String a rest) = [].
Proof.
  intros a rest Ha Hlt.
  assert (H : DiffEditor.parse_edit_blocks (String a rest)
              = DiffEditor.Raise DiffEditor.IndexError).
  { unfold DiffEditor.parse_edit_blocks. cbn [truthy negb].
    unfold DiffEditor.format1.
    rewrite (finditer_needs Re.DOTALL "<" DiffEditor.edit_pattern _
               (lit_lt_only _) eq_refl Hlt).
    cbn [fold_left]. unfold DiffEditor.format2. cbn [fst].
    rewrite (finditer_needs Re.DOTALL "<" DiffEditor.unclosed_edit _
               (lit_lt_only _) eq_refl Hlt).
    cbn [fold_left].
    destruct (normalize_edit_path_char a Ha) as (x & Hx & Hsp).
    rewrite format3_raises; [reflexivity| | |].
    - destruct (Ascii.eqb LF a) eqn:E; [|reflexivity].
      apply Ascii.eqb_eq in E. subst a. discriminate.
    - now rewrite Hx.
    - reflexivity. }
  split; [exact H|]. unfold Builder.edit_blocks_of. now rewrite H.
Qed.

Lemma parse_edit_blocks_raises_witness :
  isspace "D" = false
  /\ has_char "<" "Done." = false
  /\ DiffEditor.parse_edit_blocks "Done."
     = DiffEditor.Raise DiffEditor.IndexError
  /\ Builder.edit_blocks_of "Done." = [].
Proof.
  assert (H1 : isspace "D" = false) by reflexivity.
  assert (H2 : has_char "<" "Done." = false) by reflexivity.
  refine (conj H1 (conj H2 _)).
  exact (parse_edit_blocks_raises_without_tags "D" "one." H1 H2).
Defined.

(** X9.  A response that holds no opening bracket and no backtick yields no
    file: none of the four patterns of [parse_files_from_response] has a
    match in it. *)
Theorem parse_files_from_plain_text :
  forall response : string,
    has_char "<" response = false ->
    has_char "`" response = false ->
    Builder.parse_files_from_response response = DiffEditor.Ok [].
Proof.
  intros response Hlt Hb. unfold Builder.parse_files_from_response.
  destruct (negb (truthy response)); [reflexivity|].
  rewrite (finditer_needs Re.DOTALL_IGNORECASE "<" Builder.file_tag _
             (lit_lt_only _) eq_refl Hlt).
  rewrite (finditer_needs Re.DOTALL "`" Builder.heading_block _
             (lit_backtick _) eq_refl Hb).
  rewrite (finditer_needs Re.DOTALL "`" Builder.comment_block _
             (lit_backtick _) eq_refl Hb).
  rewrite (finditer_needs Re.DOTALL_IGNORECASE "`" Builder.label_block _
             (lit_backtick _) eq_refl Hb).
  reflexivity.
Qed.

Lemma parse_files_from_plain_text_witness :
  has_char "<" "File: notes.txt is fine." = false
  /\ has_char "`" "File: notes.txt is fine." = false
  /\ Builder.parse_files_from_response "File: notes.txt is fine."
     = DiffEditor.Ok [].
Proof.
  assert (H1 : has_char "<" "File: notes.txt is fine." = false) by reflexivity.
  assert (H2 : has_char "`" "File: notes.txt is fine." = false) by reflexivity.
  refine (conj H1 (conj H2 _)).
  exact (parse_files_from_plain_text _ H1 H2).
Defined.

(** ** Writes of full files *)






(** A write that the disk refuses after the directory was made: the answer
    is [False] and the directory stays. *)
Example write_refused_after_mkdir :
  Builder.write_project_file
    (Fs.Disk [] [["proj"]]
       (fun p => Fs.path_eqb p ["proj"; "src"; "new.py"]))
    proj "src/new.py" "x = 1"
  = DiffEditor.Ok
      (Fs.Disk [] [["proj"; "src"]; ["proj"]]
         (fun p => Fs.path_eqb p ["proj"; "src"; "new.py"]),
       false).
Proof. reflexivity. Qed.

(** ** The dependency graph *)

Section DependencyGraph.

Import ProjectContext.

Variable files : dict FileInfo.

(** The loop over the imports of one file keeps the list of dependencies
    free of repetitions, and adds resolved imports only. *)
Lemma deps_loop (fpath : string) (imps : list string) (deps : list string) :
  NoDup deps ->
  Forall (fun dep => truthy dep = true
                     /\ exists imp, resolve_import imp fpath files = Some dep)
         deps ->
  let deps' :=
    fold_left
      (fun (deps : list string) (imp : string) =>
         match resolve_import imp fpath files with
         | Some resolved =>
             if truthy resolved && negb (mem resolved deps)
             then app deps [resolved] else deps
         | None => deps
         end)
      imps deps in
  NoDup deps'
  /\ Forall (fun dep => truthy dep = true
                        /\ exists imp, resolve_import imp fpath files = Some dep)
            deps'.
Proof.
  revert deps. induction imps as [|imp imps IH]; intros deps Hnd Hall;
    cbn [fold_left]; [split; assumption|].
  apply IH.
  - destruct (resolve_import imp fpath files) as [r|]; [|exact Hnd].
    destruct (truthy r && negb (mem r deps)) eqn:E; [|exact Hnd].
    apply andb_prop in E. destruct E as [_ E].
    apply NoDup_snoc; [exact Hnd|].
    intros Hin. apply mem_In in Hin. rewrite Hin in E. discriminate.
  - destruct (resolve_import imp fpath files) as [r|] eqn:R; [|exact Hall].
    destruct (truthy r && negb (mem r deps)) eqn:E; [|exact Hall].
    apply andb_prop in E. destruct E as [E _].
    apply Forall_snoc; [exact Hall|]. split; [exact E|now exists imp].
Qed.

Lemma dict_set_fresh {V : Type} (k : string) (v : V) (m : dict V) :
  ~ In k (map fst m) -> dict_set k v m = (m ++ [(k, v)])%list.
Proof.
  induction m as [|[k' v'] m IH]; intros H; [reflexivity|].
  cbn [dict_set]. destruct (String.eqb k' k) eqn:E.
  - apply String.eqb_eq in E. subst k'. exfalso. apply H. now left.
  - cbn [app]. rewrite IH; [reflexivity|]. intros Hin. apply H. now right.
Qed.

(** The loop over the files adds one entry per file, in order. *)
Lemma graph_loop (l : dict FileInfo) (graph : dict (list string)) :
  NoDup (map fst graph ++ map fst l) ->
  Forall (fun kv =>
            NoDup (snd kv)
            /\ Forall (fun dep =>
                         truthy dep = true
                         /\ exists imp,
                              resolve_import imp (fst kv) files = Some dep)
                      (snd kv))
         graph ->
  let graph' :=
    fold_left
      (fun (graph : dict (list string)) (kv : string * FileInfo) =>
         let '(fpath, info) := kv in
         let deps :=
           fold_left
             (fun (deps : list string) (imp : string) =>
                match resolve_import imp fpath files with
                | Some resolved =>
                    if truthy resolved && negb (mem resolved deps)
                    then app deps [resolved] else deps
                | None => deps
                end)
             (imports info) [] in
         dict_set fpath deps graph)
      l graph in
  map fst graph' = (map fst graph ++ map fst l)%list
  /\ Forall (fun kv =>
               NoDup (snd kv)
               /\ Forall (fun dep =>
                            truthy dep = true
                            /\ exists imp,
                                 resolve_import imp (fst kv) files = Some dep)
                         (snd kv))
            graph'.
Proof.
  revert graph. induction l as [|[fpath info] l IH]; intros graph Hnd Hall;
    cbn [fold_left].
  - cbn [map]. rewrite app_nil_r. split; [reflexivity|exact Hall].
  - cbn [map fst] in Hnd.
    assert (Hfresh : ~ In fpath (map fst graph)).
    { intros Hin. apply NoDup_app_remove_r in Hnd as Hg.
      apply NoDup_remove_2 in Hnd. apply Hnd. apply in_or_app. now left. }
    rewrite (dict_set_fresh _ _ _ Hfresh).
    match goal with
    | |- context [fold_left _ l (graph ++ [(fpath, ?d)])%list] =>
        specialize (IH (graph ++ [(fpath, d)])%list)
    end.
    cbn zeta in IH. rewrite map_app in IH. cbn [map fst] in IH.
    rewrite <- app_assoc in IH. cbn [app] in IH.
    apply IH; [exact Hnd|].
    apply Forall_snoc; [exact Hall|]. cbn [fst snd].
    apply (deps_loop fpath (imports info) []); constructor.
Qed.

End DependencyGraph.

(** X12.  When the keys of the file dictionary are distinct, the dependency
    graph has one entry per file, in the order of the files; every list of
    dependencies is free of repetitions and holds only non-empty targets to
    which an import resolves from that file. *)
Theorem dependency_graph_shape :
  forall files : ProjectContext.dict ProjectContext.FileInfo,
    NoDup (map fst files) ->
    map fst (ProjectContext.build_dependency_graph files) = map fst files
    /\ Forall
         (fun kv =>
            NoDup (snd kv)
            /\ Forall
                 (fun dep =>
                    truthy dep = true
                    /\ exists imp,
                         ProjectContext.resolve_import imp (fst kv) files
                         = Some dep)
                 (snd kv))
         (ProjectContext.build_dependency_graph files).
Proof.
  intros files Hnd. unfold ProjectContext.build_dependency_graph.
  apply (graph_loop files files []); [exact Hnd|constructor].
Qed.

Lemma dependency_graph_shape_witness :
  NoDup (map fst relative_import_files)
  /\ map fst (ProjectContext.build_dependency_graph relative_import_files)
     = map fst relative_import_files
  /\ Forall
       (fun kv =>
          NoDup (snd kv)
          /\ Forall
               (fun dep =>
                  truthy dep = true
                  /\ exists imp,
                       ProjectContext.resolve_import imp (fst kv)
                         relative_import_files = Some dep)
               (snd kv))
       (ProjectContext.build_dependency_graph relative_import_files).
Proof.
  assert (H : NoDup (map fst relative_import_files)).
  { repeat constructor; cbn; intuition discriminate. }
  split; [exact H|].
  exact (dependency_graph_shape relative_import_files H).
Defined.

Example dependency_graph_sample :
  ProjectContext.build_dependency_graph relative_import_files
  = [("pkg/main.py", ["pkg/models.py"]); ("pkg/models.py", [])].
Proof. vm_compute. reflexivity. Qed.

(** ** The depth of the search *)

Section ChainSearch.

Import ProjectContext.

Lemma chain_graph_keys (names : list string) :
  map fst (chain_graph names) = names.
Proof.
  induction names as [|x names IH]; [reflexivity|].
  cbn [chain_graph map fst]. now rewrite IH.
Qed.

(** In a chain of distinct names, each name imports the next one only. *)
Lemma graph_get_chain (pre : list string) (x : string) (rest : list string) :
  NoDup (pre ++ x :: rest) ->
  graph_get (chain_graph (pre ++ x :: rest)) x
  = match rest with [] => [] | y :: _ => [y] end.
Proof.
  unfold graph_get. induction pre as [|p pre IH]; intros Hn.
  - cbn [app chain_graph dict_get]. now rewrite String.eqb_refl.
  - cbn [app chain_graph dict_get]. inversion Hn as [|? ? Hp Hn']. subst.
    assert (E : String.eqb p x = false).
    { apply eqb_false. intros ->. apply Hp, in_or_app. right. now left. }
    rewrite E. exact (IH Hn').
Qed.

Lemma mem_false (x : string) (l : list string) : ~ In x l -> mem x l = false.
Proof.
  intros H. destruct (mem x l) eqn:E; [|reflexivity].
  apply mem_In in E. contradiction.
Qed.

Variable names : list string.
Hypothesis Hnames : NoDup names.

Lemma graph_get_in_chain (pre : list string) (x : string)
    (rest : list string) :
  names = (pre ++ x :: rest)%list ->
  graph_get (chain_graph names) x
  = match rest with [] => [] | y :: _ => [y] end.
Proof.
  intros H. pose proof Hnames as Hn. rewrite H in Hn. rewrite H.
  exact (graph_get_chain pre x rest Hn).
Qed.

(** A call of [dfs] on a name of the chain, with the names before it on
    the stack, goes as deep as the rest of the chain is long. *)
Lemma dfs_chain (rest : list string) :
  forall (x : string) (pre : list string) (limit : nat),
    names = (pre ++ x :: rest)%list ->
    dfs limit (chain_graph names) x (mkCState [] [] pre pre)
    = if List.length (x :: rest) <=? limit
      then Returns (mkCState [] [] (pre ++ x :: rest) pre)
      else RecursionError.
Proof.
  induction rest as [|y rest IH]; intros x pre limit Hsplit.
  - destruct limit as [|limit]; [reflexivity|].
    cbn [dfs]. rewrite (graph_get_in_chain pre x _ Hsplit).
    assert (Hx : mem x pre = false).
    { apply mem_false. intros Hin. pose proof Hnames as Hn.
      rewrite Hsplit in Hn.
      apply NoDup_remove_2 in Hn. apply Hn, in_or_app. now left. }
    cbn [dfs_loop call_map]. unfold leave, enter.
    cbn [c_issues c_reported c_visited c_rec_stack].
    rewrite Hx, removelast_snoc. reflexivity.
  - destruct limit as [|limit]; [reflexivity|].
    cbn [dfs]. rewrite (graph_get_in_chain pre x _ Hsplit).
    assert (Hx : mem x pre = false).
    { apply mem_false. intros Hin. pose proof Hnames as Hn.
      rewrite Hsplit in Hn.
      apply NoDup_remove_2 in Hn. apply Hn, in_or_app. now left. }
    assert (Hy : mem y (pre ++ [x]) = false).
    { apply mem_false. intros Hin. pose proof Hnames as Hn.
      rewrite Hsplit in Hn.
      replace (pre ++ x :: y :: rest)%list
        with ((pre ++ [x]) ++ y :: rest)%list in Hn
        by (rewrite <- app_assoc; reflexivity).
      apply NoDup_remove_2 in Hn. apply Hn, in_or_app. now left. }
    unfold enter. cbn [c_issues c_reported c_visited c_rec_stack].
    rewrite Hx. cbn [dfs_loop c_visited c_rec_stack]. rewrite Hy. cbn [negb].
    rewrite (IH y (pre ++ [x])%list limit)
      by (rewrite Hsplit, <- app_assoc; reflexivity).
    change (List.length (x :: y :: rest) <=? S limit)
      with (List.length (y :: rest) <=? limit).
    destruct (List.length (y :: rest) <=? limit); [|reflexivity].
    cbn [dfs_loop call_map]. unfold leave.
    cbn [c_issues c_reported c_visited c_rec_stack].
    rewrite removelast_snoc, <- app_assoc. reflexivity.
Qed.

Lemma dfs_all_visited (limit : nat) (nodes visited stack : list string) :
  (forall x, In x nodes -> In x visited) ->
  dfs_all limit (chain_graph names) nodes (mkCState [] [] visited stack)
  = Returns (mkCState [] [] visited stack).
Proof.
  induction nodes as [|x nodes IH]; intros H; [reflexivity|].
  cbn [dfs_all c_visited].
  assert (Hx : mem x visited = true) by (apply mem_In, H; now left).
  rewrite Hx. cbn [negb]. apply IH. intros z Hz. apply H. now right.
Qed.

End ChainSearch.

(** X13.  The search of [detect_circular_imports] goes as deep as the
    chains of imports are long: on a chain of distinct names, each of which
    imports the next, the detector returns, with no issue, when the
    interpreter allows as many nested calls as the chain has names, and
    raises [RecursionError] when it allows fewer. *)
Theorem detect_circular_imports_on_chain :
  forall (names : list string) (limit : nat),
    NoDup names ->
    ProjectContext.detect_circular_imports limit (chain_graph names)
    = if List.length names <=? limit
      then ProjectContext.Returns []
      else ProjectContext.RecursionError.
Proof.
  intros names limit Hn. unfold ProjectContext.detect_circular_imports.
  rewrite chain_graph_keys.
  destruct names as [|x rest]; [reflexivity|].
  cbn [ProjectContext.dfs_all ProjectContext.c_visited mem existsb negb].
  rewrite (dfs_chain (x :: rest) Hn rest x [] limit eq_refl). cbn [app].
  destruct (List.length (x :: rest) <=? limit); [|reflexivity].
  rewrite dfs_all_visited; [reflexivity|].
  intros z Hz. now right.
Qed.

(** Three files in a chain, under a limit of three nested calls and under
    a limit of two. *)
Lemma detect_circular_imports_chain_witness :
  NoDup ["a.py"; "b.py"; "c.py"]
  /\ ProjectContext.detect_circular_imports 3
       [("a.py", ["b.py"]); ("b.py", ["c.py"]); ("c.py", [])]
     = ProjectContext.Returns []
  /\ ProjectContext.detect_circular_imports 2
       [("a.py", ["b.py"]); ("b.py", ["c.py"]); ("c.py", [])]
     = ProjectContext.RecursionError.
Proof.
  assert (H : NoDup ["a.py"; "b.py"; "c.py"]).
  { repeat constructor; cbn; intuition discriminate. }
  split; [exact H|]. split.
  - exact (detect_circular_imports_on_chain ["a.py"; "b.py"; "c.py"] 3 H).
  - exact (detect_circular_imports_on_chain ["a.py"; "b.py"; "c.py"] 2 H).
Defined.

(** ** Where an import resolves *)

Section ResolveTargets.

Import ProjectContext.

Variable files : dict FileInfo.

Lemma first_some_some {A B : Type} (f : A -> option B) (l : list A) (y : B) :
  first_some f l = Some y -> exists x, In x l /\ f x = Some y.
Proof.
  induction l as [|x l IH]; cbn [first_some]; [discriminate|].
  destruct (f x) as [z|] eqn:E.
  - intros H. inversion H; subst. exists x. split; [now left|exact E].
  - intros H. destruct (IH H) as (x' & Hin & Hx). exists x'.
    split; [now right|exact Hx].
Qed.

Lemma in_dict_has {V : Type} (k : string) (v : V) (m : dict V) :
  In (k, v) m -> dict_has k m = true.
Proof.
  unfold dict_has. induction m as [|[k' v'] m IH]; [contradiction|].
  cbn [dict_get]. intros [H|H].
  - inversion H; subst. now rewrite String.eqb_refl.
  - destruct (String.eqb k' k); [reflexivity|exact (IH H)].
Qed.

Lemma startswith_app_l (s a b : string) :
  startswith s (a ++ b) = true -> startswith s a = true.
Proof.
  revert s. induction a as [|x a IH]; intros s H.
  - destruct s; reflexivity.
  - destruct s as [|c s]; cbn [append startswith] in *; [discriminate|].
    apply andb_prop in H. destruct H as [-> H]. exact (IH s H).
Qed.

Lemma endswith_snoc (m : string) (c : ascii) :
  endswith (m ++ chr c) (chr c) = true.
Proof.
  induction m as [|a m IH].
  - pose proof (endswith_char_cons c c "") as E. cbn [append].
    unfold chr in *. rewrite E. apply Ascii.eqb_refl.
  - pose proof (endswith_char_cons a c (m ++ chr c)) as E. cbn [append].
    rewrite E. destruct (m ++ chr c) eqn:F; [|exact IH].
    destruct m; discriminate.
Qed.

(** The directory that stands for a namespace package holds a file. *)
Lemma namespace_directory (m : string) :
  any_under (m ++ "/") files = true ->
  any_under (rstrip_by (Ascii.eqb "/") (m ++ "/") ++ "/") files = true.
Proof.
  destruct (rstrip_by_prefix (Ascii.eqb "/") (m ++ "/")) as (w & Hw & Hall).
  destruct w as [|c w].
  - rewrite append_nil_r in Hw.
    pose proof (endswith_rstrip_fixed "/" (m ++ "/") (eq_sym Hw)) as E.
    pose proof (endswith_snoc m "/") as F. unfold chr in *.
    rewrite F in E. discriminate.
  - cbn [all_chars] in Hall. apply andb_prop in Hall. destruct Hall as [Hc _].
    apply Ascii.eqb_eq in Hc. subst c.
    unfold any_under. rewrite !existsb_exists.
    intros (kv & Hin & Hs). exists kv. split; [exact Hin|].
    rewrite Hw in Hs.
    change (String "/" w) with ("/" ++ w) in Hs.
    rewrite <- append_assoc in Hs. exact (startswith_app_l _ _ _ Hs).
Qed.

Lemma resolve_python_import_target (imp from_file p : string) :
  resolve_python_import imp from_file files = Some p ->
  dict_has p files = true \/ any_under (p ++ "/") files = true.
Proof.
  unfold resolve_python_import. intros H.
  apply first_some_some in H. destruct H as (i & _ & H). cbn beta zeta in H.
  destruct (dict_has (join "/" (firstn i (split imp ".")) ++ ".py") files)
    eqn:E1; [inversion H; subst; now left|].
  destruct (dict_has (join "/" (firstn i (split imp ".")) ++ "/__init__.py")
              files) eqn:E2; [inversion H; subst; now left|].
  destruct (any_under (join "/" (firstn i (split imp ".")) ++ "/") files)
    eqn:E3; [|discriminate].
  inversion H; subst. right. now apply namespace_directory.
Qed.

Lemma first_some_in_files (ext : list string) (base p : string) :
  first_some
    (fun e => if dict_has (base ++ e) files then Some (base ++ e) else None)
    ext = Some p ->
  dict_has p files = true.
Proof.
  intros H. apply first_some_some in H. destruct H as (e & _ & H).
  cbn beta in H. destruct (dict_has (base ++ e) files) eqn:E; [|discriminate].
  inversion H; subst. exact E.
Qed.

End ResolveTargets.

(** X14.  An import never resolves outside the project: the target that
    [resolve_import] returns is a key of the file dictionary, or a directory
    that holds a file of the dictionary. *)
Theorem resolve_import_stays_in_project :
  forall (files : ProjectContext.dict ProjectContext.FileInfo)
         (imp from_file p : string),
    ProjectContext.resolve_import imp from_file files = Some p ->
    ProjectContext.dict_has p files = true
    \/ ProjectContext.any_under (p ++ "/") files = true.
Proof.
  intros files imp from_file p H. unfold ProjectContext.resolve_import in H.
  destruct (ProjectContext.dict_get from_file files) as [info|];
    [|discriminate].
  destruct (String.eqb (ProjectContext.language info) "python").
  { exact (resolve_python_import_target files _ _ _ H). }
  destruct (mem (ProjectContext.language info) ["javascript"; "typescript"]).
  { unfold ProjectContext.resolve_js_import in H.
    destruct (negb (startswith imp ".")); [discriminate|].
    left. exact (first_some_in_files files _ _ _ H). }
  destruct (String.eqb (ProjectContext.language info) "rust").
  { destruct (startswith imp "crate::"); [|discriminate].
    left. exact (first_some_in_files files _ _ _ H). }
  destruct (String.eqb (ProjectContext.language info) "go"); [|discriminate].
  apply first_some_some in H. destruct H as ([fpath i] & Hin & H).
  cbn [fst] in H. destruct (endswith fpath ".go" && _); [|discriminate].
  inversion H; subst. left. exact (in_dict_has _ _ _ Hin).
Qed.

Lemma resolve_import_witness :
  ProjectContext.resolve_import "pkg.models.Model" "pkg/main.py"
    relative_import_files = Some "pkg/models.py"
  /\ (ProjectContext.dict_has "pkg/models.py" relative_import_files = true
      \/ ProjectContext.any_under ("pkg/models.py" ++ "/")
           relative_import_files = true).
Proof.
  assert (H : ProjectContext.resolve_import "pkg.models.Model" "pkg/main.py"
                relative_import_files = Some "pkg/models.py") by reflexivity.
  split; [exact H|].
  exact (resolve_import_stays_in_project _ _ _ _ H).
Defined.

(** ** Ignore patterns *)

Lemma replace_absent (c : ascii) (new s : string) :
  has_char c s = false -> replace s (chr c) new = s.
Proof.
  unfold replace, chr. induction s as [|a s IH]; intros H; [reflexivity|].
  cbn [has_char] in H. apply orb_false_elim in H. destruct H as [Ha Hs].
  cbn [replace_from startswith]. rewrite Ha. cbn [andb]. now rewrite (IH Hs).
Qed.

(** X15.  The patterns read from [.aiignore] and [.gitignore] can only add
    to the defaults: a path that the default patterns ignore is ignored with
    the loaded patterns, whatever the two files hold. *)
Theorem loaded_patterns_keep_defaults :
  forall (fnmatch : string -> string -> bool) (filepath : string)
         (aiignore gitignore : option string),
    AiIgnore.should_ignore fnmatch filepath AiIgnore.DEFAULT_IGNORE = true ->
    AiIgnore.should_ignore fnmatch filepath
      (AiIgnore.load_aiignore aiignore gitignore) = true.
Proof.
  intros fnmatch filepath aiignore gitignore H.
  unfold AiIgnore.should_ignore, AiIgnore.load_aiignore in *.
  rewrite existsb_app, H. reflexivity.
Qed.

Lemma loaded_patterns_witness :
  AiIgnore.should_ignore AiIgnore.simple_fnmatch "node_modules/left-pad/index.js"
    AiIgnore.DEFAULT_IGNORE = true
  /\ AiIgnore.should_ignore AiIgnore.simple_fnmatch
       "node_modules/left-pad/index.js"
       (AiIgnore.load_aiignore (Some (esc "# keep\n!node_modules/\n")) None)
     = true.
Proof.
  assert (H : AiIgnore.should_ignore AiIgnore.simple_fnmatch
                "node_modules/left-pad/index.js" AiIgnore.DEFAULT_IGNORE
              = true) by reflexivity.
  split; [exact H|].
  exact (loaded_patterns_keep_defaults _ _ _ None H).
Defined.

(** X16.  A slash at the end of a pattern makes no difference to
    [should_ignore]: every pattern is read without its trailing slashes, so a
    directory pattern also ignores a file of that name. *)
Theorem trailing_slash_is_immaterial :
  forall (fnmatch : string -> string -> bool) (filepath : string)
         (patterns : list string),
    AiIgnore.should_ignore fnmatch filepath
      (map (rstrip_by (Ascii.eqb "/")) patterns)
    = AiIgnore.should_ignore fnmatch filepath patterns.
Proof.
  intros fnmatch filepath patterns. unfold AiIgnore.should_ignore.
  induction patterns as [|p patterns IH]; [reflexivity|].
  cbn [map existsb]. rewrite IH. f_equal.
  unfold AiIgnore.matches_pattern. now rewrite !rstrip_by_idem.
Qed.

(** X17.  [should_ignore] reads a path with backslashes as the same path
    with slashes. *)
Theorem should_ignore_reads_backslashes_as_slashes :
  forall (fnmatch : string -> string -> bool) (filepath : string)
         (patterns : list string),
    AiIgnore.should_ignore fnmatch (replace filepath (chr BSL) "/") patterns
    = AiIgnore.should_ignore fnmatch filepath patterns.
Proof.
  intros fnmatch filepath patterns. unfold AiIgnore.should_ignore.
  rewrite (replace_absent BSL "/" (replace filepath (chr BSL) "/")).
  - reflexivity.
  - unfold replace. apply replace_char_gone. reflexivity.
Qed.

(** ** The files of a scan *)

Section ScanEntries.

Import ProjectContext.

Variable fnmatch : string -> string -> bool.
Variable ast_parse : string -> string + list ast_node.

Lemma scan_file_entries (patterns : list string) st f :
  Forall context_entry (fst st) ->
  Forall context_entry (fst (scan_file fnmatch ast_parse patterns st f)).
Proof.
  intro Hst. unfold scan_file.
  destruct st as [fs issues]. destruct f as [[[dir filename] st_size] text].
  destruct (mem filename IGNORE_FILES); [exact Hst|].
  destruct (_ && _); [exact Hst|].
  destruct (N.ltb MAX_FILE_SIZE st_size) eqn:Hmax; [exact Hst|].
  destruct (N.eqb st_size 0) eqn:Hzero; [exact Hst|].
  destruct text as [content|]; [|exact Hst].
  cbn [fst] in *. apply Forall_forall. intros kv Hin.
  apply dict_set_in in Hin. destruct Hin as [Hin|Hin].
  - subst kv. unfold context_entry. cbn [fst snd].
    destruct (analyze_same_source ast_parse
                (mkFileInfo
                   (replace (join "/" (dir ++ [filename])) (chr BSL) "/")
                   content st_size (detect_language filename) [] [] [] []))
      as (Hp & _ & Hs & _).
    cbn [path size] in Hp, Hs. rewrite Hp, Hs. repeat split.
    + unfold replace. apply replace_char_gone. reflexivity.
    + apply N.eqb_neq. exact Hzero.
    + apply N.ltb_ge. exact Hmax.
  - rewrite Forall_forall in Hst. apply Hst, Hin.
Qed.

End ScanEntries.

(** X18.  In the context that [scan_project] returns, whatever the
    directory, the matcher and the parser: every record sits under its own
    path, a path without backslash; no record is of an empty file or of a
    file above the size limit; and the dependency graph has exactly one entry
    per file, in the order of the files. *)
Theorem scan_project_files_and_graph :
  forall (fnmatch : string -> string -> bool)
         (ast_parse : string -> string + list ProjectContext.ast_node)
         (scan_dir : list ProjectContext.node) (auto_detect : bool),
    let ctx :=
      ProjectContext.scan_project fnmatch ast_parse scan_dir auto_detect in
    Forall context_entry (ProjectContext.files ctx)
    /\ map fst (ProjectContext.dependency_graph ctx)
       = map fst (ProjectContext.files ctx).
Proof.
  intros fnmatch ast_parse scan_dir auto_detect.
  pose proof (scan_project_files fnmatch ast_parse scan_dir auto_detect)
    as Hnd.
  cbn zeta in *. unfold ProjectContext.scan_project in *.
  destruct (ProjectContext.find_project_root scan_dir auto_detect)
    as [actual_root entries].
  set (patterns := AiIgnore.load_aiignore _ _) in *.
  pose proof (fold_left_preserves
                (fun st : ProjectContext.dict ProjectContext.FileInfo
                          * list ProjectContext.Issue =>
                   Forall context_entry (fst st))
                (ProjectContext.scan_file fnmatch ast_parse patterns)
                (fun s x H => scan_file_entries fnmatch ast_parse patterns s x H)
                (ProjectContext.walk entries) ([], [])
                (Forall_nil _)) as Hwalk.
  destruct (fold_left (ProjectContext.scan_file fnmatch ast_parse patterns)
                      (ProjectContext.walk entries) ([], [])) as [fs found].
  cbn [ProjectContext.files ProjectContext.dependency_graph fst] in *.
  split; [exact Hwalk|].
  destruct Hnd as [Hnd _]. unfold ProjectContext.build_dependency_graph.
  apply (graph_loop fs fs []); [exact Hnd|constructor].
Qed.

(** ** Conventional names of local modules *)

(** X19.  A missing module whose top-level name is one of the conventional
    names of local modules is diagnosed as a local import and never as a pip
    package, whatever the disk holds: the name alone is one of the
    indicators. *)
Theorem conventional_names_are_local :
  forall (cwd : Fs.path) (d : Fs.disk) (error_output : string)
         (m : Re.rmatch),
    Re.search Re.NOFLAGS Chat.mod_pattern (error_line_of error_output)
    = Some m ->
    mem (nth 0 (split (Chat.text_of (Re.group m 1)) ".") "") Chat.local_names
    = true ->
    let dg := Chat.diagnose_test_error cwd d error_output in
    Chat.error_type dg = "missing_module"
    /\ Chat.missing_module dg = Chat.text_of (Re.group m 1)
    /\ Chat.is_local_import dg = true
    /\ Chat.is_pip_package dg = false.
Proof.
  intros cwd d error_output m Hsearch Hname dg. unfold dg.
  unfold Chat.diagnose_test_error. unfold error_line_of in Hsearch.
  destruct (Chat.find_error_line (split (strip error_output) LF))
    as [|c line] eqn:Hline.
  - vm_compute in Hsearch. discriminate.
  - cbn [truthy negb]. rewrite Hsearch.
    unfold Chat.diagnose_missing_module.
    destruct (Chat.extract_chain error_output) as [chain affected].
    rewrite Hname. cbn [existsb]. rewrite !orb_true_r.
    cbn [Chat.error_type Chat.missing_module Chat.is_local_import
         Chat.is_pip_package].
    repeat split.
Qed.

Lemma conventional_names_witness :
  exists m,
    Re.search Re.NOFLAGS Chat.mod_pattern (error_line_of utils_output)
    = Some m
    /\ Chat.text_of (Re.group m 1) = "utils.text"
    /\ Chat.is_local_import
         (Chat.diagnose_test_error ["proj"] requests_disk utils_output)
       = true
    /\ Chat.is_pip_package
         (Chat.diagnose_test_error ["proj"] requests_disk utils_output)
       = false.
Proof.
  destruct (Re.search Re.NOFLAGS Chat.mod_pattern
              (error_line_of utils_output)) as [m|] eqn:E;
    [|vm_compute in E; discriminate].
  exists m.
  assert (Hg : Chat.text_of (Re.group m 1) = "utils.text").
  { vm_compute in E. inversion E. reflexivity. }
  assert (Hn : mem (nth 0 (split (Chat.text_of (Re.group m 1)) ".") "")
                   Chat.local_names = true)
    by (rewrite Hg; reflexivity).
  refine (conj eq_refl (conj Hg _)).
  pose proof (conventional_names_are_local ["proj"] requests_disk
                utils_output m E Hn) as H.
  cbv zeta in H. destruct H as (_ & _ & Hl & Hp). exact (conj Hl Hp).
Defined.

(** ** Responses that change nothing *)

(** The third pass of [parse_edit_blocks] either raises or leaves the edits
    and the found paths as they were: to add an edit it has to read the
    second group of its pattern. *)
Lemma format3_body_keeps (m : Re.rmatch) (st st' : DiffEditor.pstate) :
  DiffEditor.format3_body m st = DiffEditor.Ok st' -> st' = st.
Proof.
  unfold DiffEditor.format3_body. destruct st as [edits found].
  unfold DiffEditor.group_of.
  cbn [Nat.leb DiffEditor.file_pattern_groups DiffEditor.bind].
  destruct (negb (truthy _) || mem _ found); intros H.
  - now inversion H.
  - discriminate.
Qed.

Lemma for_each_keeps {A S : Type} (body : A -> S -> DiffEditor.result S)
    (l : list A) :
  (forall x st st', body x st = DiffEditor.Ok st' -> st' = st) ->
  forall st st', DiffEditor.for_each l st body = DiffEditor.Ok st' -> st' = st.
Proof.
  intros Hbody. induction l as [|x l IH]; intros st st' H.
  - cbn in H. now inversion H.
  - cbn [DiffEditor.for_each] in H.
    destruct (body x st) as [st1|e] eqn:E; cbn [DiffEditor.bind] in H.
    + apply Hbody in E. subst st1. now apply IH.
    + discriminate.
Qed.

Lemma edit_blocks_plain (response : string) :
  has_char "<" response = false -> Builder.edit_blocks_of response = [].
Proof.
  intros Hlt. unfold Builder.edit_blocks_of, DiffEditor.parse_edit_blocks.
  destruct (negb (truthy response)); [reflexivity|].
  unfold DiffEditor.format1.
  rewrite (finditer_needs Re.DOTALL "<" DiffEditor.edit_pattern _
             (lit_lt_only _) eq_refl Hlt).
  cbn [fold_left]. unfold DiffEditor.format2. cbn [fst].
  rewrite (finditer_needs Re.DOTALL "<" DiffEditor.unclosed_edit _
             (lit_lt_only _) eq_refl Hlt).
  cbn [fold_left]. unfold DiffEditor.format3.
  destruct (DiffEditor.for_each _ _ _) as [st|e] eqn:E;
    cbn [DiffEditor.bind]; [|reflexivity].
  apply (for_each_keeps _ _ format3_body_keeps) in E. now subst st.
Qed.

(** X20.  A response that holds no opening bracket and no backtick changes
    nothing: [process_response_files] returns with the disk and the created
    files as they were, nothing written and an empty summary, whatever the
    configuration and the answers at the console. *)
Theorem plain_response_changes_nothing :
  forall (io : Builder.console) (cfg : Builder.config) (response : string)
         (base_dir : Fs.path) (d : Fs.disk)
         (created_files : DiffEditor.created),
    has_char "<" response = false ->
    has_char "`" response = false ->
    Builder.process_response_files io cfg response base_dir d created_files
    = DiffEditor.Ok
        (Builder.Outcome d created_files false (Builder.Summary [] [] [] [])).
Proof.
  intros io cfg response base_dir d created_files Hlt Hb.
  unfold Builder.process_response_files.
  destruct (negb (truthy response)) eqn:Ht; [reflexivity|].
  rewrite (edit_blocks_plain response Hlt). cbn [filter].
  unfold Builder.parse_files_from_response. rewrite Ht.
  rewrite (finditer_needs Re.DOTALL_IGNORECASE "<" Builder.file_tag _
             (lit_lt_only _) eq_refl Hlt).
  rewrite (finditer_needs Re.DOTALL "`" Builder.heading_block _
             (lit_backtick _) eq_refl Hb).
  rewrite (finditer_needs Re.DOTALL "`" Builder.comment_block _
             (lit_backtick _) eq_refl Hb).
  rewrite (finditer_needs Re.DOTALL_IGNORECASE "`" Builder.label_block _
             (lit_backtick _) eq_refl Hb).
  reflexivity.
Qed.

Lemma plain_response_witness :
  has_char "<" (esc "All tests pass.\n  Nothing to change.") = false
  /\ has_char "`" (esc "All tests pass.\n  Nothing to change.") = false
  /\ Builder.process_response_files
       (Builder.Console (fun _ => "y") (fun _ => [])) (Builder.Config true false)
       (esc "All tests pass.\n  Nothing to change.") proj passwd_disk []
     = DiffEditor.Ok
         (Builder.Outcome passwd_disk [] false (Builder.Summary [] [] [] [])).
Proof.
  assert (H1 : has_char "<" (esc "All tests pass.\n  Nothing to change.")
               = false) by reflexivity.
  assert (H2 : has_char "`" (esc "All tests pass.\n  Nothing to change.")
               = false) by reflexivity.
  refine (conj H1 (conj H2 _)).
  exact (plain_response_changes_nothing _ _ _ _ _ _ H1 H2).
Defined.

(** ** A search text of blanks *)

Lemma rstrip_blank (s : string) :
  all_chars isspace s = true -> rstrip s = "".
Proof.
  unfold rstrip. induction s as [|c s IH]; [reflexivity|].
  cbn [all_chars]. intros H. apply andb_prop in H. destruct H as [Hc Hs].
  rewrite rstrip_by_cons, (IH Hs), Hc. reflexivity.
Qed.

(** X21.  A search text made of blanks other than newlines, unless it
    occurs exactly once in the content, matches at the first line: the
    second strategy of [apply_search_replace] looks for the empty text, and
    the first line of the content is replaced by the replacement. *)
Theorem blank_search_overwrites_first_line :
  forall content search replace : string,
    truthy content = true ->
    truthy search = true ->
    all_chars isspace search = true ->
    has_char LF search = false ->
    count content search <> 1 ->
    DiffEditor.apply_search_replace content search replace
    = Some (join nl (split replace LF ++ skipn 1 (split content LF))%list).
Proof.
  intros content search replace Hc Hs Hblank Hlf Hcount.
  unfold DiffEditor.apply_search_replace. rewrite Hc, Hs. cbn [negb orb].
  apply Nat.eqb_neq in Hcount. rewrite Hcount, andb_false_r.
  assert (Hn : DiffEditor._normalize_trailing_whitespace search = "").
  { unfold DiffEditor._normalize_trailing_whitespace.
    rewrite (split_plain search Hlf). cbn [map].
    now rewrite (rstrip_blank search Hblank). }
  assert (Hstart : forall x, startswith x "" = true) by (now destruct x).
  assert (Htake : forall x, take 0 x = "") by (now destruct x).
  unfold DiffEditor.strategy_trailing. rewrite Hn, find_unfold, Hstart, Htake.
  reflexivity.
Qed.

Lemma blank_search_witness :
  truthy (esc "import os\nx = 1\n") = true
  /\ truthy "    " = true
  /\ all_chars isspace "    " = true
  /\ has_char LF "    " = false
  /\ count (esc "import os\nx = 1\n") "    " <> 1
  /\ DiffEditor.apply_search_replace (esc "import os\nx = 1\n") "    " "y = 2"
     = Some (esc "y = 2\nx = 1\n").
Proof.
  assert (H1 : truthy (esc "import os\nx = 1\n") = true) by reflexivity.
  assert (H2 : truthy "    " = true) by reflexivity.
  assert (H3 : all_chars isspace "    " = true) by reflexivity.
  assert (H4 : has_char LF "    " = false) by reflexivity.
  assert (H5 : count (esc "import os\nx = 1\n") "    " <> 1)
    by (vm_compute; discriminate).
  refine (conj H1 (conj H2 (conj H3 (conj H4 (conj H5 _))))).
  exact (blank_search_overwrites_first_line _ _ "y = 2" H1 H2 H3 H4 H5).
Defined.
